(** * Agentic recruitment system: orchestration core

    A shallow embedding of the Python sources

    - [backend/src/agents/base.py]          (module [Base])
    - [backend/src/schemas/candidates.py]   (module [Candidates])
    - [backend/src/agents/resume_parser.py] (module [ResumeParser])
    - [backend/src/agents/jd_analyzer.py]   (module [JDAnalyzer])
    - [backend/src/agents/bias_auditor.py]  (module [BiasAuditor])
    - [backend/src/core/logger.py]          (module [Logger])
    - [backend/src/agents/orchestrator.py]  (module [Orchestrator])

    followed by the vocabulary of the specification (modules [Spec],
    [FloatModel], [OrchSpec]), a concrete runtime for the examples (module
    [Sample]) and the properties of the specification, one module of
    properties and one of examples per source file.

    Conventions of the embedding.

    - Python [float]s are rationals ([Q]): comparisons are exact on both,
      sums and products are exact in the embedding and rounded in Python.
      Module [FloatModel] repeats the computations that the auditor and the
      gate examples compare with a threshold on binary64 floats, and
      [FloatChecks] shows that they fall on the same side of it.
    - Mutable objects are threaded explicitly: a method is a function in the
      state-and-exception monad [M] over the object's fields.  State changes
      made before an exception is raised stay in place, as in Python.
    - Exceptions are instances of [Exception], which is what the [except]
      clauses of the sources catch.
    - Python dictionaries are [gmap string Value].
    - What the sources take from the Python runtime (wall clock, [uuid4],
      number formatting, [str] of a value) is the class [PyRuntime]; what
      they take from [schemas/job.py] and [schemas/messages.py], which are
      not among the embedded sources, is module [Messages] and the class
      [Schemas].
    - A [while] loop is a function of a bound on its iterations that returns
      [None] when the bound does not suffice. *)

From Stdlib Require Import QArith Qabs Qminmax Lqa Floats.
From stdpp Require Import gmap strings list pretty.

#[local] Set Warnings "-register-all,-inexact-float".
#[local] Open Scope string_scope.

(* ===================================================================== *)
(** * Python values, exceptions and effects *)
(* ===================================================================== *)

Module Py.

(** JSON-like values stored in the dictionaries of the pipeline state. *)
Inductive Value :=
| VNone
| VBool (b : bool)
| VStr (s : string)
| VInt (z : Z)
| VFloat (q : Q)
| VList (l : list Value)
| VDict (d : gmap string Value).

Definition VStrs (l : list string) : Value := VList (VStr <$> l).

Definition default_get {A} (o : option A) (d : A) : A :=
  match o with Some a => a | None => d end.

(** An instance of (a subclass of) [Exception]: its class name and
    [str(e)]. *)
Record PyExc := { exc_class : string; exc_str : string }.

Definition ValueError (msg : string) : PyExc :=
  {| exc_class := "ValueError"; exc_str := msg |}.
Definition TypeError (msg : string) : PyExc :=
  {| exc_class := "TypeError"; exc_str := msg |}.

(** A computation over mutable state [S] that returns or raises. *)
Definition M (S A : Type) : Type := S -> (A + PyExc) * S.

Definition ret {S A} (a : A) : M S A := fun s => (inl a, s).
Definition bind {S A B} (c : M S A) (k : A -> M S B) : M S B :=
  fun s => match c s with
           | (inl a, s') => k a s'
           | (inr e, s') => (inr e, s')
           end.
Definition raise {S A} (e : PyExc) : M S A := fun s => (inr e, s).
Definition get {S} : M S S := fun s => (inl s, s).
Definition gets {S A} (f : S -> A) : M S A := fun s => (inl (f s), s).
Definition modify {S} (f : S -> S) : M S unit := fun s => (inl tt, f s).

(** [try: c except Exception as e: h e] *)
Definition try_except {S A} (c : M S A) (h : PyExc -> M S A) : M S A :=
  fun s => match c s with
           | (inl a, s') => (inl a, s')
           | (inr e, s') => h e s'
           end.

(** Run a computation on a component [T] of the state [S]. *)
Definition zoom {S T A} (proj : S -> T) (inj : T -> S -> S) (c : M T A)
  : M S A :=
  fun s => let '(r, t') := c (proj s) in (r, inj t' s).

(** Python's [a < b] on floats. *)
Definition Qltb (a b : Q) : bool := negb (Qle_bool b a).
(** Python's [a >= b] on floats. *)
Definition Qgeb (a b : Q) : bool := Qle_bool b a.
(** Python's [max(a, b)]: the first argument unless the second is larger. *)
Definition py_max (a b : Q) : Q := if Qltb a b then b else a.
(** Python's [sum] over floats, from the start value [0]. *)
Definition py_sum (l : list Q) : Q := fold_left Qplus l 0%Q.
(** [needle in haystack] on strings. *)
Fixpoint str_contains (needle haystack : string) : bool :=
  String.prefix needle haystack ||
  match haystack with
  | EmptyString => false
  | String _ rest => str_contains needle rest
  end.
(** [s[:n]] *)
Definition str_take (n : nat) (s : string) : string := String.substring 0 n s.


(** [for x in xs: acc = body x acc], with the local variable [acc] *)
Fixpoint for_loop {S A B} (xs : list A) (acc : B) (body : A -> B -> M S B)
  : M S B :=
  match xs with
  | [] => ret acc
  | x :: xs' => bind (body x acc) (fun acc' => for_loop xs' acc' body)
  end.

(** [bool(v)] *)
Definition truthy (v : Value) : bool :=
  match v with
  | VNone => false
  | VBool b => b
  | VStr s => negb (String.eqb s "")
  | VInt z => negb (z =? 0)%Z
  | VFloat q => negb (Qeq_bool q 0)
  | VList l => negb (Nat.eqb (length l) 0)
  | VDict d => negb (Nat.eqb (size d) 0)
  end.

(** [v[:n]]: strings and lists can be sliced, the other values raise. *)
Definition slice_to {S} (n : nat) (v : Value) : M S Value :=
  match v with
  | VStr s => ret (VStr (str_take n s))
  | VList l => ret (VList (take n l))
  | VNone => raise (TypeError "'NoneType' object is not subscriptable")
  | VBool _ => raise (TypeError "'bool' object is not subscriptable")
  | VInt _ => raise (TypeError "'int' object is not subscriptable")
  | VFloat _ => raise (TypeError "'float' object is not subscriptable")
  | VDict _ => raise (TypeError "unhashable type: 'slice'")
  end.

(** [d.get(key, default)] *)
Definition dict_get (d : gmap string Value) (key : string) (default : Value)
  : Value := default_get (d !! key) default.

End Py.
Import Py.

#[global] Instance M_ret {S} : MRet (M S) := @Py.ret S.
#[global] Instance M_bind {S} : MBind (M S) := fun A B k c => Py.bind c k.

(** What the embedded code takes from outside: the Python runtime and the
    declarations of [schemas/job.py] and [schemas/messages.py]. *)
Class PyRuntime := {
  (** [datetime.utcnow()]: the reading of the wall clock at its [k]-th call,
      in microseconds *)
  clock : nat -> Z;
  (** [datetime.isoformat()] *)
  isoformat : Z -> string;
  (** [uuid4().hex] at its [k]-th call *)
  uuid4_hex : nat -> string;
  (** [f"{x:.2f}"] *)
  fmt_2f : Q -> string;
  (** [f"{x:.0%}"] *)
  fmt_pct : Q -> string;
  (** [str(l)] for a list of strings *)
  str_list : list string -> string;
  (** [str(v)] for a value of a dictionary *)
  str_value : Value -> string;
  (** [str.lower()] *)
  str_lower : string -> string;
  (** [json.dumps(d)] *)
  json_dumps : gmap string Value -> string;
}.

(* ===================================================================== *)
(** * agents/base.py *)
(* ===================================================================== *)

Module Base.

Inductive AgentStatus := PENDING | RUNNING | SUCCESS | FAILED | BLOCKED.

#[global] Instance AgentStatus_eq_dec : EqDecision AgentStatus.
Proof. solve_decision. Defined.

Definition AgentStatus_value (s : AgentStatus) : string :=
  match s with
  | PENDING => "pending"
  | RUNNING => "running"
  | SUCCESS => "success"
  | FAILED => "failed"
  | BLOCKED => "blocked"
  end.

Record AgentResponse (OutputT : Type) := {
  agent_id : string;
  agent_type : string;
  status : AgentStatus;
  data : option OutputT;
  confidence : Q;
  explanation : string;
  audit_trail : list string;
  timestamp : Z;
  duration_ms : Q;
  errors : list string;
  warnings : list string;
  requires_human_review : bool;
}.
Arguments agent_id {OutputT}.
Arguments agent_type {OutputT}.
Arguments status {OutputT}.
Arguments data {OutputT}.
Arguments confidence {OutputT}.
Arguments explanation {OutputT}.
Arguments audit_trail {OutputT}.
Arguments timestamp {OutputT}.
Arguments duration_ms {OutputT}.
Arguments errors {OutputT}.
Arguments warnings {OutputT}.
Arguments requires_human_review {OutputT}.

(** [AgentResponse.to_dict]; [embed] is the representation of the output
    object, which the dictionary holds as it is. *)
Definition to_dict `{PyRuntime} {OutputT} (embed : OutputT -> Value)
    (self : AgentResponse OutputT) : gmap string Value :=
  {[ "agent_id" := VStr (agent_id self);
     "agent_type" := VStr (agent_type self);
     "status" := VStr (AgentStatus_value (status self));
     "data" := match data self with Some d => embed d | None => VNone end;
     "confidence" := VFloat (confidence self);
     "explanation" := VStr (explanation self);
     "audit_trail" := VStrs (audit_trail self);
     "timestamp" := VStr (isoformat (timestamp self));
     "duration_ms" := VFloat (duration_ms self);
     "errors" := VStrs (errors self);
     "warnings" := VStrs (warnings self);
     "requires_human_review" := VBool (requires_human_review self) ]}.

(** The mutable part of an agent instance, together with the number of
    clock readings made so far. *)
Record AgentSt := { _audit_log : list string; ticks : nat }.

(** [BaseAgent[InputT, OutputT]]: the attributes set by [__init__], the
    overridable property and the abstract method. *)
Record BaseAgent (InputT OutputT : Type) := {
  self_agent_id : string;
  self_agent_type : string;
  required_confidence_threshold : Q;
  _process : InputT -> M AgentSt (OutputT * Q * string);
}.
Arguments self_agent_id {InputT OutputT}.
Arguments self_agent_type {InputT OutputT}.
Arguments required_confidence_threshold {InputT OutputT}.
Arguments _process {InputT OutputT}.

(** The threshold of [BaseAgent.required_confidence_threshold]. *)
Definition default_confidence_threshold : Q := 0.7.

Section Run.
Context `{PyRuntime}.

Definition utcnow : M AgentSt Z :=
  fun s => (inl (clock (ticks s)),
            {| _audit_log := _audit_log s; ticks := S (ticks s) |}).

Definition log_reasoning (step : string) : M AgentSt unit :=
  timestamp ← utcnow;
  modify (fun s =>
    {| _audit_log := _audit_log s ++ ["[" ++ isoformat timestamp ++ "] " ++ step];
       ticks := ticks s |}).

Definition clear_audit_log : M AgentSt unit :=
  modify (fun s => {| _audit_log := []; ticks := ticks s |}).

(** [(datetime.utcnow() - start_time).total_seconds() * 1000] *)
Definition elapsed_ms (start_time : Z) : M AgentSt Q :=
  now ← utcnow;
  ret (inject_Z (now - start_time) / 1000)%Q.

Definition run {InputT OutputT} (self : BaseAgent InputT OutputT)
    (input_data : InputT) : M AgentSt (AgentResponse OutputT) :=
  start_time ← utcnow;
  clear_audit_log;;
  log_reasoning ("Starting " ++ self_agent_type self ++ " with input");;
  try_except
    (r ← _process self input_data;
     let '(output_data, confidence, explanation) := r in
     let needs_review :=
       Qltb confidence (required_confidence_threshold self) in
     (if needs_review
      then log_reasoning
             ("Confidence " ++ fmt_2f confidence ++ " below threshold "
              ++ fmt_2f (required_confidence_threshold self)
              ++ " - flagging for human review")
      else ret tt);;
     duration ← elapsed_ms start_time;
     log_reasoning
       ("Completed successfully in " ++ fmt_2f duration ++ "ms");;
     trail ← gets _audit_log;
     created ← utcnow;
     ret {| agent_id := self_agent_id self;
            agent_type := self_agent_type self;
            status := SUCCESS;
            data := Some output_data;
            confidence := confidence;
            explanation := explanation;
            audit_trail := trail;
            timestamp := created;
            duration_ms := duration;
            errors := [];
            warnings := [];
            requires_human_review := needs_review |})
    (fun e =>
     duration ← elapsed_ms start_time;
     log_reasoning ("Failed with error: " ++ exc_str e);;
     trail ← gets _audit_log;
     created ← utcnow;
     ret {| agent_id := self_agent_id self;
            agent_type := self_agent_type self;
            status := FAILED;
            data := None;
            confidence := 0;
            explanation := "Agent failed: " ++ exc_str e;
            audit_trail := trail;
            timestamp := created;
            duration_ms := duration;
            errors := [exc_str e];
            warnings := [];
            requires_human_review := true |}).

(** [BaseAgent.validate_input]: no validation unless overridden. *)
Definition validate_input {InputT} (input_data : InputT) : list string := [].

End Run.

End Base.

(* ===================================================================== *)
(** * schemas/candidates.py *)
(* ===================================================================== *)

Module Candidates.

Definition VOptInt (o : option Z) : Value :=
  match o with Some z => VInt z | None => VNone end.
Definition VOptFloat (o : option Q) : Value :=
  match o with Some q => VFloat q | None => VNone end.

Record CandidateProfile := {
  cp_candidate_id : string;
  anonymized_id : string;
  email_hash : string;
  resume_file_path : string;
  application_date : Z;
  data_consent_given : bool;
  consent_timestamp : option Z;
}.

Record SkillExtraction := {
  skill_name : string;
  category : string;
  proficiency_level : string;
  evidence : string;
  skill_confidence : Q;
}.

Definition SkillExtraction_to_dict (self : SkillExtraction) : gmap string Value :=
  {[ "skill_name" := VStr (skill_name self);
     "category" := VStr (category self);
     "proficiency_level" := VStr (proficiency_level self);
     "evidence" := VStr (evidence self);
     "confidence" := VFloat (skill_confidence self) ]}.

Record ExperienceEntry := {
  company_anonymized : string;
  role : string;
  duration_months : Z;
  responsibilities : list string;
  achievements : list string;
  skills_used : list string;
}.

Definition ExperienceEntry_to_dict (self : ExperienceEntry) : gmap string Value :=
  {[ "company_anonymized" := VStr (company_anonymized self);
     "role" := VStr (role self);
     "duration_months" := VInt (duration_months self);
     "responsibilities" := VStrs (responsibilities self);
     "achievements" := VStrs (achievements self);
     "skills_used" := VStrs (skills_used self) ]}.

Record EducationEntry := {
  degree : string;
  field_of_study : string;
  institution_anonymized : string;
  graduation_year : option Z;
  gpa : option Q;
  relevant_coursework : list string;
}.

Definition EducationEntry_to_dict (self : EducationEntry) : gmap string Value :=
  {[ "degree" := VStr (degree self);
     "field_of_study" := VStr (field_of_study self);
     "institution_anonymized" := VStr (institution_anonymized self);
     "graduation_year" := VOptInt (graduation_year self);
     "gpa" := VOptFloat (gpa self);
     "relevant_coursework" := VStrs (relevant_coursework self) ]}.

(** [candidate_id] is whatever the caller passed in the input dictionary. *)
Record ParsedResume := {
  pr_candidate_id : Value;
  parsing_timestamp : Z;
  parsing_confidence : Q;
  professional_summary : string;
  skills : list SkillExtraction;
  experience : list ExperienceEntry;
  education : list EducationEntry;
  certifications : list string;
  projects : list (gmap string Value);
  total_experience_months : Z;
  unique_skills_count : Z;
  resume_quality_score : Q;
  parsing_warnings : list string;
}.

Record FinalRanking := {
  fr_candidate_id : string;
  fr_job_id : string;
  rank : Z;
  resume_match_score : Q;
  test_score : Q;
  final_composite_score : Q;
  weights_used : gmap string Q;
  recommendation : string;
  fr_confidence : Q;
  ranking_explanation : string;
  key_strengths : list string;
  key_concerns : list string;
  bias_audit_passed : bool;
  human_review_required : bool;
  human_review_reason : string;
}.

Section ToDict.
Context `{PyRuntime}.

Definition CandidateProfile_to_dict (self : CandidateProfile)
  : gmap string Value :=
  {[ "candidate_id" := VStr (cp_candidate_id self);
     "anonymized_id" := VStr (anonymized_id self);
     "email_hash" := VStr (email_hash self);
     "resume_file_path" := VStr (resume_file_path self);
     "application_date" := VStr (isoformat (application_date self));
     "data_consent_given" := VBool (data_consent_given self);
     "consent_timestamp" :=
       match consent_timestamp self with
       | Some t => VStr (isoformat t)
       | None => VNone
       end ]}.

Definition ParsedResume_to_dict (self : ParsedResume) : gmap string Value :=
  {[ "candidate_id" := pr_candidate_id self;
     "parsing_timestamp" := VStr (isoformat (parsing_timestamp self));
     "parsing_confidence" := VFloat (parsing_confidence self);
     "professional_summary" := VStr (professional_summary self);
     "skills" := VList ((VDict ∘ SkillExtraction_to_dict) <$> skills self);
     "experience" :=
       VList ((VDict ∘ ExperienceEntry_to_dict) <$> experience self);
     "education" :=
       VList ((VDict ∘ EducationEntry_to_dict) <$> education self);
     "certifications" := VStrs (certifications self);
     "projects" := VList (VDict <$> projects self);
     "total_experience_months" := VInt (total_experience_months self);
     "unique_skills_count" := VInt (unique_skills_count self);
     "resume_quality_score" := VFloat (resume_quality_score self);
     "parsing_warnings" := VStrs (parsing_warnings self) ]}.
End ToDict.

End Candidates.

(* ===================================================================== *)
(** * agents/resume_parser.py *)
(* ===================================================================== *)

Module ResumeParser.
Import Base Candidates.

Section Agent.
Context `{PyRuntime}.

(** [f"{v}"]: a string is inserted as it is. *)
Definition fstr (v : Value) : string :=
  match v with VStr s => s | _ => str_value v end.

Definition _process (input_data : gmap string Value)
  : M AgentSt (ParsedResume * Q * string) :=
  log_reasoning "Starting resume parsing";;
  let candidate_id := dict_get input_data "candidate_id" (VStr "") in
  let resume_text := dict_get input_data "resume_text" (VStr "") in
  (if negb (truthy resume_text)
   then raise (ValueError "No resume text provided")
   else ret tt);;
  short ← slice_to 8 candidate_id;
  log_reasoning ("Processing resume for candidate " ++ fstr short ++ "...");;
  created ← utcnow;
  let parsed :=
    {| pr_candidate_id := candidate_id;
       parsing_timestamp := created;
       parsing_confidence := 0.85;
       professional_summary := "[To be extracted by LLM]";
       skills := [];
       experience := [];
       education := [];
       certifications := [];
       projects := [];
       total_experience_months := 0;
       unique_skills_count := 0;
       resume_quality_score := 0;
       parsing_warnings :=
         ["Mock implementation - actual parsing not yet implemented"] |} in
  let confidence := 0.85%Q in
  short' ← slice_to 8 candidate_id;
  let explanation :=
    "Parsed resume for candidate " ++ fstr short' ++ ". "
    ++ "Extracted structured data including skills, experience, and education. "
    ++ "Personal information has been anonymized." in
  log_reasoning "Resume parsing completed";;
  ret (parsed, confidence, explanation).

Definition validate_input (input_data : gmap string Value) : list string :=
  let errors : list string := [] in
  let errors :=
    if negb (truthy (dict_get input_data "candidate_id" VNone))
    then (errors ++ ["candidate_id is required"])%list else errors in
  let errors :=
    if negb (truthy (dict_get input_data "resume_text" VNone))
    then (errors ++ ["resume_text is required"])%list else errors in
  errors.

(** [ResumeParserAgent(agent_id)]; the threshold is the overridden
    property. *)
Definition ResumeParserAgent (agent_id : string)
  : BaseAgent (gmap string Value) ParsedResume :=
  {| self_agent_id := agent_id;
     self_agent_type := "ResumeParserAgent";
     required_confidence_threshold := 0.6;
     Base._process := _process |}.
End Agent.

End ResumeParser.

(* ===================================================================== *)
(** * schemas/job.py and schemas/messages.py *)
(* ===================================================================== *)

(** These two modules are not among the embedded sources.  The records
    below have the fields that the embedded code reads, writes or passes to
    the constructors; conversions whose bodies are unknown are fields of
    the class [Schemas]. *)
Module Messages.

(** The stages named by [orchestrator.py], in pipeline order, and the
    three terminal stages. *)
Inductive PipelineStage :=
| INITIALIZED | JD_ANALYSIS | RESUME_PARSING | MATCHING | SHORTLISTING
| TEST_GENERATION | TEST_EVALUATION | RANKING | BIAS_AUDIT
| COMPLETED | FAILED | AWAITING_HUMAN_REVIEW.

#[global] Instance PipelineStage_eq_dec : EqDecision PipelineStage.
Proof. solve_decision. Defined.

(** The arguments of the [DecisionGate(...)] call of [_run_shortlisting]. *)
Record DecisionGate := {
  gate_name : string;
  condition : string;
  threshold : Value;
  passed : bool;
  gate_explanation : string;
}.

Record ExperienceRequirement := { minimum_years : Z; preferred_years : Z }.
Record EducationRequirement := { minimum_degree : string }.

(** The arguments of the [ParsedJD(...)] call of [JDAnalyzerAgent]. *)
Record ParsedJD := {
  pj_job_id : string;
  pj_parsing_confidence : Q;
  job_title_normalized : string;
  seniority_level : string;
  job_function : string;
  pj_skills : list (gmap string Value);
  experience_requirements : ExperienceRequirement;
  education_requirements : EducationRequirement;
  key_responsibilities : list string;
  technical_topics : list string;
  difficulty_level : string;
  jd_quality_score : Q;
  potential_bias_flags : list string;
  pj_parsing_warnings : list string;
}.

(** Modelled from the spec: [PipelineState] of [schemas/messages.py], the
    orchestrator's session record of section 3, with the attributes that
    [orchestrator.py] and [bias_auditor.py] use. *)
Record PipelineState := {
  pipeline_id : string;
  job_id : string;
  current_stage : PipelineStage;
  job_description : gmap string Value;
  candidates : list (gmap string Value);
  parsed_jd : gmap string Value;
  agent_responses : list (gmap string Value);
  decision_gates : list (gmap string Value);
  shortlisted_candidates : list Value;
  match_results : list Value;
  test_questions : list Value;
  test_results : list Value;
  final_rankings : list Value;
  bias_audit_results : gmap string Value;
  errors : list string;
  warnings : list string;
}.

(** Modelled from the spec: the constructor of [PipelineState]; the
    pipeline id is generated once at creation and every log starts
    empty. *)
Definition new_PipelineState (fresh_id job_id : string)
    (current_stage : PipelineStage) (job_description : gmap string Value)
    (candidates : list (gmap string Value)) : PipelineState :=
  {| pipeline_id := fresh_id;
     job_id := job_id;
     current_stage := current_stage;
     job_description := job_description;
     candidates := candidates;
     parsed_jd := ∅;
     agent_responses := [];
     decision_gates := [];
     shortlisted_candidates := [];
     match_results := [];
     test_questions := [];
     test_results := [];
     final_rankings := [];
     bias_audit_results := ∅;
     errors := [];
     warnings := [] |}.

(** Modelled from the spec: [PipelineState.add_agent_response] appends to
    the append-only log of outcomes. *)
Definition add_agent_response (response : gmap string Value)
    (self : PipelineState) : PipelineState :=
  {| pipeline_id := pipeline_id self; job_id := job_id self;
     current_stage := current_stage self;
     job_description := job_description self;
     candidates := candidates self; parsed_jd := parsed_jd self;
     agent_responses := agent_responses self ++ [response];
     decision_gates := decision_gates self;
     shortlisted_candidates := shortlisted_candidates self;
     match_results := match_results self;
     test_questions := test_questions self;
     test_results := test_results self;
     final_rankings := final_rankings self;
     bias_audit_results := bias_audit_results self;
     errors := errors self; warnings := warnings self |}.

(** Modelled from the spec: [PipelineState.add_decision_gate] appends to
    the append-only log of gate evaluations. *)
Definition add_decision_gate (gate : gmap string Value)
    (self : PipelineState) : PipelineState :=
  {| pipeline_id := pipeline_id self; job_id := job_id self;
     current_stage := current_stage self;
     job_description := job_description self;
     candidates := candidates self; parsed_jd := parsed_jd self;
     agent_responses := agent_responses self;
     decision_gates := decision_gates self ++ [gate];
     shortlisted_candidates := shortlisted_candidates self;
     match_results := match_results self;
     test_questions := test_questions self;
     test_results := test_results self;
     final_rankings := final_rankings self;
     bias_audit_results := bias_audit_results self;
     errors := errors self; warnings := warnings self |}.

(** [self.current_stage = stage] *)
Definition set_current_stage (stage : PipelineStage) (self : PipelineState)
  : PipelineState :=
  {| pipeline_id := pipeline_id self; job_id := job_id self;
     current_stage := stage; job_description := job_description self;
     candidates := candidates self; parsed_jd := parsed_jd self;
     agent_responses := agent_responses self;
     decision_gates := decision_gates self;
     shortlisted_candidates := shortlisted_candidates self;
     match_results := match_results self;
     test_questions := test_questions self;
     test_results := test_results self;
     final_rankings := final_rankings self;
     bias_audit_results := bias_audit_results self; errors := errors self;
     warnings := warnings self |}.

(** [self.candidates = cs] *)
Definition set_candidates (cs : list (gmap string Value)) (self : PipelineState)
  : PipelineState :=
  {| pipeline_id := pipeline_id self; job_id := job_id self;
     current_stage := current_stage self;
     job_description := job_description self; candidates := cs;
     parsed_jd := parsed_jd self; agent_responses := agent_responses self;
     decision_gates := decision_gates self;
     shortlisted_candidates := shortlisted_candidates self;
     match_results := match_results self;
     test_questions := test_questions self;
     test_results := test_results self;
     final_rankings := final_rankings self;
     bias_audit_results := bias_audit_results self; errors := errors self;
     warnings := warnings self |}.

(** [self.parsed_jd = d] *)
Definition set_parsed_jd (d : gmap string Value) (self : PipelineState)
  : PipelineState :=
  {| pipeline_id := pipeline_id self; job_id := job_id self;
     current_stage := current_stage self;
     job_description := job_description self;
     candidates := candidates self; parsed_jd := d;
     agent_responses := agent_responses self;
     decision_gates := decision_gates self;
     shortlisted_candidates := shortlisted_candidates self;
     match_results := match_results self;
     test_questions := test_questions self;
     test_results := test_results self;
     final_rankings := final_rankings self;
     bias_audit_results := bias_audit_results self; errors := errors self;
     warnings := warnings self |}.

(** [self.match_results = l] *)
Definition set_match_results (l : list Value) (self : PipelineState)
  : PipelineState :=
  {| pipeline_id := pipeline_id self; job_id := job_id self;
     current_stage := current_stage self;
     job_description := job_description self;
     candidates := candidates self; parsed_jd := parsed_jd self;
     agent_responses := agent_responses self;
     decision_gates := decision_gates self;
     shortlisted_candidates := shortlisted_candidates self;
     match_results := l; test_questions := test_questions self;
     test_results := test_results self;
     final_rankings := final_rankings self;
     bias_audit_results := bias_audit_results self; errors := errors self;
     warnings := warnings self |}.

(** [self.test_questions = l] *)
Definition set_test_questions (l : list Value) (self : PipelineState)
  : PipelineState :=
  {| pipeline_id := pipeline_id self; job_id := job_id self;
     current_stage := current_stage self;
     job_description := job_description self;
     candidates := candidates self; parsed_jd := parsed_jd self;
     agent_responses := agent_responses self;
     decision_gates := decision_gates self;
     shortlisted_candidates := shortlisted_candidates self;
     match_results := match_results self; test_questions := l;
     test_results := test_results self;
     final_rankings := final_rankings self;
     bias_audit_results := bias_audit_results self; errors := errors self;
     warnings := warnings self |}.

(** [self.test_results = l] *)
Definition set_test_results (l : list Value) (self : PipelineState)
  : PipelineState :=
  {| pipeline_id := pipeline_id self; job_id := job_id self;
     current_stage := current_stage self;
     job_description := job_description self;
     candidates := candidates self; parsed_jd := parsed_jd self;
     agent_responses := agent_responses self;
     decision_gates := decision_gates self;
     shortlisted_candidates := shortlisted_candidates self;
     match_results := match_results self;
     test_questions := test_questions self; test_results := l;
     final_rankings := final_rankings self;
     bias_audit_results := bias_audit_results self; errors := errors self;
     warnings := warnings self |}.

(** [self.final_rankings = l] *)
Definition set_final_rankings (l : list Value) (self : PipelineState)
  : PipelineState :=
  {| pipeline_id := pipeline_id self; job_id := job_id self;
     current_stage := current_stage self;
     job_description := job_description self;
     candidates := candidates self; parsed_jd := parsed_jd self;
     agent_responses := agent_responses self;
     decision_gates := decision_gates self;
     shortlisted_candidates := shortlisted_candidates self;
     match_results := match_results self;
     test_questions := test_questions self;
     test_results := test_results self; final_rankings := l;
     bias_audit_results := bias_audit_results self; errors := errors self;
     warnings := warnings self |}.

(** [self.bias_audit_results = d] *)
Definition set_bias_audit_results (d : gmap string Value) (self : PipelineState)
  : PipelineState :=
  {| pipeline_id := pipeline_id self; job_id := job_id self;
     current_stage := current_stage self;
     job_description := job_description self;
     candidates := candidates self; parsed_jd := parsed_jd self;
     agent_responses := agent_responses self;
     decision_gates := decision_gates self;
     shortlisted_candidates := shortlisted_candidates self;
     match_results := match_results self;
     test_questions := test_questions self;
     test_results := test_results self;
     final_rankings := final_rankings self; bias_audit_results := d;
     errors := errors self; warnings := warnings self |}.

(** [self.errors.append(e)] *)
Definition errors_append (e : string) (self : PipelineState)
  : PipelineState :=
  {| pipeline_id := pipeline_id self; job_id := job_id self;
     current_stage := current_stage self;
     job_description := job_description self;
     candidates := candidates self; parsed_jd := parsed_jd self;
     agent_responses := agent_responses self;
     decision_gates := decision_gates self;
     shortlisted_candidates := shortlisted_candidates self;
     match_results := match_results self;
     test_questions := test_questions self;
     test_results := test_results self;
     final_rankings := final_rankings self;
     bias_audit_results := bias_audit_results self;
     errors := (errors self ++ [e]); warnings := warnings self |}.

(** [self.warnings.extend(ws)] *)
Definition warnings_extend (ws : list string) (self : PipelineState)
  : PipelineState :=
  {| pipeline_id := pipeline_id self; job_id := job_id self;
     current_stage := current_stage self;
     job_description := job_description self;
     candidates := candidates self; parsed_jd := parsed_jd self;
     agent_responses := agent_responses self;
     decision_gates := decision_gates self;
     shortlisted_candidates := shortlisted_candidates self;
     match_results := match_results self;
     test_questions := test_questions self;
     test_results := test_results self;
     final_rankings := final_rankings self;
     bias_audit_results := bias_audit_results self; errors := errors self;
     warnings := (warnings self ++ ws) |}.

End Messages.
Import Messages.

(** The declarations of [schemas/job.py] and [schemas/messages.py] whose
    bodies are not part of the embedding. *)
Class Schemas := {
  (** the dataclass [JobDescription] and the attributes read from it *)
  JobDescription : Type;
  jd_job_id : JobDescription -> string;
  title : JobDescription -> string;
  raw_description : JobDescription -> string;
  JobDescription_to_dict : JobDescription -> gmap string Value;
  (** the constructor applied to the entries of a dictionary that name
      dataclass fields, as [_run_jd_analysis] calls it; it raises when a
      required field is missing *)
  JobDescription_from_dict : gmap string Value -> JobDescription + PyExc;
  ParsedJD_to_dict : ParsedJD -> gmap string Value;
  (** the dictionary that [add_decision_gate] stores for a gate *)
  DecisionGate_to_dict : DecisionGate -> gmap string Value;
  (** [PipelineStage.value] *)
  PipelineStage_value : PipelineStage -> string;
  (** [f"{stage}"] *)
  PipelineStage_str : PipelineStage -> string;
}.

(* ===================================================================== *)
(** * agents/jd_analyzer.py *)
(* ===================================================================== *)

Module JDAnalyzer.
Import Base.

Section Agent.
Context `{PyRuntime} `{Schemas}.

Definition gendered_terms : list string :=
  ["rockstar"; "ninja"; "guru"; "manpower"; "manning"].
Definition age_terms : list string :=
  ["young"; "energetic"; "digital native"; "recent graduate only"].

Definition _check_for_bias (text : string) : list string :=
  let text_lower := str_lower text in
  let gendered : list string :=
    omap (fun term =>
            if str_contains term text_lower
            then Some ("Potentially gendered term: '" ++ term ++ "'")
            else None) gendered_terms in
  let aged : list string :=
    omap (fun term =>
            if str_contains term text_lower
            then Some ("Potentially age-biased term: '" ++ term ++ "'")
            else None) age_terms in
  (gendered ++ aged)%list.

Definition _process (input_data : JobDescription)
  : M AgentSt (ParsedJD * Q * string) :=
  log_reasoning "Starting JD analysis";;
  log_reasoning ("Analyzing job: " ++ title input_data);;
  let bias_flags := _check_for_bias (raw_description input_data) in
  (if negb (Nat.eqb (length bias_flags) 0)
   then log_reasoning ("Potential bias detected: " ++ str_list bias_flags)
   else ret tt);;
  let parsed :=
    {| pj_job_id := jd_job_id input_data;
       pj_parsing_confidence := 0.9;
       job_title_normalized := title input_data;
       seniority_level := "mid";
       job_function := "engineering";
       pj_skills := [];
       experience_requirements :=
         {| minimum_years := 3; preferred_years := 5 |};
       education_requirements := {| minimum_degree := "bachelors" |};
       key_responsibilities := [];
       technical_topics := [];
       difficulty_level := "intermediate";
       jd_quality_score := 0.8;
       potential_bias_flags := bias_flags;
       pj_parsing_warnings :=
         ["Mock implementation - actual parsing not yet implemented"] |} in
  let confidence := 0.9%Q in
  let explanation :=
    "Analyzed job description for '" ++ title input_data ++ "'. "
    ++ "Extracted " ++ pretty (length (pj_skills parsed))
    ++ " skill requirements, "
    ++ "experience requirements ("
    ++ pretty (minimum_years (experience_requirements parsed))
    ++ "+ years), "
    ++ "and education requirements ("
    ++ minimum_degree (education_requirements parsed) ++ "). "
    ++ "Identified " ++ pretty (length bias_flags)
    ++ " potential bias concerns." in
  log_reasoning "JD analysis completed";;
  ret (parsed, confidence, explanation).

(** [JDAnalyzerAgent(agent_id)]; the threshold is the inherited one. *)
Definition JDAnalyzerAgent (agent_id : string)
  : BaseAgent JobDescription ParsedJD :=
  {| self_agent_id := agent_id;
     self_agent_type := "JDAnalyzerAgent";
     required_confidence_threshold := default_confidence_threshold;
     Base._process := _process |}.
End Agent.

End JDAnalyzer.

(* ===================================================================== *)
(** * agents/bias_auditor.py *)
(* ===================================================================== *)

Module BiasAuditor.
Import Base Candidates.

Record BiasAuditInput := {
  pipeline_state : PipelineState;
  rankings : list FinalRanking;
}.

(** A finding is a dictionary with these four keys. *)
Record Finding := {
  f_category : string;
  severity : string;
  description : string;
  affected_candidates : Value;
}.

Record BiasAuditResult := {
  audit_passed : bool;
  overall_fairness_score : Q;
  findings : list Finding;
  recommendations : list string;
  result_requires_human_review : bool;
  compliance_notes : list string;
}.

(** [severity_weights.get(severity, 0.1)] *)
Definition severity_weights : gmap string Q :=
  {[ "high" := 0.3%Q; "medium" := 0.15%Q; "low" := 0.05%Q ]}.
Definition severity_weight (sev : string) : Q :=
  default_get (severity_weights !! sev) 0.1%Q.

(** [max(scores)] and [min(scores)] of a non-empty list: the first
    element, replaced by each later one that is strictly larger
    (smaller). *)
Definition list_max (first : Q) (rest : list Q) : Q :=
  fold_left (fun m x => if Qltb m x then x else m) rest first.
Definition list_min (first : Q) (rest : list Q) : Q :=
  fold_left (fun m x => if Qltb x m then x else m) rest first.

Definition count_severity (sev : string) (fs : list Finding) : nat :=
  length (filter (fun f => severity f = sev) fs).

Section Agent.
Context `{PyRuntime} `{Schemas}.

(** Audit 1: the flags carried over from the JD analysis. *)
Definition jd_bias_flags (input_data : BiasAuditInput) : Value :=
  dict_get (parsed_jd (pipeline_state input_data))
    "potential_bias_flags" (VList []).

(** Audit 2: ["borderline" in str(g.get("bias_flags", []))] *)
Definition is_borderline (g : gmap string Value) : bool :=
  str_contains "borderline" (str_value (dict_get g "bias_flags" (VList []))).
Definition borderline_cases (input_data : BiasAuditInput)
  : list (gmap string Value) :=
  List.filter is_borderline (decision_gates (pipeline_state input_data)).
(** [len(borderline_cases) > len(decision_gates) * 0.3] *)
Definition high_borderline_rate (input_data : BiasAuditInput) : bool :=
  Qltb (inject_Z (Z.of_nat (length (decision_gates (pipeline_state input_data))))
        * 0.3)
       (inject_Z (Z.of_nat (length (borderline_cases input_data)))).

(** Audit 3: the spread of the final composite scores. *)
Definition scores (input_data : BiasAuditInput) : list Q :=
  final_composite_score <$> rankings input_data.
Definition score_range (input_data : BiasAuditInput) : Q :=
  match scores input_data with
  | [] => 0
  | x :: rest => list_max x rest - list_min x rest
  end.
Definition scores_clustered (input_data : BiasAuditInput) : bool :=
  negb (Nat.eqb (length (rankings input_data)) 0)
  && (Qltb (score_range input_data) 0.1
      && Nat.ltb 5 (length (scores input_data))).

(** Audit 4: [not r.ranking_explanation or len(r.ranking_explanation) < 20] *)
Definition lacks_explanation (r : FinalRanking) : bool :=
  String.eqb (ranking_explanation r) ""
  || Nat.ltb (String.length (ranking_explanation r)) 20.
Definition rankings_without_explanation (input_data : BiasAuditInput)
  : list FinalRanking :=
  List.filter lacks_explanation (rankings input_data).

Definition has_high (fs : list Finding) : bool :=
  existsb (fun f => String.eqb (severity f) "high") fs.

Definition _process (input_data : BiasAuditInput)
  : M AgentSt (BiasAuditResult * Q * string) :=
  log_reasoning "Starting bias audit";;
  let findings0 : list Finding := [] in
  let recommendations0 : list string := [] in
  (* Audit 1: Check JD for biased language *)
  let flags := jd_bias_flags input_data in
  let findings1 :=
    if truthy flags
    then (findings0 ++
          [{| f_category := "jd_language_bias";
              severity := "medium";
              description :=
                "Job description contains potentially biased language: "
                ++ str_value flags;
              affected_candidates := VStr "all" |}])%list
    else findings0 in
  let recommendations1 :=
    if truthy flags
    then (recommendations0 ++
          ["Review and revise job description language"])%list
    else recommendations0 in
  (if truthy flags
   then log_reasoning ("JD bias flags found: " ++ str_value flags)
   else ret tt);;
  (* Audit 2: Check decision gate consistency *)
  let gates := decision_gates (pipeline_state input_data) in
  let borderline := borderline_cases input_data in
  let findings2 :=
    if high_borderline_rate input_data
    then (findings1 ++
          [{| f_category := "threshold_calibration";
              severity := "high";
              description :=
                pretty (length borderline)
                ++ " borderline decisions detected. Threshold may need adjustment.";
              affected_candidates :=
                VList ((fun g => dict_get g "gate_id" VNone) <$> borderline) |}])%list
    else findings1 in
  let recommendations2 :=
    if high_borderline_rate input_data
    then (recommendations1 ++
          ["Review threshold settings and borderline decisions"])%list
    else recommendations1 in
  (if high_borderline_rate input_data
   then log_reasoning ("High borderline rate: " ++ pretty (length borderline)
                       ++ "/" ++ pretty (length gates))
   else ret tt);;
  (* Audit 3: Check for score distribution anomalies *)
  let findings3 :=
    if scores_clustered input_data
    then (findings2 ++
          [{| f_category := "score_clustering";
              severity := "low";
              description :=
                "Scores are clustered in narrow range ("
                ++ fmt_2f (score_range input_data)
                ++ "). May indicate evaluation issues.";
              affected_candidates := VStr "all_ranked" |}])%list
    else findings2 in
  (if scores_clustered input_data
   then log_reasoning ("Score clustering detected: range "
                       ++ fmt_2f (score_range input_data))
   else ret tt);;
  (* Audit 4: Check for explanation quality *)
  let unexplained := rankings_without_explanation input_data in
  let findings4 :=
    if negb (Nat.eqb (length unexplained) 0)
    then (findings3 ++
          [{| f_category := "explanation_quality";
              severity := "medium";
              description :=
                pretty (length unexplained)
                ++ " rankings lack adequate explanation.";
              affected_candidates := VStrs (fr_candidate_id <$> unexplained) |}])%list
    else findings3 in
  let recommendations4 :=
    if negb (Nat.eqb (length unexplained) 0)
    then (recommendations2 ++
          ["Ensure all decisions have clear, documented explanations"])%list
    else recommendations2 in
  (* Calculate overall fairness score *)
  let penalty := py_sum ((fun f => severity_weight (severity f)) <$> findings4) in
  let fairness_score := py_max 0 (1 - penalty) in
  (* Determine if audit passes *)
  let has_high_severity := has_high findings4 in
  let audit_passed := Qgeb fairness_score 0.7 && negb has_high_severity in
  let compliance_notes :=
    [ "Audit completed at pipeline stage: "
      ++ PipelineStage_value (current_stage (pipeline_state input_data));
      "Total candidates processed: "
      ++ pretty (length (candidates (pipeline_state input_data)));
      "Total findings: " ++ pretty (length findings4) ++ " "
      ++ "(High: " ++ pretty (count_severity "high" findings4) ++ ", "
      ++ "Medium: " ++ pretty (count_severity "medium" findings4) ++ ", "
      ++ "Low: " ++ pretty (count_severity "low" findings4) ++ ")" ] in
  let result :=
    {| audit_passed := audit_passed;
       overall_fairness_score := fairness_score;
       findings := findings4;
       recommendations := recommendations4;
       result_requires_human_review := negb audit_passed || has_high_severity;
       compliance_notes := compliance_notes |} in
  log_reasoning ("Audit " ++ (if audit_passed then "PASSED" else "FAILED")
                 ++ " with fairness score " ++ fmt_2f fairness_score);;
  let confidence := 0.9%Q in
  let explanation :=
    "Bias audit " ++ (if audit_passed then "PASSED" else "REQUIRES REVIEW")
    ++ ". " ++ "Fairness score: " ++ fmt_pct fairness_score ++ ". "
    ++ "Found " ++ pretty (length findings4) ++ " issues. "
    ++ pretty (length recommendations4) ++ " recommendations provided." in
  ret (result, confidence, explanation).

(** [BiasAuditorAgent(agent_id)]; compliance requires high confidence. *)
Definition BiasAuditorAgent (agent_id : string)
  : BaseAgent BiasAuditInput BiasAuditResult :=
  {| self_agent_id := agent_id;
     self_agent_type := "BiasAuditorAgent";
     required_confidence_threshold := 0.9;
     Base._process := _process |}.
End Agent.

End BiasAuditor.

(* ===================================================================== *)
(** * core/logger.py *)
(* ===================================================================== *)

Module Logger.

Definition VOptStr (o : option string) : Value :=
  match o with Some s => VStr s | None => VNone end.

Record AuditEntry := {
  entry_id : string;
  timestamp : string;
  event_type : string;
  pipeline_id : option string;
  job_id : option string;
  candidate_id : option string;
  agent_type : option string;
  action : string;
  details : gmap string Value;
  outcome : option string;
  confidence : option Q;
  requires_review : bool;
}.

(** [asdict(self)] *)
Definition to_dict (self : AuditEntry) : gmap string Value :=
  {[ "entry_id" := VStr (entry_id self);
     "timestamp" := VStr (timestamp self);
     "event_type" := VStr (event_type self);
     "pipeline_id" := VOptStr (pipeline_id self);
     "job_id" := VOptStr (job_id self);
     "candidate_id" := VOptStr (candidate_id self);
     "agent_type" := VOptStr (agent_type self);
     "action" := VStr (action self);
     "details" := VDict (details self);
     "outcome" := VOptStr (outcome self);
     "confidence" := Candidates.VOptFloat (confidence self);
     "requires_review" := VBool (requires_review self) ]}.

(** An [AuditLogger]: the entries kept in memory and the lines of the
    JSONL file at [log_path], with the counters of the clock and of the
    identifier generator. *)
Record AuditLogger := {
  _entries : list AuditEntry;
  log_file : list string;
  ticks : nat;
  uuids : nat;
}.


Section Methods.
Context `{PyRuntime}.









(** [get_entries(pipeline_id, event_type, requires_review)]: the two
    string filters apply when they are given and not empty ([if
    pipeline_id:]), the boolean one when it is not [None]. *)
Definition get_entries (for_pipeline_id for_event_type : option string)
    (for_requires_review : option bool) (self : AuditLogger)
  : list AuditEntry :=
  let results := _entries self in
  let results :=
    match for_pipeline_id with
    | Some p =>
        if String.eqb p "" then results
        else List.filter (fun e => bool_decide (pipeline_id e = Some p)) results
    | None => results
    end in
  let results :=
    match for_event_type with
    | Some t =>
        if String.eqb t "" then results
        else List.filter (fun e => String.eqb (event_type e) t) results
    | None => results
    end in
  let results :=
    match for_requires_review with
    | Some r => List.filter (fun e => Bool.eqb (requires_review e) r) results
    | None => results
    end in
  results.

(** The dictionary that [export_for_compliance] returns, its [summary]
    flattened. *)
Record ComplianceExport := {
  export_pipeline_id : string;
  export_timestamp : string;
  total_entries : nat;
  exported_entries : list (gmap string Value);
  decisions : nat;
  gates_passed : nat;
  gates_failed : nat;
  review_requests : nat;
  bias_findings : nat;
}.

Definition is_gate_with (result : string) (e : AuditEntry) : bool :=
  String.eqb (event_type e) "decision_gate"
  && bool_decide (outcome e = Some result).

Definition export_for_compliance (for_pipeline_id : string)
  : M AuditLogger ComplianceExport :=
  s ← get;
  let entries := get_entries (Some for_pipeline_id) None None s in
  modify (fun s =>
    {| _entries := _entries s; log_file := log_file s;
       ticks := S (ticks s); uuids := uuids s |});;
  ret {| export_pipeline_id := for_pipeline_id;
         export_timestamp := isoformat (clock (ticks s));
         total_entries := length entries;
         exported_entries := to_dict <$> entries;
         decisions :=
           length (List.filter (fun e => String.eqb (event_type e) "decision")
                     entries);
         gates_passed := length (List.filter (is_gate_with "passed") entries);
         gates_failed := length (List.filter (is_gate_with "failed") entries);
         review_requests :=
           length (List.filter
                     (fun e => String.eqb (event_type e) "review_request")
                     entries);
         bias_findings :=
           length (List.filter
                     (fun e => String.eqb (event_type e) "bias_finding")
                     entries) |}.
End Methods.

End Logger.

(* ===================================================================== *)
(** * agents/orchestrator.py *)
(* ===================================================================== *)

Module Orchestrator.
Import Base Candidates BiasAuditor.

Inductive OrchestratorAction := CONTINUE | PAUSE | RETRY | ABORT | COMPLETE.

Record OrchestratorDecision := {
  action : OrchestratorAction;
  next_stage : option PipelineStage;
  reason : string;
  requires_human_approval : bool;
  blocked_by : option (list string);
}.

(** [OrchestratorDecision(action=a, next_stage=n, reason=r)] *)
Definition decision (a : OrchestratorAction) (n : option PipelineStage)
    (r : string) : OrchestratorDecision :=
  {| action := a; next_stage := n; reason := r;
     requires_human_approval := false; blocked_by := None |}.

(** The dictionary built by [_log_event]. *)
Record Event := {
  ev_timestamp : string;
  ev_event_type : string;
  ev_pipeline_id : option string;
  ev_data : gmap string Value;
}.

(** A registered callback: it returns, or raises the given exception. *)
Definition Handler : Type := Event -> option PyExc.

Definition is_terminal (stage : PipelineStage) : bool :=
  bool_decide (stage ∈ [COMPLETED; Messages.FAILED; AWAITING_HUMAN_REVIEW]).

(** How one iteration of the loop of [run_pipeline] ends: with the next
    iteration, with [break], or with an exception that leaves
    [run_pipeline]. *)
Inductive Flow := Next | Break | Escape (e : PyExc).

Section Agent.
Context `{PyRuntime} `{Schemas}.

(** The attributes of an [OrchestratorAgent].  Of the agents created by
    [__init__] the record has those whose modules are embedded and
    which the methods below could call; [jd_analyzer_log] and
    [resume_parser_log] are the [_audit_log] attributes of the two
    agents that are run. *)
Record OrchestratorAgent := {
  config : gmap string Value;
  jd_analyzer : BaseAgent JobDescription ParsedJD;
  resume_parser : BaseAgent (gmap string Value) ParsedResume;
  bias_auditor : BaseAgent BiasAuditInput BiasAuditResult;
  jd_analyzer_log : list string;
  resume_parser_log : list string;
  state : option PipelineState;
  _event_handlers : gmap string (list Handler);
  _audit_log : list Event;
  ticks : nat;
  uuids : nat;
}.

Definition set_state (st : option PipelineState) (self : OrchestratorAgent)
  : OrchestratorAgent :=
  {| config := config self; jd_analyzer := jd_analyzer self;
     resume_parser := resume_parser self;
     bias_auditor := bias_auditor self;
     jd_analyzer_log := jd_analyzer_log self;
     resume_parser_log := resume_parser_log self;
     state := st; _event_handlers := _event_handlers self;
     _audit_log := _audit_log self; ticks := ticks self;
     uuids := uuids self |}.

Definition set_event_handlers (hs : gmap string (list Handler))
    (self : OrchestratorAgent) : OrchestratorAgent :=
  {| config := config self; jd_analyzer := jd_analyzer self;
     resume_parser := resume_parser self;
     bias_auditor := bias_auditor self;
     jd_analyzer_log := jd_analyzer_log self;
     resume_parser_log := resume_parser_log self;
     state := state self; _event_handlers := hs;
     _audit_log := _audit_log self; ticks := ticks self;
     uuids := uuids self |}.

(** [self.bias_auditor = auditor] *)
Definition set_bias_auditor (auditor : BaseAgent BiasAuditInput BiasAuditResult)
    (self : OrchestratorAgent) : OrchestratorAgent :=
  {| config := config self; jd_analyzer := jd_analyzer self;
     resume_parser := resume_parser self;
     bias_auditor := auditor;
     jd_analyzer_log := jd_analyzer_log self;
     resume_parser_log := resume_parser_log self;
     state := state self; _event_handlers := _event_handlers self;
     _audit_log := _audit_log self; ticks := ticks self;
     uuids := uuids self |}.

(** [self._audit_log.append(event)], after one reading of the clock *)
Definition audit_log_append (event : Event) (self : OrchestratorAgent)
  : OrchestratorAgent :=
  {| config := config self; jd_analyzer := jd_analyzer self;
     resume_parser := resume_parser self;
     bias_auditor := bias_auditor self;
     jd_analyzer_log := jd_analyzer_log self;
     resume_parser_log := resume_parser_log self;
     state := state self; _event_handlers := _event_handlers self;
     _audit_log := _audit_log self ++ [event]; ticks := S (ticks self);
     uuids := uuids self |}.

(** The view of the JD analyzer's mutable part, and its write-back. *)
Definition jd_analyzer_st (self : OrchestratorAgent) : AgentSt :=
  {| Base._audit_log := jd_analyzer_log self; Base.ticks := ticks self |}.
Definition set_jd_analyzer_st (a : AgentSt) (self : OrchestratorAgent)
  : OrchestratorAgent :=
  {| config := config self; jd_analyzer := jd_analyzer self;
     resume_parser := resume_parser self;
     bias_auditor := bias_auditor self;
     jd_analyzer_log := Base._audit_log a;
     resume_parser_log := resume_parser_log self;
     state := state self; _event_handlers := _event_handlers self;
     _audit_log := _audit_log self; ticks := Base.ticks a;
     uuids := uuids self |}.

(** The view of the resume parser's mutable part, and its write-back. *)
Definition resume_parser_st (self : OrchestratorAgent) : AgentSt :=
  {| Base._audit_log := resume_parser_log self; Base.ticks := ticks self |}.
Definition set_resume_parser_st (a : AgentSt) (self : OrchestratorAgent)
  : OrchestratorAgent :=
  {| config := config self; jd_analyzer := jd_analyzer self;
     resume_parser := resume_parser self;
     bias_auditor := bias_auditor self;
     jd_analyzer_log := jd_analyzer_log self;
     resume_parser_log := Base._audit_log a;
     state := state self; _event_handlers := _event_handlers self;
     _audit_log := _audit_log self; ticks := Base.ticks a;
     uuids := uuids self |}.

(** [OrchestratorAgent(config)]: eight agents are created in the order
    of [__init__], each drawing its identifier suffix from [uuid4]. *)
Definition new_agent_id (class_name : string) (k : nat) : string :=
  class_name ++ "_" ++ str_take 8 (uuid4_hex k).
Definition __init__ (config : gmap string Value) : OrchestratorAgent :=
  {| config := config;
     jd_analyzer :=
       JDAnalyzer.JDAnalyzerAgent (new_agent_id "JDAnalyzerAgent" 0);
     resume_parser :=
       ResumeParser.ResumeParserAgent (new_agent_id "ResumeParserAgent" 1);
     bias_auditor :=
       BiasAuditor.BiasAuditorAgent (new_agent_id "BiasAuditorAgent" 7);
     jd_analyzer_log := [];
     resume_parser_log := [];
     state := None;
     _event_handlers := ∅;
     _audit_log := [];
     ticks := 0;
     uuids := 8 |}.

(** [self.state], for the attribute accesses [self.state.x]. *)
Definition the_state : M OrchestratorAgent PipelineState :=
  fun self =>
    match state self with
    | Some st => (inl st, self)
    | None =>
        (inr {| exc_class := "AttributeError";
                exc_str := "'NoneType' object has no attribute" |}, self)
    end.

(** An in-place update of the object [self.state]. *)
Definition update_state (f : PipelineState -> PipelineState)
  : M OrchestratorAgent unit :=
  st ← the_state;
  modify (set_state (Some (f st))).

Definition _log_event (event_type : string) (data : gmap string Value)
  : M OrchestratorAgent unit :=
  self ← get;
  let event :=
    {| ev_timestamp := isoformat (clock (ticks self));
       ev_event_type := event_type;
       ev_pipeline_id := pipeline_id <$> state self;
       ev_data := data |} in
  modify (audit_log_append event);;
  (* Emit to registered handlers *)
  for_loop (default_get (_event_handlers self !! event_type) []) tt
    (fun handler _ =>
       match handler event with
       | None => ret tt
       | Some e => raise e
       end).

Definition on_event (event_type : string) (handler : Handler)
  : M OrchestratorAgent unit :=
  modify (fun self =>
    set_event_handlers
      (<[event_type :=
           (default_get (_event_handlers self !! event_type) []
            ++ [handler])%list]> (_event_handlers self))
      self).

Definition get_audit_log (self : OrchestratorAgent) : list Event :=
  _audit_log self.

Definition create_pipeline (job : JobDescription)
    (candidates : list CandidateProfile)
  : M OrchestratorAgent PipelineState :=
  self ← get;
  modify (fun self =>
    {| config := config self; jd_analyzer := jd_analyzer self;
       resume_parser := resume_parser self;
       bias_auditor := bias_auditor self;
       jd_analyzer_log := jd_analyzer_log self;
       resume_parser_log := resume_parser_log self;
       state :=
         Some (new_PipelineState (uuid4_hex (uuids self)) (jd_job_id job)
                 INITIALIZED (JobDescription_to_dict job)
                 (CandidateProfile_to_dict <$> candidates));
       _event_handlers := _event_handlers self;
       _audit_log := _audit_log self; ticks := ticks self;
       uuids := S (uuids self) |});;
  _log_event "pipeline_created"
    {[ "job_id" := VStr (jd_job_id job);
       "candidate_count" := VInt (Z.of_nat (length candidates)) ]};;
  the_state.

(** [self.jd_analyzer.run(job)] and [self.resume_parser.run(input_data)] *)
Definition jd_analyzer_run (job : JobDescription)
  : M OrchestratorAgent (AgentResponse ParsedJD) :=
  self ← get;
  zoom jd_analyzer_st set_jd_analyzer_st (Base.run (jd_analyzer self) job).
Definition resume_parser_run (input_data : gmap string Value)
  : M OrchestratorAgent (AgentResponse ParsedResume) :=
  self ← get;
  zoom resume_parser_st set_resume_parser_st
    (Base.run (resume_parser self) input_data).

Definition _record_agent_response {OutputT} (embed : OutputT -> Value)
    (response : AgentResponse OutputT) : M OrchestratorAgent unit :=
  update_state (add_agent_response (Base.to_dict embed response));;
  (if negb (Nat.eqb (length (Base.warnings response)) 0)
   then update_state (warnings_extend (Base.warnings response))
   else ret tt);;
  _log_event "agent_response"
    {[ "agent_type" := VStr (Base.agent_type response);
       "status" := VStr (AgentStatus_value (Base.status response));
       "confidence" := VFloat (Base.confidence response);
       "requires_review" := VBool (Base.requires_human_review response) ]}.

Definition _run_jd_analysis : M OrchestratorAgent OrchestratorDecision :=
  st ← the_state;
  let job_dict := job_description st in
  job ← (match JobDescription_from_dict job_dict with
         | inl job => ret job
         | inr e => raise e
         end);
  response ← jd_analyzer_run job;
  _record_agent_response (VDict ∘ ParsedJD_to_dict) response;;
  if decide (Base.status response = SUCCESS)
  then
    update_state
      (set_parsed_jd
         match Base.data response with
         | Some d => ParsedJD_to_dict d
         | None => ∅
         end);;
    ret (decision CONTINUE (Some JD_ANALYSIS) "JD analysis completed")
  else
    ret (decision ABORT None
           ("JD analysis failed: " ++ str_list (Base.errors response))).

Definition _run_resume_parsing : M OrchestratorAgent OrchestratorDecision :=
  st ← the_state;
  parsed_resumes ←
    for_loop (candidates st) ([] : list (gmap string Value))
      (fun candidate_dict parsed_resumes =>
         let input_data : gmap string Value :=
           {[ "candidate_id" :=
                dict_get candidate_dict "candidate_id" (VStr "");
              "resume_text" := VStr "[Mock resume text]";
              "resume_format" := VStr "txt" ]} in
         response ← resume_parser_run input_data;
         _record_agent_response (VDict ∘ ParsedResume_to_dict) response;;
         match Base.data response with
         | Some d =>
             if decide (Base.status response = SUCCESS)
             then ret (parsed_resumes ++ [ParsedResume_to_dict d])%list
             else ret parsed_resumes
         | None => ret parsed_resumes
         end);
  (* Store parsed resumes in state *)
  st' ← the_state;
  update_state
    (set_candidates
       (zip_with (fun c pr => <["parsed_resume" := VDict pr]> c)
          (candidates st') parsed_resumes));;
  ret (decision CONTINUE (Some RESUME_PARSING)
         ("Parsed " ++ pretty (length parsed_resumes) ++ " resumes")).

Definition _run_matching : M OrchestratorAgent OrchestratorDecision :=
  update_state (set_match_results []);;
  ret (decision CONTINUE (Some MATCHING) "Matching completed").

Definition _run_shortlisting : M OrchestratorAgent OrchestratorDecision :=
  st ← the_state;
  let threshold :=
    dict_get (job_description st) "shortlist_threshold" (VFloat 0.7) in
  let gate :=
    {| gate_name := "shortlist_gate";
       condition := "Match score >= " ++ str_value threshold;
       threshold := threshold;
       passed := true;
       gate_explanation := "Shortlisting decision gate passed" |} in
  update_state (add_decision_gate (DecisionGate_to_dict gate));;
  ret (decision CONTINUE (Some SHORTLISTING) "Shortlisting completed").

Definition _run_test_generation : M OrchestratorAgent OrchestratorDecision :=
  update_state (set_test_questions []);;
  ret (decision CONTINUE (Some TEST_GENERATION) "Test generation completed").

Definition _run_test_evaluation : M OrchestratorAgent OrchestratorDecision :=
  update_state (set_test_results []);;
  ret (decision CONTINUE (Some TEST_EVALUATION) "Test evaluation completed").

Definition _run_ranking : M OrchestratorAgent OrchestratorDecision :=
  update_state (set_final_rankings []);;
  ret (decision CONTINUE (Some RANKING) "Ranking completed").

Definition _run_bias_audit : M OrchestratorAgent OrchestratorDecision :=
  update_state
    (set_bias_audit_results
       {[ "audit_passed" := VBool true;
          "fairness_score" := VFloat 0.9;
          "findings" := VList [] ]});;
  ret (decision CONTINUE (Some BIAS_AUDIT) "Bias audit completed").

Definition _execute_current_stage : M OrchestratorAgent OrchestratorDecision :=
  st ← the_state;
  let stage := current_stage st in
  _log_event "stage_started"
    {[ "stage" := VStr (PipelineStage_value stage) ]};;
  match stage with
  | INITIALIZED => _run_jd_analysis
  | JD_ANALYSIS => _run_resume_parsing
  | RESUME_PARSING => _run_matching
  | MATCHING => _run_shortlisting
  | SHORTLISTING => _run_test_generation
  | TEST_GENERATION => _run_test_evaluation
  | TEST_EVALUATION => _run_ranking
  | RANKING => _run_bias_audit
  | BIAS_AUDIT =>
      ret (decision COMPLETE None "Pipeline completed successfully")
  | _ =>
      ret (decision ABORT None ("Unknown stage: " ++ PipelineStage_str stage))
  end.

(** The body of the [while] loop of [run_pipeline]: the [try] block and
    its [except Exception] clause.  No handler builds a [CONTINUE]
    decision without [next_stage]; Python would then store [None] as
    the current stage and the following iteration would raise inside
    the [except] clause, so that the exception leaves [run_pipeline]. *)
Definition loop_body : M OrchestratorAgent Flow :=
  try_except
    (decision ← _execute_current_stage;
     match action decision with
     | CONTINUE =>
         match next_stage decision with
         | Some stage => update_state (set_current_stage stage);; ret Next
         | None =>
             ret (Escape {| exc_class := "AttributeError";
                            exc_str := "'NoneType' object has no attribute 'value'" |})
         end
     | PAUSE =>
         update_state (set_current_stage AWAITING_HUMAN_REVIEW);;
         ret Break
     | ABORT =>
         update_state (set_current_stage Messages.FAILED);;
         update_state (errors_append (reason decision));;
         ret Break
     | COMPLETE =>
         update_state (set_current_stage COMPLETED);;
         ret Break
     | RETRY => ret Next
     end)
    (fun e =>
       st ← the_state;
       _log_event "stage_error"
         {[ "stage" := VStr (PipelineStage_value (current_stage st));
            "error" := VStr (exc_str e) ]};;
       st' ← the_state;
       update_state
         (errors_append ("Error in " ++ PipelineStage_value (current_stage st')
                         ++ ": " ++ exc_str e));;
       update_state (set_current_stage Messages.FAILED);;
       ret Break).

(** The [while] loop of [run_pipeline], for at most [fuel] iterations;
    [None] when they do not suffice. *)
Fixpoint pipeline_loop (fuel : nat) (self : OrchestratorAgent)
  : option ((unit + PyExc) * OrchestratorAgent) :=
  match fuel with
  | O => None
  | S fuel' =>
      match the_state self with
      | (inr e, self') => Some (inr e, self')
      | (inl st, _) =>
          if is_terminal (current_stage st) then Some (inl tt, self)
          else
            match loop_body self with
            | (inl Next, self') => pipeline_loop fuel' self'
            | (inl Break, self') => Some (inl tt, self')
            | (inl (Escape e), self') => Some (inr e, self')
            | (inr e, self') => Some (inr e, self')
            end
      end
  end.

Definition run_pipeline (fuel : nat) (self : OrchestratorAgent)
  : option ((PipelineState + PyExc) * OrchestratorAgent) :=
  match state self with
  | None =>
      Some (inr (ValueError "Pipeline not initialized. Call create_pipeline first."),
            self)
  | Some st =>
      match _log_event "pipeline_started" {[ "job_id" := VStr (job_id st) ]} self with
      | (inr e, self1) => Some (inr e, self1)
      | (inl _, self1) =>
          match pipeline_loop fuel self1 with
          | None => None
          | Some (inr e, self2) => Some (inr e, self2)
          | Some (inl _, self2) =>
              Some ((st2 ← the_state;
                     _log_event "pipeline_finished"
                       {[ "job_id" := VStr (job_id st2);
                          "final_stage" :=
                            VStr (PipelineStage_value (current_stage st2));
                          "error_count" :=
                            VInt (Z.of_nat (length (Messages.errors st2))) ]};;
                     the_state) self2)
          end
      end
  end.

Definition get_pipeline_summary (self : OrchestratorAgent)
  : gmap string Value :=
  match state self with
  | None => {[ "status" := VStr "not_initialized" ]}
  | Some st =>
      {[ "pipeline_id" := VStr (pipeline_id st);
         "job_id" := VStr (job_id st);
         "current_stage" := VStr (PipelineStage_value (current_stage st));
         "candidate_count" := VInt (Z.of_nat (length (candidates st)));
         "shortlisted_count" :=
           VInt (Z.of_nat (length (shortlisted_candidates st)));
         "final_rankings_count" :=
           VInt (Z.of_nat (length (final_rankings st)));
         "error_count" := VInt (Z.of_nat (length (Messages.errors st)));
         "warning_count" := VInt (Z.of_nat (length (Messages.warnings st)));
         "decision_gates_passed" :=
           VInt (Z.of_nat (length (List.filter
             (fun g => truthy (dict_get g "passed" (VBool false)))
             (decision_gates st))));
         "requires_human_review" :=
           VBool (existsb
             (fun r => truthy (dict_get r "requires_human_review" (VBool false)))
             (agent_responses st)) ]}
  end.
End Agent.

End Orchestrator.

(* ===================================================================== *)
(** * core/config.py *)
(* ===================================================================== *)

Module Config.




End Config.

(* ===================================================================== *)
(** * core/registry.py *)
(* ===================================================================== *)

(** A Python [dict] keeps its keys in the order of their first insertion:
    an association list without duplicate keys. *)
Module PyDict.

Fixpoint set {V} (key : string) (value : V) (d : list (string * V))
  : list (string * V) :=
  match d with
  | [] => [(key, value)]
  | (k, v) :: rest =>
      if String.eqb k key then (key, value) :: rest
      else (k, v) :: set key value rest
  end.

Fixpoint get {V} (key : string) (d : list (string * V)) : option V :=
  match d with
  | [] => None
  | (k, v) :: rest => if String.eqb k key then Some v else get key rest
  end.

Definition keys {V} (d : list (string * V)) : list string := fst <$> d.

End PyDict.

Module Registry.

(** What the registry uses of an agent class: its [__name__] and the
    [description] of its instances. *)
Record AgentClass := {
  __name__ : string;
  class_description : string;
}.

(** An instance made by calling the class without arguments. *)
Record AgentObject := {
  object_agent_id : string;
  object_class : AgentClass;
}.

(** The singleton, with the count of the identifiers drawn from [uuid4]. *)
Record AgentRegistry := {
  _agents : list (string * AgentClass);
  _instances : list (string * AgentObject);
  uuids : nat;
}.

(** The registry that [__new__] creates at its first call. *)
Definition new_registry (uuids : nat) : AgentRegistry :=
  {| _agents := []; _instances := []; uuids := uuids |}.

Section Methods.
Context `{PyRuntime}.

Definition register (agent_class : AgentClass) (self : AgentRegistry)
  : AgentRegistry :=
  let name := __name__ agent_class in
  {| _agents := PyDict.set name agent_class (_agents self);
     _instances := _instances self;
     uuids := uuids self |}.

Definition get_agent_class (name : string) (self : AgentRegistry)
  : option AgentClass :=
  PyDict.get name (_agents self).

(** [agent_class()]: [BaseAgent.__init__] draws the identifier suffix. *)
Definition instantiate (agent_class : AgentClass) (k : nat) : AgentObject :=
  {| object_agent_id :=
       __name__ agent_class ++ "_" ++ str_take 8 (uuid4_hex k);
     object_class := agent_class |}.

Definition get_agent_instance (name : string) (self : AgentRegistry)
  : option AgentObject * AgentRegistry :=
  let self' :=
    match PyDict.get name (_instances self) with
    | Some _ => self
    | None =>
        match PyDict.get name (_agents self) with
        | Some agent_class =>
            {| _agents := _agents self;
               _instances :=
                 PyDict.set name (instantiate agent_class (uuids self))
                   (_instances self);
               uuids := S (uuids self) |}
        | None => self
        end
    end in
  (PyDict.get name (_instances self'), self').

Definition list_agents (self : AgentRegistry) : list string :=
  PyDict.keys (_agents self).

(** Every class is instantiated anew; the instances are not kept. *)
Definition get_agent_capabilities (self : AgentRegistry)
  : list (string * string) * AgentRegistry :=
  let '(capabilities, k) :=
    fold_left
      (fun '(capabilities, k) '(name, agent_class) =>
         let instance := instantiate agent_class k in
         (PyDict.set name (class_description (object_class instance))
            capabilities, S k))
      (_agents self) ([], uuids self) in
  (capabilities,
   {| _agents := _agents self; _instances := _instances self; uuids := k |}).

Definition clear (self : AgentRegistry) : AgentRegistry :=
  {| _agents := []; _instances := []; uuids := uuids self |}.

End Methods.

End Registry.

(* ===================================================================== *)
(** * agents/matcher.py *)
(* ===================================================================== *)

(** The attributes of [ParsedJD] that only the matcher reads; they are
    declared in [schemas/job.py]. *)
Class MatcherSchemas := {
  (** [jd.scoring_weights] *)
  scoring_weights : ParsedJD -> gmap string Q;
  (** [jd.get_required_skills()] *)
  get_required_skills : ParsedJD -> list (gmap string Value);
}.

Module Matcher.
Import Base Candidates.

Record MatcherInput := {
  parsed_resume : ParsedResume;
  parsed_jd : ParsedJD;
}.

Record SkillMatch := {
  required_skill : string;
  candidate_skill : string;
  match_type : string;
  match_score : Q;
  sm_explanation : string;
}.

Record MatchResult := {
  mr_candidate_id : Value;
  mr_job_id : string;
  match_timestamp : Z;
  overall_match_score : Q;
  mr_confidence : Q;
  skills_match_score : Q;
  experience_match_score : Q;
  education_match_score : Q;
  skill_matches : list SkillMatch;
  required_skills_met : Z;
  required_skills_total : Z;
  preferred_skills_met : Z;
  preferred_skills_total : Z;
  meets_experience_requirement : bool;
  experience_gap_months : Z;
  match_explanation : string;
  strengths : list string;
  gaps : list string;
  bias_flags : list string;
}.

Definition _calculate_skills_match (resume : ParsedResume) (jd : ParsedJD)
  : Q := 0.75.

Definition _calculate_experience_match (resume : ParsedResume) (jd : ParsedJD)
  : Q :=
  let required_months := (minimum_years (experience_requirements jd) * 12)%Z in
  let candidate_months := total_experience_months resume in
  if (required_months <=? candidate_months)%Z then 1
  else if (0 <? required_months)%Z
       then (inject_Z candidate_months / inject_Z required_months)%Q
       else 0.5.

Definition _calculate_education_match (resume : ParsedResume) (jd : ParsedJD)
  : Q := 0.8.

Definition _identify_strengths (resume : ParsedResume) (jd : ParsedJD)
  : list string := ["Mock strength - actual analysis not yet implemented"].

Definition _identify_gaps (resume : ParsedResume) (jd : ParsedJD)
  : list string := ["Mock gap - actual analysis not yet implemented"].

(** [weights.get(key, default)] *)
Definition weight (weights : gmap string Q) (key : string) (default : Q) : Q :=
  default_get (weights !! key) default.

Section Agent.
Context `{PyRuntime} `{MatcherSchemas}.

Definition _process (input_data : MatcherInput)
  : M AgentSt (MatchResult * Q * string) :=
  let resume := parsed_resume input_data in
  let jd := parsed_jd input_data in
  short ← slice_to 8 (pr_candidate_id resume);
  log_reasoning ("Matching candidate " ++ ResumeParser.fstr short
                 ++ " to job " ++ str_take 8 (pj_job_id jd));;
  (* Calculate component scores *)
  let skills_score := _calculate_skills_match resume jd in
  log_reasoning ("Skills match score: " ++ fmt_2f skills_score);;
  let experience_score := _calculate_experience_match resume jd in
  log_reasoning ("Experience match score: " ++ fmt_2f experience_score);;
  let education_score := _calculate_education_match resume jd in
  log_reasoning ("Education match score: " ++ fmt_2f education_score);;
  (* Calculate weighted overall score *)
  let weights := scoring_weights jd in
  let overall_score :=
    (skills_score * weight weights "skills" 0.4
     + experience_score * weight weights "experience" 0.35
     + education_score * weight weights "education" 0.25)%Q in
  log_reasoning ("Overall weighted score: " ++ fmt_2f overall_score);;
  (* Build match result *)
  created ← utcnow;
  let result :=
    {| mr_candidate_id := pr_candidate_id resume;
       mr_job_id := pj_job_id jd;
       match_timestamp := created;
       overall_match_score := overall_score;
       mr_confidence := 0.85;
       skills_match_score := skills_score;
       experience_match_score := experience_score;
       education_match_score := education_score;
       skill_matches := [];
       required_skills_met := 0;
       required_skills_total := Z.of_nat (length (get_required_skills jd));
       preferred_skills_met := 0;
       preferred_skills_total := 0;
       meets_experience_requirement := Qgeb experience_score 0.7;
       experience_gap_months := 0;
       match_explanation :=
         "Candidate has " ++ fmt_pct overall_score
         ++ " match to the job requirements.";
       strengths := _identify_strengths resume jd;
       gaps := _identify_gaps resume jd;
       bias_flags := [] |} in
  let confidence := 0.85%Q in
  let explanation :=
    "Matched candidate to job with " ++ fmt_pct overall_score
    ++ " overall score. "
    ++ "Skills: " ++ fmt_pct skills_score ++ ", Experience: "
    ++ fmt_pct experience_score ++ ", "
    ++ "Education: " ++ fmt_pct education_score ++ ". "
    ++ "Found " ++ pretty (length (strengths result)) ++ " strengths and "
    ++ pretty (length (gaps result)) ++ " gaps." in
  ret (result, confidence, explanation).

(** [MatcherAgent(agent_id)]; the threshold is the inherited one. *)
Definition MatcherAgent (agent_id : string)
  : BaseAgent MatcherInput MatchResult :=
  {| self_agent_id := agent_id;
     self_agent_type := "MatcherAgent";
     required_confidence_threshold := default_confidence_threshold;
     Base._process := _process |}.
End Agent.

End Matcher.

(* ===================================================================== *)
(** * A concrete runtime for the examples *)
(* ===================================================================== *)

(** The properties below hold for every runtime and every schema module.
    The examples run the code on this one: the clock advances by one
    millisecond per reading, identifiers are numbered, and a job
    description is the triple of its identifier, title and text. *)
Module Sample.

Definition lower_ascii (c : Ascii.ascii) : Ascii.ascii :=
  let n := Ascii.nat_of_ascii c in
  if (Nat.leb 65 n && Nat.leb n 90)%bool then Ascii.ascii_of_nat (n + 32) else c.

Fixpoint lower (s : string) : string :=
  match s with
  | EmptyString => EmptyString
  | String c rest => String (lower_ascii c) (lower rest)
  end.

Fixpoint join (sep : string) (l : list string) : string :=
  match l with
  | [] => ""
  | [x] => x
  | x :: rest => x ++ sep ++ join sep rest
  end.

(** The text of the flat values; containers show their string elements. *)
Definition show (v : Value) : string :=
  match v with
  | VNone => "None"
  | VBool true => "True"
  | VBool false => "False"
  | VStr s => s
  | VInt z => pretty z
  | VFloat q => pretty (Qnum q) ++ "/" ++ pretty (Zpos (Qden q))
  | VList l =>
      "[" ++ join ", " ((fun x => match x with
                                  | VStr s => "'" ++ s ++ "'"
                                  | _ => "?"
                                  end) <$> l) ++ "]"
  | VDict _ => "{...}"
  end.

#[export] Instance runtime : PyRuntime :=
  {| clock := fun k => (Z.of_nat k * 1000)%Z;
     isoformat := fun t => "T" ++ pretty t;
     uuid4_hex := fun k => "0000000" ++ pretty k;
     fmt_2f := fun q => pretty (Qnum q) ++ "/" ++ pretty (Zpos (Qden q));
     fmt_pct := fun q => pretty (Qnum q) ++ "/" ++ pretty (Zpos (Qden q));
     str_list := fun l => show (VStrs l);
     str_value := show;
     str_lower := lower;
     json_dumps := fun _ => "{}" |}.

Definition stage_name (stage : PipelineStage) : string :=
  match stage with
  | INITIALIZED => "initialized"
  | JD_ANALYSIS => "jd_analysis"
  | RESUME_PARSING => "resume_parsing"
  | MATCHING => "matching"
  | SHORTLISTING => "shortlisting"
  | TEST_GENERATION => "test_generation"
  | TEST_EVALUATION => "test_evaluation"
  | RANKING => "ranking"
  | BIAS_AUDIT => "bias_audit"
  | COMPLETED => "completed"
  | Messages.FAILED => "failed"
  | AWAITING_HUMAN_REVIEW => "awaiting_human_review"
  end.

Record Job := { j_id : string; j_title : string; j_text : string }.

Definition job_to_dict (j : Job) : gmap string Value :=
  {[ "job_id" := VStr (j_id j); "title" := VStr (j_title j);
     "raw_description" := VStr (j_text j) ]}.

Definition job_from_dict (d : gmap string Value) : Job + PyExc :=
  match d !! "job_id", d !! "title", d !! "raw_description" with
  | Some (VStr i), Some (VStr t), Some (VStr x) =>
      inl {| j_id := i; j_title := t; j_text := x |}
  | _, _, _ =>
      inr (TypeError "__init__() missing required positional arguments")
  end.

#[export] Instance schemas : Schemas :=
  {| JobDescription := Job;
     jd_job_id := j_id;
     title := j_title;
     raw_description := j_text;
     JobDescription_to_dict := job_to_dict;
     JobDescription_from_dict := job_from_dict;
     ParsedJD_to_dict := fun p =>
       {[ "job_id" := VStr (pj_job_id p);
          "potential_bias_flags" := VStrs (potential_bias_flags p) ]};
     DecisionGate_to_dict := fun g =>
       {[ "gate_name" := VStr (gate_name g);
          "condition" := VStr (condition g);
          "threshold" := threshold g;
          "passed" := VBool (passed g);
          "explanation" := VStr (gate_explanation g);
          "bias_flags" := VList [] ]};
     PipelineStage_value := stage_name;
     PipelineStage_str := fun stage => "PipelineStage." ++ stage_name stage |}.

Definition fresh_agent : Base.AgentSt :=
  {| Base._audit_log := []; Base.ticks := 0 |}.

Definition candidate (id : string) : Candidates.CandidateProfile :=
  {| Candidates.cp_candidate_id := id;
     Candidates.anonymized_id := "";
     Candidates.email_hash := "";
     Candidates.resume_file_path := "";
     Candidates.application_date := 0;
     Candidates.data_consent_given := true;
     Candidates.consent_timestamp := None |}.

Definition job : Job :=
  {| j_id := "job-1"; j_title := "Engineer";
     j_text := "We build compilers." |}.

(** The dictionary of a recorded decision gate with the given flags. *)
Definition gate (flags : list string) : gmap string Value :=
  {[ "gate_id" := VStr "gate"; "passed" := VBool true;
     "bias_flags" := VStrs flags ]}.

(** A pipeline state at the ranking stage with the given gates. *)
Definition state_with_gates (gates : list (gmap string Value))
  : PipelineState :=
  foldl (fun st g => add_decision_gate g st)
    (new_PipelineState "pipeline-1" "job-1" RANKING ∅ []) gates.

(** Ten decision gates, four of them flagged borderline. *)
Definition four_of_ten : BiasAuditor.BiasAuditInput :=
  {| BiasAuditor.pipeline_state :=
       state_with_gates (replicate 4 (gate ["borderline_score"])
                         ++ replicate 6 (gate []));
     BiasAuditor.rankings := [] |}.

(** A new orchestrator, and the one left by [create_pipeline] for the
    sample job and three candidates. *)
Definition orchestrator : Orchestrator.OrchestratorAgent :=
  Orchestrator.__init__ ∅.

Definition three_candidates : list Candidates.CandidateProfile :=
  [candidate "cand-0001"; candidate "cand-0002"; candidate "cand-0003"].

Definition created : Orchestrator.OrchestratorAgent :=
  snd (Orchestrator.create_pipeline job three_candidates orchestrator).

(** A pipeline state that holds the given candidate dictionaries and is
    about to parse the resumes, and an orchestrator in that state. *)
Definition parsing_state (candidates : list (gmap string Value))
  : PipelineState :=
  new_PipelineState "pipeline-1" "job-1" JD_ANALYSIS (job_to_dict job)
    candidates.

Definition parsing (candidates : list (gmap string Value))
  : Orchestrator.OrchestratorAgent :=
  Orchestrator.set_state (Some (parsing_state candidates)) orchestrator.

(** A candidate dictionary whose identifier is a number, which the
    resume parser cannot slice, and one with a proper identifier. *)
Definition numbered : gmap string Value := {[ "candidate_id" := VInt 7 ]}.
Definition named : gmap string Value := {[ "candidate_id" := VStr "cand-0002" ]}.


(** A handler that raises on every event. *)
Definition failing_handler : Orchestrator.Handler :=
  fun _ => Some {| exc_class := "RuntimeError"; exc_str := "handler failed" |}.

(** [created] after [on_event(event_type, failing_handler)]. *)
Definition created_with_failing_handler (event_type : string)
  : Orchestrator.OrchestratorAgent :=
  snd (Orchestrator.on_event event_type failing_handler created).

(** A job without an identifier. *)
Definition anonymous_job : Job :=
  {| j_id := ""; j_title := "Engineer"; j_text := "We build compilers." |}.

(** An input of the resume parser. *)
Definition resume_input : gmap string Value :=
  {[ "candidate_id" := VStr "cand-0001-abcdef";
     "resume_text" := VStr "Ten years of compilers.";
     "resume_format" := VStr "txt" ]}.

(** An agent whose domain logic reports the given confidence. *)
Definition reporting_agent (confidence : Q) : Base.BaseAgent unit unit :=
  {| Base.self_agent_id := "ReportingAgent_00000000";
     Base.self_agent_type := "ReportingAgent";
     Base.required_confidence_threshold := Base.default_confidence_threshold;
     Base._process := fun _ => Py.ret (tt, confidence, "done") |}.


(** A parsed job that asks for the given years of experience, and a parsed
    resume with the given months; the weights of the job are the defaults
    of the matcher and every listed skill is required. *)
#[export] Instance matcher_schemas : MatcherSchemas :=
  {| scoring_weights := fun _ => ∅;
     get_required_skills := pj_skills |}.

Definition job_asking (years : Z) : ParsedJD :=
  {| pj_job_id := "job-1";
     pj_parsing_confidence := 0.85;
     job_title_normalized := "engineer";
     seniority_level := "senior";
     job_function := "engineering";
     pj_skills := [];
     experience_requirements :=
       {| minimum_years := years; preferred_years := years |};
     education_requirements := {| minimum_degree := "bachelor" |};
     key_responsibilities := [];
     technical_topics := [];
     difficulty_level := "medium";
     jd_quality_score := 0;
     potential_bias_flags := [];
     pj_parsing_warnings := [] |}.

Definition resume_with (months : Z) : Candidates.ParsedResume :=
  {| Candidates.pr_candidate_id := VStr "cand-0001-abcdef";
     Candidates.parsing_timestamp := 0;
     Candidates.parsing_confidence := 0.85;
     Candidates.professional_summary := "";
     Candidates.skills := [];
     Candidates.experience := [];
     Candidates.education := [];
     Candidates.certifications := [];
     Candidates.projects := [];
     Candidates.total_experience_months := months;
     Candidates.unique_skills_count := 0;
     Candidates.resume_quality_score := 0;
     Candidates.parsing_warnings := [] |}.

Definition matcher_input (months years : Z) : Matcher.MatcherInput :=
  {| Matcher.parsed_resume := resume_with months;
     Matcher.parsed_jd := job_asking years |}.

(** A JD analyzer whose domain logic always raises, and the orchestrator
    [created] with that analyzer in place of its own. *)
Definition failing_analyzer : Base.BaseAgent JobDescription ParsedJD :=
  {| Base.self_agent_id := "JDAnalyzerAgent_00000000";
     Base.self_agent_type := "JDAnalyzerAgent";
     Base.required_confidence_threshold := Base.default_confidence_threshold;
     Base._process := fun _ => Py.raise (ValueError "LLM unavailable") |}.

Definition created_with_failing_analyzer : Orchestrator.OrchestratorAgent :=
  {| Orchestrator.config := Orchestrator.config created;
     Orchestrator.jd_analyzer := failing_analyzer;
     Orchestrator.resume_parser := Orchestrator.resume_parser created;
     Orchestrator.bias_auditor := Orchestrator.bias_auditor created;
     Orchestrator.jd_analyzer_log := Orchestrator.jd_analyzer_log created;
     Orchestrator.resume_parser_log := Orchestrator.resume_parser_log created;
     Orchestrator.state := Orchestrator.state created;
     Orchestrator._event_handlers := Orchestrator._event_handlers created;
     Orchestrator._audit_log := Orchestrator._audit_log created;
     Orchestrator.ticks := Orchestrator.ticks created;
     Orchestrator.uuids := Orchestrator.uuids created |}.

(** An orchestrator whose pipeline has completed. *)
Definition completed_state : PipelineState :=
  new_PipelineState "pipeline-1" "job-1" COMPLETED (job_to_dict job) [].

Definition completed : Orchestrator.OrchestratorAgent :=
  Orchestrator.set_state (Some completed_state) orchestrator.

(** Two agent classes and the registry that holds them. *)
Definition matcher_class : Registry.AgentClass :=
  {| Registry.__name__ := "MatcherAgent";
     Registry.class_description := "Calculates similarity scores." |}.

Definition parser_class : Registry.AgentClass :=
  {| Registry.__name__ := "ResumeParserAgent";
     Registry.class_description := "Parses raw resumes." |}.

Definition two_agents : Registry.AgentRegistry :=
  Registry.register parser_class
    (Registry.register matcher_class (Registry.new_registry 0)).

End Sample.

(* ===================================================================== *)
(** * Vocabulary of the specification *)
(* ===================================================================== *)

Module Spec.
Import Base.

(** The agent state in which [run] calls the domain logic: the clock has
    been read for the start time and for the first reasoning step, and the
    audit log holds that step only. *)
Definition entry_state `{PyRuntime} {InputT OutputT}
    (self : BaseAgent InputT OutputT) (s : AgentSt) : AgentSt :=
  {| _audit_log :=
       ["[" ++ isoformat (clock (S (ticks s))) ++ "] "
        ++ "Starting " ++ self_agent_type self ++ " with input"];
     ticks := S (S (ticks s)) |}.

(** A reasoning step of the audit trail that records [text]. *)
Definition reasoning_step (text entry : string) : Prop :=
  ∃ stamp, entry = "[" ++ stamp ++ "] " ++ text.

(** [term] occurs in [text] as a contiguous substring. *)
Definition occurs (term text : string) : Prop :=
  ∃ before after, text = before ++ term ++ after.

(** The severities of the governance agent and their weights, in the
    words of the specification. *)
Inductive Severity := High | Medium | Low.

Definition severity_name (sev : Severity) : string :=
  match sev with High => "high" | Medium => "medium" | Low => "low" end.

(** The severity that a finding names. *)
Definition severity_of_name (name : string) : Severity :=
  if String.eqb name "high" then High
  else if String.eqb name "medium" then Medium else Low.

Definition spec_weight (sev : Severity) : Q :=
  match sev with High => 0.3%Q | Medium => 0.15%Q | Low => 0.05%Q end.

(** [max(0, 1 - Σ severity_weight)] *)
Definition spec_fairness (sevs : list Severity) : Q :=
  Qmax 0 (1 - fold_right Qplus 0 (spec_weight <$> sevs))%Q.

End Spec.

(** The computations that are compared with a threshold, on IEEE 754
    binary64 floats as Python performs them. *)
Module FloatModel.
Import Spec.

(** [sum] from the start value [0] and [max] of two floats. *)
Definition float_sum (l : list float) : float :=
  fold_left PrimFloat.add l 0%float.
Definition float_max (a b : float) : float :=
  if PrimFloat.ltb a b then b else a.

Definition float_weight (sev : Severity) : float :=
  match sev with
  | High => 0.3%float
  | Medium => 0.15%float
  | Low => 0.05%float
  end.

(** [fairness_score >= 0.7] for findings of the given severities, on floats
    and on rationals. *)
Definition float_score_passes (sevs : list Severity) : bool :=
  PrimFloat.leb 0.7
    (float_max 0 (PrimFloat.sub 1 (float_sum (float_weight <$> sevs)))).
Definition exact_score_passes (sevs : list Severity) : bool :=
  Qgeb (py_max 0 (1 - py_sum (spec_weight <$> sevs))) 0.7.

(** The sublists of a list, in order. *)
Fixpoint sublists {A} (l : list A) : list (list A) :=
  match l with
  | [] => [[]]
  | x :: rest => (cons x <$> sublists rest) ++ sublists rest
  end.

(** The severities of the findings that one audit can produce: each of the
    four checks contributes its finding or none. *)
Definition possible_findings : list (list Severity) :=
  sublists [Medium; High; Low; Medium].

(** [borderline > gates * 0.3] on floats and on rationals. *)
Definition float_of_nat (n : nat) : float :=
  PrimFloat.of_uint63 (Uint63.of_Z (Z.of_nat n)).
Definition float_rate_high (gates borderline : nat) : bool :=
  PrimFloat.ltb (PrimFloat.mul (float_of_nat gates) 0.3)
    (float_of_nat borderline).
Definition exact_rate_high (gates borderline : nat) : bool :=
  Qltb (inject_Z (Z.of_nat gates) * 0.3) (inject_Z (Z.of_nat borderline)).

(** [abs(actual_value - threshold) < 0.1] on floats. *)
Definition float_borderline (actual_value threshold : float) : bool :=
  PrimFloat.ltb (PrimFloat.abs (PrimFloat.sub actual_value threshold)) 0.1.

End FloatModel.

(** The vocabulary for the pipeline state machine. *)
Module OrchSpec.
Import Base Candidates Orchestrator.

(** The position of a stage in the fixed order; the terminal stages come
    last. *)
Definition stage_rank (stage : PipelineStage) : nat :=
  match stage with
  | INITIALIZED => 0
  | JD_ANALYSIS => 1
  | RESUME_PARSING => 2
  | MATCHING => 3
  | SHORTLISTING => 4
  | TEST_GENERATION => 5
  | TEST_EVALUATION => 6
  | RANKING => 7
  | BIAS_AUDIT => 8
  | COMPLETED | Messages.FAILED | AWAITING_HUMAN_REVIEW => 9
  end.

Section Orchestration.
Context `{PyRuntime} `{Schemas}.

(** No handler registered for [event_type] raises. *)
Definition quiet (self : OrchestratorAgent) (event_type : string) : Prop :=
  ∀ handler event,
    handler ∈ default_get (_event_handlers self !! event_type) [] →
    handler event = None.

(** The event that [_log_event] builds in the state [self]. *)
Definition event_of (event_type : string) (data : gmap string Value)
    (self : OrchestratorAgent) : Event :=
  {| ev_timestamp := isoformat (clock (ticks self));
     ev_event_type := event_type;
     ev_pipeline_id := pipeline_id <$> state self;
     ev_data := data |}.

(** What a step of a stage leaves alone: the registered handlers, the
    agents, and the current stage of the pipeline, which stays set. *)
Definition frame (self self' : OrchestratorAgent) : Prop :=
  _event_handlers self' = _event_handlers self
  ∧ resume_parser self' = resume_parser self
  ∧ ∃ st st', state self = Some st ∧ state self' = Some st'
              ∧ current_stage st' = current_stage st.

Definition preserves {A} (c : M OrchestratorAgent A) : Prop :=
  ∀ self r self', is_Some (state self) → c self = (r, self') →
                  frame self self'.

(** Every value that [c] returns satisfies [P]. *)
Definition returns {A} (c : M OrchestratorAgent A) (P : A → Prop) : Prop :=
  ∀ self a self', c self = (inl a, self') → P a.

(** The decisions that the handler of [stage] can take: continue with
    the next stage of the order, abort, or complete. *)
Definition stage_decision (stage : PipelineStage)
    (d : OrchestratorDecision) : Prop :=
  match action d with
  | CONTINUE =>
      ∃ next, next_stage d = Some next
              ∧ stage_rank next = S (stage_rank stage)
              ∧ is_terminal next = false
  | ABORT => True
  | COMPLETE => stage = BIAS_AUDIT
  | PAUSE | RETRY => False
  end.

(** The input that [_run_resume_parsing] builds for a candidate. *)
Definition parser_input (candidate_dict : gmap string Value)
  : gmap string Value :=
  {[ "candidate_id" := dict_get candidate_dict "candidate_id" (VStr "");
     "resume_text" := VStr "[Mock resume text]";
     "resume_format" := VStr "txt" ]}.

(** [response] is what the resume parser of [self] returned for the
    candidate, in some state of the agent. *)
Definition invoked (self : OrchestratorAgent)
    (candidate_dict : gmap string Value)
    (response : AgentResponse ParsedResume) : Prop :=
  ∃ a a', Base.run (resume_parser self) (parser_input candidate_dict) a
          = (inl response, a').

(** The parse counts: status [SUCCESS] and data present. *)
Definition succeeded (response : AgentResponse ParsedResume) : bool :=
  bool_decide (Base.status response = SUCCESS)
  && bool_decide (is_Some (Base.data response)).

(** The dictionaries of the parses that count, in order. *)
Definition parsed_of (responses : list (AgentResponse ParsedResume))
  : list (gmap string Value) :=
  omap (fun r => if succeeded r
                 then ParsedResume_to_dict <$> Base.data r else None)
    responses.

(** The positions, among those from [start] on, of the parses that
    count. *)
Fixpoint success_indices (start : nat)
    (responses : list (AgentResponse ParsedResume)) : list nat :=
  match responses with
  | [] => []
  | r :: rest =>
      if succeeded r then start :: success_indices (S start) rest
      else success_indices (S start) rest
  end.

(** The body of the loop of [_run_resume_parsing], with its local variable
    [parsed_resumes]. *)
Definition resume_parsing_body (candidate_dict : gmap string Value)
    (parsed_resumes : list (gmap string Value))
  : M OrchestratorAgent (list (gmap string Value)) :=
  response ← resume_parser_run (parser_input candidate_dict);
  _record_agent_response (VDict ∘ ParsedResume_to_dict) response;;
  match Base.data response with
  | Some d =>
      if decide (Base.status response = SUCCESS)
      then mret (parsed_resumes ++ [ParsedResume_to_dict d])%list
      else mret parsed_resumes
  | None => mret parsed_resumes
  end.

(** The state that a call of [run_pipeline] returned, if it returned. *)
Definition returned_state
    (r : option ((PipelineState + PyExc) * OrchestratorAgent))
  : option PipelineState :=
  match r with
  | Some (inl st, _) => Some st
  | _ => None
  end.

(** The exception that a call of [run_pipeline] raised, if it raised. *)
Definition raised
    (r : option ((PipelineState + PyExc) * OrchestratorAgent))
  : option PyExc :=
  match r with
  | Some (inr e, _) => Some e
  | _ => None
  end.

(** The agent types of the recorded responses, in order. *)
Definition responders (st : PipelineState) : list (option Value) :=
  (fun response => response !! "agent_type") <$> agent_responses st.

(** The candidate that the parsed resume stored in a candidate dictionary
    belongs to. *)
Definition parsed_candidate_id (c : gmap string Value) : option Value :=
  match c !! "parsed_resume" with
  | Some (VDict pr) => pr !! "candidate_id"
  | _ => None
  end.

(** For each candidate of the state, its identifier and the identifier of
    the candidate that its parsed resume belongs to. *)
Definition candidate_pairs (st : PipelineState)
  : list (option Value * option Value) :=
  (fun c => (c !! "candidate_id", parsed_candidate_id c)) <$> candidates st.

(** What a stage handler returned and left: the action and the next stage
    of its decision, and the pairs of the candidates of the state. *)
Definition stage_outcome
    (r : (OrchestratorDecision + PyExc) * OrchestratorAgent)
  : option (OrchestratorAction * option PipelineStage
            * list (option Value * option Value)) :=
  match r with
  | (inl d, self') =>
      match state self' with
      | Some st => Some (action d, next_stage d, candidate_pairs st)
      | None => None
      end
  | (inr _, _) => None
  end.


(** [{**c, "parsed_resume": pr}] *)
Definition with_parsed_resume (c pr : gmap string Value)
  : gmap string Value := <["parsed_resume" := VDict pr]> c.
End Orchestration.

End OrchSpec.

(** The vocabulary for the further properties of the bias auditor. *)
Module AuditorSpec.
Import BiasAuditor.

Section Checks.
Context `{PyRuntime} `{Schemas}.

(** The first and the last check of one audit, as booleans. *)
Definition jd_flagged (input : BiasAuditInput) : bool :=
  truthy (jd_bias_flags input).
Definition unexplained (input : BiasAuditInput) : bool :=
  negb (length (rankings_without_explanation input) =? 0)%nat.

(** The result that a run of an agent returned, if it returned. *)
Definition response_of {OutputT}
    (r : (Base.AgentResponse OutputT + PyExc) * Base.AgentSt)
  : option (Base.AgentResponse OutputT) :=
  match r with
  | (inl response, _) => Some response
  | (inr _, _) => None
  end.
End Checks.

End AuditorSpec.

(** The vocabulary for the properties of the audit logger. *)
Module LoggerSpec.
Import Logger.

Section Ledger.
Context `{PyRuntime}.



(** An entry passes the filters of [get_entries]: a string filter counts
    when it is given and not empty, the boolean one when it is given. *)
Definition passes (for_pipeline_id for_event_type : option string)
    (for_requires_review : option bool) (e : AuditEntry) : Prop :=
  (∀ p, for_pipeline_id = Some p → p ≠ "" → pipeline_id e = Some p)
  ∧ (∀ t, for_event_type = Some t → t ≠ "" → event_type e = t)
  ∧ (∀ r, for_requires_review = Some r → requires_review e = r).

End Ledger.

End LoggerSpec.

(** The vocabulary for the properties of the agent registry. *)
Module RegistrySpec.
Import Registry.

Section Reach.
Context `{PyRuntime}.

(** The registries that the methods produce from a new one. *)
Inductive reachable : AgentRegistry → Prop :=
| reach_new k : reachable (new_registry k)
| reach_register agent_class r :
    reachable r → reachable (register agent_class r)
| reach_instance name r :
    reachable r → reachable (get_agent_instance name r).2
| reach_capabilities r :
    reachable r → reachable (get_agent_capabilities r).2
| reach_clear r : reachable r → reachable (clear r).

(** The description that [get_agent_capabilities] reports for a class. *)
Definition capability (entry : string * AgentClass) : string * string :=
  (entry.1, class_description entry.2).

(** No name is listed twice, a class is registered under its own name and
    a cached instance belongs to a listed name. *)
Definition well_formed (r : AgentRegistry) : Prop :=
  NoDup (list_agents r)
  ∧ (∀ name agent_class,
       get_agent_class name r = Some agent_class →
       __name__ agent_class = name)
  ∧ (∀ name instance,
       PyDict.get name (_instances r) = Some instance →
       name ∈ list_agents r
       ∧ __name__ (object_class instance) = name).
End Reach.

End RegistrySpec.

(** The vocabulary for the further properties of the orchestrator. *)
Module PipelineSpec.
Import Base Candidates Orchestrator OrchSpec.

Section History.
Context `{PyRuntime} `{Schemas}.

(** What a stage handler leaves of the pipeline state: the identifiers,
    the job, the stage and the errors stay, and the logs of responses,
    gates and warnings only grow at their end. *)
Definition stage_keeps (st st' : PipelineState) : Prop :=
  pipeline_id st' = pipeline_id st
  ∧ job_id st' = job_id st
  ∧ job_description st' = job_description st
  ∧ current_stage st' = current_stage st
  ∧ Messages.errors st' = Messages.errors st
  ∧ agent_responses st `prefix_of` agent_responses st'
  ∧ decision_gates st `prefix_of` decision_gates st'
  ∧ Messages.warnings st `prefix_of` Messages.warnings st'.


(** The orchestrator before and after: the handlers and the agents stay,
    the audit log only grows at its end, and the pipeline states are
    related by [R]. *)
Definition related (R : PipelineState → PipelineState → Prop)
    (self self' : OrchestratorAgent) : Prop :=
  _event_handlers self' = _event_handlers self
  ∧ jd_analyzer self' = jd_analyzer self
  ∧ resume_parser self' = resume_parser self
  ∧ _audit_log self `prefix_of` _audit_log self'
  ∧ ∃ st st', state self = Some st ∧ state self' = Some st' ∧ R st st'.

(** However [c] ends, it leaves the orchestrator related by [R]. *)
Definition keeps (R : PipelineState → PipelineState → Prop) {A}
    (c : M OrchestratorAgent A) : Prop :=
  ∀ self r self', is_Some (state self) → c self = (r, self') →
                  related R self self'.

(** The two events that [run_pipeline] itself logs. *)
Definition started_event (self : OrchestratorAgent) (st : PipelineState)
  : Event :=
  event_of "pipeline_started" {[ "job_id" := VStr (job_id st) ]} self.

Definition finished_event (self : OrchestratorAgent) (st : PipelineState)
  : Event :=
  event_of "pipeline_finished"
    {[ "job_id" := VStr (job_id st);
       "final_stage" := VStr (PipelineStage_value (current_stage st));
       "error_count" := VInt (Z.of_nat (length (Messages.errors st))) ]}
    self.

(** How a call ends when a handler returns or raises. *)
Definition outcome_of (raised : option PyExc) : unit + PyExc :=
  match raised with
  | None => inl tt
  | Some e => inr e
  end.

(** The result of [run_pipeline], if it returned a state. *)
Definition run_result
    (r : option ((PipelineState + PyExc) * OrchestratorAgent))
  : option (PipelineState * OrchestratorAgent) :=
  match r with
  | Some (inl st, self') => Some (st, self')
  | _ => None
  end.
End History.

End PipelineSpec.

(* ===================================================================== *)
(** * Properties of the agent runner (agents/base.py) *)
(* ===================================================================== *)

Module BaseProps.
Import Base Spec.

Section Run.
Context `{PyRuntime} {InputT OutputT : Type}.
Implicit Types (self : BaseAgent InputT OutputT) (s : AgentSt).

#[local] Ltac run_unfold :=
  unfold run, log_reasoning, elapsed_ms, utcnow, clear_audit_log,
    Py.modify, Py.gets, mbind, M_bind, mret, M_ret, Py.bind, Py.ret,
    Py.try_except;
  cbn -[String.append].

Lemma Qltb_lt (a b : Q) : Qltb a b = true ↔ (a < b)%Q.
Proof.
  unfold Qltb. rewrite negb_true_iff, <- not_true_iff_false, Qle_bool_iff.
  split; [apply Qnot_le_lt | apply Qlt_not_le].
Qed.

(** [run] on an input whose domain logic returns. *)
Lemma run_returns self input s out conf expl s1 :
  _process self input (entry_state self s) = (inl (out, conf, expl), s1) →
  ∃ r s',
    run self input s = (inl r, s')
    ∧ status r = SUCCESS ∧ data r = Some out ∧ confidence r = conf
    ∧ explanation r = expl ∧ errors r = [] ∧ warnings r = []
    ∧ requires_human_review r
        = Qltb conf (required_confidence_threshold self).
Proof.
  intros Hp. unfold entry_state in Hp. run_unfold. rewrite Hp.
  cbn -[String.append].
  destruct (Qltb conf (required_confidence_threshold self)); cbn;
    eexists _, _; repeat split; reflexivity.
Qed.

(** [run] on an input whose domain logic raises. *)
Lemma run_raises self input s e s1 :
  _process self input (entry_state self s) = (inr e, s1) →
  ∃ r s',
    run self input s = (inl r, s')
    ∧ status r = FAILED ∧ data r = None ∧ confidence r = 0%Q
    ∧ explanation r = "Agent failed: " ++ exc_str e
    ∧ errors r = [exc_str e] ∧ warnings r = []
    ∧ requires_human_review r = true
    ∧ let step := "[" ++ isoformat (clock (S (ticks s1))) ++ "] "
                  ++ "Failed with error: " ++ exc_str e in
      audit_trail r = (_audit_log s1 ++ [step])%list.
Proof.
  intros Hp. unfold entry_state in Hp. run_unfold. rewrite Hp.
  cbn -[String.append].
  eexists _, _; repeat split; reflexivity.
Qed.

(** [run] never raises. *)
Lemma run_total self input s :
  ∃ r s', run self input s = (inl r, s').
Proof.
  destruct (_process self input (entry_state self s))
    as [[[[out conf] expl]|e] s1] eqn:Hp.
  - destruct (run_returns _ _ _ _ _ _ _ Hp) as (r & s' & Hr & _); eauto.
  - destruct (run_raises _ _ _ _ _ Hp) as (r & s' & Hr & _); eauto.
Qed.
End Run.


(** C4: every response of [run] requires human review exactly when its
    confidence is strictly below the agent's threshold or its status is
    [FAILED]; the threshold is 0.7 unless overridden, 0.9 for the bias
    auditor and 0.6 for the resume parser. *)
Theorem review_iff_below_threshold_or_failed `{PyRuntime} `{Schemas} :
  (∀ {InputT OutputT} (self : BaseAgent InputT OutputT) input s,
     ∃ r s',
       run self input s = (inl r, s')
       ∧ (requires_human_review r = true
          ↔ (confidence r < required_confidence_threshold self)%Q
            ∨ status r = FAILED))
  ∧ default_confidence_threshold = 0.7%Q
  ∧ (∀ id, required_confidence_threshold (JDAnalyzer.JDAnalyzerAgent id)
           = 0.7%Q)
  ∧ (∀ id, required_confidence_threshold (BiasAuditor.BiasAuditorAgent id)
           = 0.9%Q)
  ∧ (∀ id, required_confidence_threshold (ResumeParser.ResumeParserAgent id)
           = 0.6%Q).
Proof.
  split; [|repeat split].
  intros InputT OutputT self input s.
  destruct (_process self input (entry_state self s))
    as [[[[out conf] expl]|e] s1] eqn:Hp.
  - destruct (run_returns _ _ _ _ _ _ _ Hp)
      as (r & s' & Hr & Hst & _ & Hc & _ & _ & _ & Hrev).
    exists r, s'. split; [assumption|].
    rewrite Hrev, Hst, Hc, Qltb_lt. split; [auto|].
    intros [Hlt|Hf]; [assumption|discriminate].
  - destruct (run_raises _ _ _ _ _ Hp)
      as (r & s' & Hr & Hst & _ & _ & _ & _ & _ & Hrev & _).
    exists r, s'. split; [assumption|]. rewrite Hrev, Hst. tauto.
Qed.


End BaseProps.

Module BaseExamples.
Import Base Spec BaseProps Sample.


End BaseExamples.

(* ===================================================================== *)
(** * Properties of the bias auditor (agents/bias_auditor.py) *)
(* ===================================================================== *)

Module BiasAuditorProps.
Import Base BiasAuditor Spec.

Lemma py_sum_fold_right (l : list Q) : (py_sum l == fold_right Qplus 0 l)%Q.
Proof.
  unfold py_sum.
  assert (Hacc : ∀ acc, (fold_left Qplus l acc
                         == acc + fold_right Qplus 0 l)%Q).
  { induction l as [|x l IH]; intros acc; cbn; [ring|].
    rewrite IH. ring. }
  rewrite Hacc. ring.
Qed.

Lemma py_max_Qmax (a b : Q) : (py_max a b == Qmax a b)%Q.
Proof.
  unfold py_max. destruct (Qltb a b) eqn:E.
  - apply BaseProps.Qltb_lt in E. symmetry. apply Q.max_r. lra.
  - symmetry. apply Q.max_l. unfold Qltb in E.
    apply negb_false_iff, Qle_bool_iff in E. exact E.
Qed.

Lemma has_high_spec (fs : list Finding) :
  has_high fs = true ↔ ∃ f, f ∈ fs ∧ severity f = "high".
Proof.
  unfold has_high. rewrite existsb_exists. split.
  - intros (f & Hin & Heq). exists f. split; [now apply list_elem_of_In|].
    now apply String.eqb_eq.
  - intros (f & Hin & Heq). exists f. split; [now apply list_elem_of_In|].
    now apply String.eqb_eq.
Qed.

(** The weight table of the code on the three severities of the
    specification. *)
Lemma severity_weight_name (sev : Severity) :
  severity_weight (severity_name sev) = spec_weight sev.
Proof. destruct sev; reflexivity. Qed.

Section Audit.
Context `{PyRuntime} `{Schemas}.

Lemma high_borderline_rate_spec (input : BiasAuditInput) :
  high_borderline_rate input = true
  ↔ (3 * length (decision_gates (pipeline_state input))
     < 10 * length (borderline_cases input))%nat.
Proof.
  unfold high_borderline_rate. rewrite BaseProps.Qltb_lt.
  unfold Qlt. cbn. lia.
Qed.

(** The audit always returns, with confidence 0.9; its result is
    determined by its own list of findings, whose severities are among
    the three of the specification. *)
Lemma _process_result (input : BiasAuditInput) (s : AgentSt) :
  ∃ r expl s',
    _process input s = (inl (r, 0.9%Q, expl), s')
    ∧ overall_fairness_score r
      = py_max 0 (1 - py_sum ((fun f => severity_weight (severity f))
                               <$> findings r))
    ∧ audit_passed r
      = Qgeb (overall_fairness_score r) 0.7 && negb (has_high (findings r))
    ∧ result_requires_human_review r
      = negb (audit_passed r) || has_high (findings r)
    ∧ (∃ sevs, severity <$> findings r = severity_name <$> sevs)
    ∧ (high_borderline_rate input = true →
       ∃ f, f ∈ findings r ∧ severity f = "high"
            ∧ f_category f = "threshold_calibration").
Proof.
  unfold _process, log_reasoning, utcnow, Py.modify, mbind, M_bind, mret,
    M_ret, Py.bind, Py.ret.
  cbn -[String.append py_sum py_max Qgeb severity_weight].
  destruct (truthy (jd_bias_flags input));
    destruct (high_borderline_rate input);
    destruct (scores_clustered input);
    destruct (negb (length (rankings_without_explanation input) =? 0)%nat);
    cbn -[String.append py_sum py_max Qgeb severity_weight];
    eexists _, _, _; (split; [reflexivity|]);
    cbn -[String.append py_sum py_max Qgeb severity_weight];
    (split; [reflexivity|]); (split; [reflexivity|]);
    (split; [reflexivity|]);
    (split;
     [ match goal with
       | |- ∃ sevs, ?l = _ => exists (severity_of_name <$> l); reflexivity
       end
     | first
         [ discriminate
         | intros _;
           eexists {| f_category := "threshold_calibration";
                      severity := "high" |};
           split; [ | split; reflexivity ];
           repeat first [ apply list_elem_of_here
                        | apply list_elem_of_further ] ] ]).
Qed.
End Audit.

Section Claims.
Context `{PyRuntime} `{Schemas}.

(** C6: for every input the audit returns a result whose fairness score
    is [max(0, 1 - Σ weight)] over its findings, with the weights 0.3,
    0.15 and 0.05 of high, medium and low; the audit passes exactly when
    the score is at least 0.7 and no finding is high; without findings
    the score is 1.0 and the audit passes; and the result requires human
    review whenever the audit did not pass or a finding is high. *)
Theorem fairness_score_and_verdict (input : BiasAuditInput) (s : AgentSt) :
  ∃ r conf expl s',
    _process input s = (inl (r, conf, expl), s')
    ∧ (∃ sevs, severity <$> findings r = severity_name <$> sevs
               ∧ (overall_fairness_score r == spec_fairness sevs)%Q)
    ∧ (audit_passed r = true
       ↔ (0.7 <= overall_fairness_score r)%Q
         ∧ ¬ ∃ f, f ∈ findings r ∧ severity f = "high")
    ∧ (findings r = [] →
       overall_fairness_score r = 1%Q ∧ audit_passed r = true)
    ∧ (audit_passed r = false
       ∨ (∃ f, f ∈ findings r ∧ severity f = "high") →
       result_requires_human_review r = true).
Proof.
  destruct (_process_result input s)
    as (r & expl & s' & Hp & Hscore & Hpass & Hrev & [sevs Hsevs] & _).
  exists r, 0.9%Q, expl, s'. split; [exact Hp|].
  split; [|split; [|split]].
  - exists sevs. split; [exact Hsevs|].
    rewrite Hscore. unfold spec_fairness.
    rewrite py_max_Qmax, py_sum_fold_right.
    replace ((λ f, severity_weight (severity f)) <$> findings r)
      with (spec_weight <$> sevs); [reflexivity|].
    rewrite (list_fmap_compose severity severity_weight), Hsevs,
      <- list_fmap_compose.
    apply list_fmap_ext. intros _ sev _. symmetry.
    apply severity_weight_name.
  - rewrite Hpass, andb_true_iff, negb_true_iff. unfold Qgeb.
    rewrite Qle_bool_iff. split; intros [Hle Hno]; (split; [exact Hle|]).
    + intros Hhigh%has_high_spec. congruence.
    + destruct (has_high (findings r)) eqn:Ehigh; [|reflexivity].
      apply has_high_spec in Ehigh. contradiction.
  - intros Hnil. rewrite Hpass, Hscore, Hnil. split; reflexivity.
  - intros [Hfail|Hhigh%has_high_spec]; rewrite Hrev.
    + rewrite Hfail. reflexivity.
    + rewrite Hhigh. apply orb_true_r.
Qed.

(** C7: whenever strictly more than 30% of the recorded decision gates
    are flagged borderline, the audit yields a high-severity finding of
    category [threshold_calibration] and does not pass, whatever the
    fairness score. *)
Theorem borderline_rate_blocks_audit (input : BiasAuditInput) (s : AgentSt) :
  (3 * length (decision_gates (pipeline_state input))
   < 10 * length (borderline_cases input))%nat →
  ∃ r conf expl s',
    _process input s = (inl (r, conf, expl), s')
    ∧ (∃ f, f ∈ findings r ∧ severity f = "high"
            ∧ f_category f = "threshold_calibration")
    ∧ audit_passed r = false.
Proof.
  intros Hrate%high_borderline_rate_spec.
  destruct (_process_result input s)
    as (r & expl & s' & Hp & _ & Hpass & _ & _ & Hhigh).
  exists r, 0.9%Q, expl, s'. split; [exact Hp|].
  destruct (Hhigh Hrate) as (f & Hin & Hsev & Hcat).
  split; [eauto|].
  rewrite Hpass. replace (has_high (findings r)) with true.
  - apply andb_false_r.
  - symmetry. apply has_high_spec. eauto.
Qed.
End Claims.

End BiasAuditorProps.

Module BiasAuditorExamples.
Import Base BiasAuditor Spec BiasAuditorProps Sample.

(** Four borderline gates out of ten: 40% is above the 30% threshold. *)
Lemma borderline_rate_blocks_audit_witness :
  (3 * length (decision_gates (pipeline_state four_of_ten))
   < 10 * length (borderline_cases four_of_ten))%nat
  ∧ ∃ r conf expl s',
      _process four_of_ten fresh_agent = (inl (r, conf, expl), s')
      ∧ (∃ f, f ∈ findings r ∧ severity f = "high"
              ∧ f_category f = "threshold_calibration")
      ∧ audit_passed r = false.
Proof.
  split.
  - vm_compute. lia.
  - apply (borderline_rate_blocks_audit four_of_ten fresh_agent).
    vm_compute. lia.
Defined.

Example four_of_ten_counts :
  length (decision_gates (pipeline_state four_of_ten)) = 10%nat
  ∧ length (borderline_cases four_of_ten) = 4%nat.
Proof. split; vm_compute; reflexivity. Qed.

End BiasAuditorExamples.

(* ===================================================================== *)
(** * Properties of the audit logger (core/logger.py) *)
(* ===================================================================== *)

Module LoggerProps.
Import Logger.

Section Gate.
Context `{PyRuntime}.


End Gate.

End LoggerProps.

Module LoggerExamples.
Import Logger LoggerProps Sample.


End LoggerExamples.


(* ===================================================================== *)
(** * Properties of the orchestrator (agents/orchestrator.py) *)
(* ===================================================================== *)

Module OrchestratorProps.
Import Base Candidates Orchestrator OrchSpec.

Section Kit.
Context `{PyRuntime} `{Schemas}.
Implicit Types (self : OrchestratorAgent) (st : PipelineState).

#[local] Ltac monad_unfold :=
  unfold mbind, M_bind, mret, M_ret, Py.bind, Py.ret, Py.get, Py.gets,
    Py.modify, Py.raise in *.

(** ** Monad laws used below *)

Lemma bind_inl {A B} (c : M OrchestratorAgent A) (k : A → M OrchestratorAgent B)
    self a self1 :
  c self = (inl a, self1) → (c ≫= k) self = k a self1.
Proof. intros Hc. monad_unfold. now rewrite Hc. Qed.


Lemma bind_inv {A B} (c : M OrchestratorAgent A) (k : A → M OrchestratorAgent B)
    self r self' :
  (c ≫= k) self = (r, self') →
  (∃ a self1, c self = (inl a, self1) ∧ k a self1 = (r, self'))
  ∨ (∃ e, c self = (inr e, self') ∧ r = inr e).
Proof.
  monad_unfold. destruct (c self) as [[a|e] self1]; intros Hk.
  - left. eauto.
  - right. exists e. now inversion Hk.
Qed.

(** ** Events *)

Lemma emit_state (event : Event) (handlers : list Handler) self :
  ∃ r,
    for_loop handlers tt
      (fun handler _ =>
         match handler event with
         | None => mret tt
         | Some e => Py.raise e
         end) self = (r, self)
    ∧ ((∀ handler, handler ∈ handlers → handler event = None) → r = inl tt).
Proof.
  induction handlers as [|h hs IH]; cbn.
  - exists (inl tt). split; reflexivity.
  - destruct (h event) as [e|] eqn:Hh; monad_unfold; cbn.
    + exists (inr e). split; [reflexivity|].
      intros Hq. rewrite (Hq h) in Hh by apply list_elem_of_here. discriminate.
    + destruct IH as (r & Hr & Hq). exists r. split; [exact Hr|].
      intros Hall. apply Hq. intros h' Hin. apply Hall.
      now apply list_elem_of_further.
Qed.

(** [_log_event] appends the event whether or not a handler raises, and it
    returns when the handlers of the event type are quiet. *)
Lemma _log_event_state (event_type : string) (data : gmap string Value) self :
  ∃ r,
    _log_event event_type data self
    = (r, audit_log_append (event_of event_type data self) self)
    ∧ (quiet self event_type → r = inl tt).
Proof.
  unfold _log_event.
  destruct (emit_state (event_of event_type data self)
              (default_get (_event_handlers self !! event_type) [])
              (audit_log_append (event_of event_type data self) self))
    as (r & Hr & Hq).
  exists r. split.
  - monad_unfold. cbn. exact Hr.
  - intros Hquiet. apply Hq. intros h Hin. now apply Hquiet.
Qed.

Lemma _log_event_quiet (event_type : string) (data : gmap string Value) self :
  quiet self event_type →
  _log_event event_type data self
  = (inl tt, audit_log_append (event_of event_type data self) self).
Proof.
  intros Hq. destruct (_log_event_state event_type data self) as (r & Hr & Hi).
  now rewrite Hr, (Hi Hq).
Qed.

Lemma the_state_Some self st :
  state self = Some st → the_state self = (inl st, self).
Proof. intros Hst. unfold the_state. now rewrite Hst. Qed.

Lemma update_state_Some (f : PipelineState → PipelineState) self st :
  state self = Some st →
  update_state f self = (inl tt, set_state (Some (f st)) self).
Proof.
  intros Hst. unfold update_state.
  rewrite (bind_inl _ _ _ _ _ (the_state_Some _ _ Hst)). reflexivity.
Qed.

(** ** The frame of a stage *)

Lemma frame_refl self : is_Some (state self) → frame self self.
Proof. intros [st Hst]. repeat split. eauto. Qed.






Lemma preserves_get : preserves Py.get.
Proof.
  intros self r self' Hs Hc. monad_unfold. injection Hc as <- <-.
  now apply frame_refl.
Qed.








Lemma returns_ret {A} (a : A) (P : A → Prop) : P a → returns (mret a) P.
Proof. intros HP self a' self' Hc. monad_unfold. now injection Hc as <- _. Qed.

Lemma returns_bind {A B} (c : M OrchestratorAgent A)
    (k : A → M OrchestratorAgent B) (P : B → Prop) :
  (∀ a, returns (k a) P) → returns (c ≫= k) P.
Proof.
  intros Hk self b self' Hrun.
  destruct (bind_inv _ _ _ _ _ Hrun)
    as [(a & self1 & _ & Hk1)|(e & _ & Habs)]; [|discriminate].
  exact (Hk _ _ _ _ Hk1).
Qed.

(** ** The stage handlers *)


#[local] Ltac returns_step :=
  first
    [ apply returns_bind; intros
    | apply returns_ret; hnf; cbn;
      first [ exact I | reflexivity | eexists; repeat split; reflexivity ]
    | match goal with
      | |- returns (if ?b then _ else _) _ => destruct b
      | |- returns (match ?x with _ => _ end) _ => destruct x
      end ].





(** The decision of a stage handler is one of its stage: the next stage of
    the order, an abort, or, after the bias audit, completion. *)
Lemma _execute_current_stage_decision self st d self' :
  state self = Some st →
  _execute_current_stage self = (inl d, self') →
  stage_decision (current_stage st) d.
Proof.
  intros Hst Hrun. unfold _execute_current_stage in Hrun.
  rewrite (bind_inl _ _ _ _ _ (the_state_Some _ _ Hst)) in Hrun.
  destruct (bind_inv _ _ _ _ _ Hrun)
    as [([] & self1 & _ & Hk)|(e & _ & Habs)]; [|discriminate].
  revert Hk. generalize self1 d self'.
  change (returns
            match current_stage st with
            | INITIALIZED => _run_jd_analysis
            | JD_ANALYSIS => _run_resume_parsing
            | RESUME_PARSING => _run_matching
            | MATCHING => _run_shortlisting
            | SHORTLISTING => _run_test_generation
            | TEST_GENERATION => _run_test_evaluation
            | TEST_EVALUATION => _run_ranking
            | RANKING => _run_bias_audit
            | BIAS_AUDIT =>
                mret (decision COMPLETE None "Pipeline completed successfully")
            | _ =>
                mret (decision ABORT None
                        ("Unknown stage: "
                         ++ PipelineStage_str (current_stage st)))
            end
            (stage_decision (current_stage st))).
  destruct (current_stage st);
    unfold _run_jd_analysis, _run_resume_parsing, _run_matching,
      _run_shortlisting, _run_test_generation, _run_test_evaluation,
      _run_ranking, _run_bias_audit;
    repeat returns_step.
Qed.

(** ** One iteration of the loop *)



(** ** The loop *)


Lemma is_terminal_rank (stage : PipelineStage) :
  is_terminal stage = false → (stage_rank stage < 9)%nat.
Proof. destruct stage; cbn; first [lia | discriminate]. Qed.


(** More fuel does not change the result of the loop. *)
Lemma pipeline_loop_mono (fuel : nat) : ∀ self r,
  pipeline_loop fuel self = Some r → pipeline_loop (S fuel) self = Some r.
Proof.
  induction fuel as [|fuel IH]; intros self r Hl; [discriminate|].
  cbn [pipeline_loop] in Hl |- *.
  destruct (the_state self) as [[st|e] self0]; [|exact Hl].
  destruct (is_terminal (current_stage st)); [exact Hl|].
  destruct (loop_body self) as [[[| |e]|e] self1]; try exact Hl.
  now apply IH.
Qed.

(** ** [run_pipeline] *)


(** ** The resume parsing stage *)

Lemma resume_parser_run_spec (input_data : gmap string Value) self :
  ∃ r a',
    Base.run (resume_parser self) input_data (resume_parser_st self)
    = (inl r, a')
    ∧ resume_parser_run input_data self = (inl r, set_resume_parser_st a' self).
Proof.
  destruct (BaseProps.run_total (resume_parser self) input_data
              (resume_parser_st self)) as (r & a' & Hrun).
  exists r, a'. split; [exact Hrun|].
  unfold resume_parser_run, zoom. monad_unfold. cbn. now rewrite Hrun.
Qed.

(** Recording a response appends its dictionary to the log of outcomes and
    leaves the candidates alone. *)
Lemma _record_agent_response_spec {OutputT} (embed : OutputT → Value)
    (response : AgentResponse OutputT) self st :
  state self = Some st →
  quiet self "agent_response" →
  ∃ self' st',
    _record_agent_response embed response self = (inl tt, self')
    ∧ state self' = Some st'
    ∧ candidates st' = candidates st
    ∧ agent_responses st'
      = (agent_responses st ++ [Base.to_dict embed response])%list
    ∧ _event_handlers self' = _event_handlers self
    ∧ resume_parser self' = resume_parser self.
Proof.
  intros Hst Hq. unfold _record_agent_response.
  rewrite (bind_inl _ _ _ _ _ (update_state_Some _ _ _ Hst)).
  set (self1 := set_state _ self).
  destruct (negb (length (Base.warnings response) =? 0)%nat).
  - rewrite (bind_inl _ _ _ _ _ (update_state_Some _ self1 _ eq_refl)).
    set (self2 := set_state _ self1).
    rewrite (_log_event_quiet _ _ self2) by exact Hq.
    eexists _, _. repeat split; reflexivity.
  - rewrite (bind_inl _ _ self1 tt self1) by reflexivity.
    rewrite (_log_event_quiet _ _ self1) by exact Hq.
    eexists _, _. repeat split; reflexivity.
Qed.

Lemma parsed_of_cons (r : AgentResponse ParsedResume) rs :
  parsed_of (r :: rs)
  = ((if succeeded r
      then match Base.data r with
           | Some d => [ParsedResume_to_dict d]
           | None => []
           end
      else []) ++ parsed_of rs)%list.
Proof.
  unfold parsed_of. cbn. destruct (succeeded r); [|reflexivity].
  destruct (Base.data r); reflexivity.
Qed.

(** The loop runs the parser once per candidate, in order, records every
    response and collects the parses that count. *)
Lemma resume_parsing_loop_spec (cands : list (gmap string Value)) :
  ∀ self acc st,
    state self = Some st →
    quiet self "agent_response" →
    ∃ rs self' st',
      for_loop cands acc resume_parsing_body self
      = (inl (acc ++ parsed_of rs)%list, self')
      ∧ Forall2 (invoked self) cands rs
      ∧ state self' = Some st'
      ∧ candidates st' = candidates st
      ∧ agent_responses st'
        = (agent_responses st
           ++ (Base.to_dict (VDict ∘ ParsedResume_to_dict) <$> rs))%list
      ∧ _event_handlers self' = _event_handlers self
      ∧ resume_parser self' = resume_parser self.
Proof.
  induction cands as [|c cands IH]; intros self acc st Hst Hq.
  - exists [], self, st. cbn. rewrite !app_nil_r.
    repeat split; [constructor|exact Hst].
  - destruct (resume_parser_run_spec (parser_input c) self)
      as (r & a' & Hrun & Hzoom).
    set (self1 := set_resume_parser_st a' self) in Hzoom.
    assert (Hst1 : state self1 = Some st) by exact Hst.
    assert (Hq1 : quiet self1 "agent_response") by exact Hq.
    destruct (_record_agent_response_spec (VDict ∘ ParsedResume_to_dict) r
                self1 st Hst1 Hq1)
      as (self2 & st2 & Hrec & Hst2 & Hc2 & Har2 & Hh2 & Hp2).
    assert (Hq2 : quiet self2 "agent_response").
    { intros h ev. rewrite Hh2. apply Hq. }
    set (acc' := (acc ++ (if succeeded r
                          then match Base.data r with
                               | Some d => [ParsedResume_to_dict d]
                               | None => []
                               end
                          else []))%list).
    assert (Hbody : resume_parsing_body c acc self = (inl acc', self2)).
    { unfold resume_parsing_body.
      rewrite (bind_inl _ _ _ _ _ Hzoom), (bind_inl _ _ _ _ _ Hrec).
      unfold acc', succeeded.
      destruct (Base.data r) as [d|]; [|now rewrite andb_false_r, app_nil_r].
      destruct (decide (Base.status r = SUCCESS)) as [Hs|Hs].
      - rewrite (bool_decide_eq_true_2 _ Hs).
        rewrite (bool_decide_eq_true_2 (is_Some (Some d)))
          by (eexists; reflexivity).
        reflexivity.
      - rewrite (bool_decide_eq_false_2 _ Hs). cbn. now rewrite app_nil_r. }
    destruct (IH self2 acc' st2 Hst2 Hq2)
      as (rs & self' & st' & Hloop & Hinv & Hst' & Hc' & Har' & Hh' & Hp').
    exists (r :: rs), self', st'.
    split.
    { cbn [for_loop]. change (@Py.bind) with (λ S A B c k, @mbind (M S) _ A B k c).
      cbn beta. rewrite (bind_inl _ _ _ _ _ Hbody), Hloop.
      rewrite parsed_of_cons. unfold acc'. now rewrite app_assoc. }
    split.
    { constructor; [exists (resume_parser_st self), a'; exact Hrun|].
      eapply Forall2_impl; [exact Hinv|].
      intros c' r' Hr'. unfold invoked in Hr' |- *.
      rewrite Hp2 in Hr'. exact Hr'. }
    repeat split;
      [ exact Hst' | rewrite Hc', Hc2; reflexivity |
      | rewrite Hh', Hh2; reflexivity | rewrite Hp', Hp2; reflexivity ].
    rewrite Har', Har2, fmap_cons. now rewrite <- app_assoc.
Qed.

Lemma parsed_of_length (rs : list (AgentResponse ParsedResume)) :
  (length (parsed_of rs) ≤ length rs)%nat.
Proof.
  induction rs as [|r rs IH]; [reflexivity|].
  rewrite parsed_of_cons, length_app. cbn [length].
  destruct (succeeded r); [destruct (Base.data r)|]; cbn; lia.
Qed.

Lemma succeeded_data (r : AgentResponse ParsedResume) :
  succeeded r = true → ∃ d, Base.data r = Some d.
Proof.
  unfold succeeded. intros [_ Hd%bool_decide_eq_true]%andb_true_iff.
  exact Hd.
Qed.

(** The [i]-th parse that counts comes from the response at a position
    [j >= i], strictly later when the parse of candidate [i] does not
    count. *)
Lemma success_indices_lookup (rs : list (AgentResponse ParsedResume)) :
  ∀ start i j,
    success_indices start rs !! i = Some j →
    (start + i ≤ j)%nat
    ∧ (∀ r0, rs !! i = Some r0 → succeeded r0 = false → (start + i < j)%nat)
    ∧ ∃ r d,
        rs !! (j - start)%nat = Some r
        ∧ succeeded r = true
        ∧ Base.data r = Some d
        ∧ parsed_of rs !! i = Some (ParsedResume_to_dict d).
Proof.
  induction rs as [|r rs IH]; intros start i j Hj; [discriminate|].
  cbn [success_indices] in Hj. rewrite parsed_of_cons.
  destruct (succeeded r) eqn:Hr.
  - destruct (succeeded_data r Hr) as [d Hd]. rewrite Hd.
    destruct i as [|i].
    + injection Hj as <-. split; [lia|]. split.
      * intros r0 Hr0. injection Hr0 as <-. congruence.
      * exists r, d. rewrite Nat.sub_diag. repeat split; assumption.
    + destruct (IH (S start) i j Hj) as (Hle & Hlt & r' & d' & Hl & Hs & Hd' & Hp).
      split; [lia|]. split.
      * intros r0 Hr0 Hf. specialize (Hlt r0 Hr0 Hf). lia.
      * exists r', d'. replace (j - start)%nat with (S (j - S start)) by lia.
        repeat split; assumption.
  - destruct (IH (S start) i j Hj) as (Hle & _ & r' & d' & Hl & Hs & Hd' & Hp).
    split; [lia|]. split; [intros; lia|].
    exists r', d'. replace (j - start)%nat with (S (j - S start)) by lia.
    repeat split; assumption.
Qed.

(** C10: the resume parsing stage runs the parser once per candidate and
    records every response; with [k] the number of parses that count
    (status [SUCCESS] and data present) the candidates of the state become
    the first [k] candidates, each merged with the parsed resume at the same
    position of the list of parses that count: the [i]-th of them comes from
    the response at a position [j >= i], strictly later when the parse of
    candidate [i] did not count, and the last [n - k] candidates are
    dropped.  The decision is [CONTINUE] to [RESUME_PARSING] in every case.
    The handlers of the event [agent_response] are assumed not to raise. *)
Theorem resume_parsing_pairs_by_position self st :
  state self = Some st →
  quiet self "agent_response" →
  ∃ d self' st' rs,
    _run_resume_parsing self = (inl d, self')
    ∧ action d = CONTINUE
    ∧ next_stage d = Some RESUME_PARSING
    ∧ Forall2 (invoked self) (candidates st) rs
    ∧ state self' = Some st'
    ∧ agent_responses st'
      = (agent_responses st
         ++ (Base.to_dict (VDict ∘ ParsedResume_to_dict) <$> rs))%list
    ∧ candidates st'
      = zip_with with_parsed_resume
          (take (length (parsed_of rs)) (candidates st)) (parsed_of rs)
    ∧ length (candidates st') = length (parsed_of rs)
    ∧ (length (parsed_of rs) ≤ length (candidates st))%nat
    ∧ ∀ i j,
        success_indices 0 rs !! i = Some j →
        (i ≤ j)%nat
        ∧ (∀ r0, rs !! i = Some r0 → succeeded r0 = false → (i < j)%nat)
        ∧ ∃ c r pr,
            candidates st !! i = Some c
            ∧ rs !! j = Some r
            ∧ Base.data r = Some pr
            ∧ candidates st' !! i
              = Some (with_parsed_resume c (ParsedResume_to_dict pr)).
Proof.
  intros Hst Hq.
  destruct (resume_parsing_loop_spec (candidates st) self [] st Hst Hq)
    as (rs & self1 & st1 & Hloop & Hinv & Hst1 & Hc1 & Har1 & _ & _).
  cbn [app] in Hloop.
  pose proof (parsed_of_length rs) as Hlen.
  rewrite <- (Forall2_length _ _ _ Hinv) in Hlen.
  pose (st' := set_candidates
                 (zip_with with_parsed_resume (candidates st1) (parsed_of rs))
                 st1).
  assert (Hcs : candidates st'
                = zip_with with_parsed_resume (candidates st) (parsed_of rs))
    by (rewrite <- Hc1; reflexivity).
  assert (Har : agent_responses st' = agent_responses st1) by reflexivity.
  exists (decision CONTINUE (Some RESUME_PARSING)
            ("Parsed " ++ pretty (length (parsed_of rs)) ++ " resumes")),
    (set_state (Some st') self1), st', rs.
  split.
  { unfold _run_resume_parsing.
    rewrite (bind_inl _ _ _ _ _ (the_state_Some _ _ Hst)).
    change (for_loop (candidates st) [] _)
      with (for_loop (candidates st) [] resume_parsing_body).
    rewrite (bind_inl _ _ _ _ _ Hloop).
    rewrite (bind_inl _ _ _ _ _ (the_state_Some _ _ Hst1)).
    rewrite (bind_inl _ _ _ _ _ (update_state_Some _ _ _ Hst1)).
    reflexivity. }
  rewrite Hcs, Har.
  split; [reflexivity|]. split; [reflexivity|]. split; [exact Hinv|].
  split; [reflexivity|]. split; [exact Har1|].
  split; [now rewrite zip_with_take_l|].
  split; [rewrite length_zip_with; lia|]. split; [exact Hlen|].
  intros i j Hij.
  destruct (success_indices_lookup rs 0 i j Hij)
    as (Hle & Hlt & r & pr & Hr & _ & Hd & Hp).
  rewrite Nat.sub_0_r in Hr. cbn [Nat.add] in Hle, Hlt.
  split; [exact Hle|]. split; [exact Hlt|].
  destruct (lookup_lt_is_Some_2 (candidates st) i) as [c Hc].
  { apply lookup_lt_Some in Hp. lia. }
  exists c, r, pr. repeat split; [exact Hc|exact Hr|exact Hd|].
  rewrite lookup_zip_with, Hc, Hp. reflexivity.
Qed.

Lemma quiet_unregistered self (event_type : string) :
  _event_handlers self !! event_type = None → quiet self event_type.
Proof.
  intros Hnone. unfold quiet, Handler in *. intros handler event.
  rewrite Hnone. cbn.
  intros Hin. now apply not_elem_of_nil in Hin.
Qed.

(** ** [create_pipeline] *)

(** [create_pipeline] returns the state that it builds from its arguments,
    whatever they are. *)
Lemma create_pipeline_returns self (job : JobDescription)
    (cands : list CandidateProfile) :
  quiet self "pipeline_created" →
  ∃ self',
    create_pipeline job cands self
    = (inl (new_PipelineState (uuid4_hex (uuids self)) (jd_job_id job)
              INITIALIZED (JobDescription_to_dict job)
              (CandidateProfile_to_dict <$> cands)), self')
    ∧ state self'
      = Some (new_PipelineState (uuid4_hex (uuids self)) (jd_job_id job)
                INITIALIZED (JobDescription_to_dict job)
                (CandidateProfile_to_dict <$> cands)).
Proof.
  intros Hq. unfold create_pipeline. monad_unfold. cbv beta iota zeta.
  rewrite _log_event_quiet by exact Hq.
  eexists. split; reflexivity.
Qed.

(** C9, as the code has it: for every job and every candidate list, the
    empty list and a job without identifier included, [create_pipeline]
    sets and returns a fresh state at [INITIALIZED] that snapshots the job
    and the candidates; it validates nothing and raises no [InvalidInput].
    The handlers of the event [pipeline_created] are assumed not to
    raise. *)
Theorem create_pipeline_snapshots self (job : JobDescription)
    (cands : list CandidateProfile) :
  quiet self "pipeline_created" →
  ∃ st self',
    create_pipeline job cands self = (inl st, self')
    ∧ state self' = Some st
    ∧ pipeline_id st = uuid4_hex (uuids self)
    ∧ current_stage st = INITIALIZED
    ∧ job_id st = jd_job_id job
    ∧ job_description st = JobDescription_to_dict job
    ∧ candidates st = CandidateProfile_to_dict <$> cands
    ∧ agent_responses st = []
    ∧ decision_gates st = []
    ∧ Messages.errors st = []
    ∧ Messages.warnings st = [].
Proof.
  intros Hq.
  destruct (create_pipeline_returns self job cands Hq) as (self' & Hrun & Hst).
  eexists _, self'. split; [exact Hrun|]. split; [exact Hst|].
  repeat split; reflexivity.
Qed.

(** ** The shortlisting gate *)

(** The gate that [_run_shortlisting] records always has [passed = True]:
    no value is measured and none is compared with the threshold. *)
Lemma _run_shortlisting_gate self st :
  state self = Some st →
  ∃ d self' st' gate,
    _run_shortlisting self = (inl d, self')
    ∧ action d = CONTINUE
    ∧ state self' = Some st'
    ∧ decision_gates st'
      = (decision_gates st ++ [DecisionGate_to_dict gate])%list
    ∧ passed gate = true
    ∧ threshold gate
      = dict_get (job_description st) "shortlist_threshold" (VFloat 0.7).
Proof.
  intros Hst. unfold _run_shortlisting.
  rewrite (bind_inl _ _ _ _ _ (the_state_Some _ _ Hst)).
  rewrite (bind_inl _ _ _ _ _ (update_state_Some _ _ _ Hst)).
  eexists _, _, _, _. split; [reflexivity|]. repeat split; reflexivity.
Qed.

End Kit.

End OrchestratorProps.

Module OrchestratorExamples.
Import Base Candidates BiasAuditor Orchestrator OrchSpec OrchestratorProps Sample.



Lemma orchestrator_quiet (event_type : string) : quiet orchestrator event_type.
Proof. apply quiet_unregistered. apply lookup_empty. Qed.

(** C1: the pipeline of the sample job and three candidates reaches
    [COMPLETED] whatever the bias auditor is: the only responses recorded
    are those of the JD analyzer and of the resume parser, and the audit
    result of the state is the constant that [_run_bias_audit] writes. *)
Theorem pipeline_completes_without_bias_audit
    (auditor : BaseAgent BiasAuditInput BiasAuditResult) :
  current_stage
    <$> returned_state (run_pipeline 10 (set_bias_auditor auditor created))
  = Some COMPLETED
  ∧ responders
      <$> returned_state (run_pipeline 10 (set_bias_auditor auditor created))
    = Some [Some (VStr "JDAnalyzerAgent"); Some (VStr "ResumeParserAgent");
            Some (VStr "ResumeParserAgent"); Some (VStr "ResumeParserAgent")]
  ∧ bias_audit_results
      <$> returned_state (run_pipeline 10 (set_bias_auditor auditor created))
    = Some {[ "audit_passed" := VBool true; "fairness_score" := VFloat 0.9;
              "findings" := VList [] ]}.
Proof. repeat split; vm_compute; reflexivity. Qed.


(** The exception of a handler of [pipeline_finished] leaves
    [run_pipeline]. *)
Example run_pipeline_handler_raises :
  raised (run_pipeline 10 (created_with_failing_handler "pipeline_finished"))
  = Some {| exc_class := "RuntimeError"; exc_str := "handler failed" |}.
Proof. vm_compute. reflexivity. Qed.



(** A handler of [stage_started] that raises: the exception is caught, the
    pipeline fails and the error text is recorded. *)
Example stage_exception_fails_pipeline :
  current_stage
    <$> returned_state
          (run_pipeline 10 (created_with_failing_handler "stage_started"))
  = Some Messages.FAILED
  ∧ Messages.errors
      <$> returned_state
            (run_pipeline 10 (created_with_failing_handler "stage_started"))
    = Some ["Error in initialized: handler failed"].
Proof. split; vm_compute; reflexivity. Qed.

(** An empty candidate list and a job without identifier are accepted. *)
Example create_pipeline_accepts_empty_input :
  (fun st => (current_stage st, candidates st))
    <$> returned_state (Some (create_pipeline job [] orchestrator))
  = Some (INITIALIZED, [])
  ∧ (fun st => (current_stage st, job_id st, length (candidates st)))
      <$> returned_state
            (Some (create_pipeline anonymous_job three_candidates orchestrator))
    = Some (INITIALIZED, "", 3%nat).
Proof. split; vm_compute; reflexivity. Qed.

(** [create_pipeline] does not fail on an empty candidate list or on a job
    without identifier. *)
Lemma create_pipeline_does_not_validate :
  ¬ (∀ (self : OrchestratorAgent) (job : JobDescription)
       (cands : list CandidateProfile),
       cands = [] ∨ jd_job_id job = "" →
       ∃ e self', create_pipeline job cands self = (inr e, self')).
Proof.
  intros Hclaim.
  destruct (Hclaim orchestrator job [] (or_introl eq_refl))
    as (e & self' & Hraise).
  destruct (create_pipeline_returns orchestrator job []
              (orchestrator_quiet "pipeline_created"))
    as (self1 & Hreturn & _).
  rewrite Hreturn in Hraise. discriminate.
Qed.

Lemma create_pipeline_snapshots_witness :
  quiet orchestrator "pipeline_created"
  ∧ ∃ st self',
      create_pipeline job [] orchestrator = (inl st, self')
      ∧ state self' = Some st
      ∧ pipeline_id st = uuid4_hex (uuids orchestrator)
      ∧ current_stage st = INITIALIZED
      ∧ job_id st = jd_job_id job
      ∧ job_description st = JobDescription_to_dict job
      ∧ candidates st = CandidateProfile_to_dict <$> []
      ∧ agent_responses st = []
      ∧ decision_gates st = []
      ∧ Messages.errors st = []
      ∧ Messages.warnings st = [].
Proof.
  split; [apply orchestrator_quiet|].
  exact (create_pipeline_snapshots orchestrator job []
           (orchestrator_quiet "pipeline_created")).
Defined.

(** Two candidates, the first with an identifier that the parser cannot
    slice: its parse fails, the parse of the second succeeds, and the state
    keeps the first candidate only, merged with the resume of the second;
    the stage continues. *)
Example resume_parsing_misaligns :
  stage_outcome (_run_resume_parsing (parsing [numbered; named]))
  = Some (CONTINUE, Some RESUME_PARSING,
          [(Some (VInt 7), Some (VStr "cand-0002"))]).
Proof. vm_compute. reflexivity. Qed.

Lemma resume_parsing_pairs_by_position_witness :
  state (parsing [numbered; named]) = Some (parsing_state [numbered; named])
  ∧ quiet (parsing [numbered; named]) "agent_response"
  ∧ ∃ d self' st' rs,
      _run_resume_parsing (parsing [numbered; named]) = (inl d, self')
      ∧ action d = CONTINUE
      ∧ next_stage d = Some RESUME_PARSING
      ∧ Forall2 (invoked (parsing [numbered; named]))
          (candidates (parsing_state [numbered; named])) rs
      ∧ state self' = Some st'
      ∧ agent_responses st'
        = (agent_responses (parsing_state [numbered; named])
           ++ (Base.to_dict (VDict ∘ ParsedResume_to_dict) <$> rs))%list
      ∧ candidates st'
        = zip_with with_parsed_resume
            (take (length (parsed_of rs))
               (candidates (parsing_state [numbered; named])))
            (parsed_of rs)
      ∧ length (candidates st') = length (parsed_of rs)
      ∧ (length (parsed_of rs)
         ≤ length (candidates (parsing_state [numbered; named])))%nat
      ∧ ∀ i j,
          success_indices 0 rs !! i = Some j →
          (i ≤ j)%nat
          ∧ (∀ r0, rs !! i = Some r0 → succeeded r0 = false → (i < j)%nat)
          ∧ ∃ c r pr,
              candidates (parsing_state [numbered; named]) !! i = Some c
              ∧ rs !! j = Some r
              ∧ Base.data r = Some pr
              ∧ candidates st' !! i
                = Some (with_parsed_resume c (ParsedResume_to_dict pr)).
Proof.
  assert (Hq : quiet (parsing [numbered; named]) "agent_response")
    by (apply quiet_unregistered; apply lookup_empty).
  split; [reflexivity|]. split; [exact Hq|].
  exact (resume_parsing_pairs_by_position (parsing [numbered; named])
           (parsing_state [numbered; named]) eq_refl Hq).
Defined.

End OrchestratorExamples.

(* ===================================================================== *)
(** * The rational model against binary64 floats *)
(* ===================================================================== *)

Module FloatChecks.
Import FloatModel Spec.

(** For every list of findings that an audit can produce, the float score
    and the exact score are on the same side of 0.7. *)
Example score_threshold_agrees :
  forallb (fun sevs => Bool.eqb (float_score_passes sevs)
                         (exact_score_passes sevs))
    possible_findings = true.
Proof. vm_compute. reflexivity. Qed.

(** Two medium findings: the penalty 0.15 + 0.15 leaves the float 0.7, which
    still passes. *)
Example two_medium_findings_pass :
  float_score_passes [Medium; Medium] = true.
Proof. vm_compute. reflexivity. Qed.

(** Up to 200 gates, the float comparison with 30% of the gates agrees with
    the exact one. *)
Example borderline_rate_agrees :
  forallb (fun gates =>
             forallb (fun borderline =>
                        Bool.eqb (float_rate_high gates borderline)
                          (exact_rate_high gates borderline))
               (seq 0 (S gates)))
    (seq 0 201) = true.
Proof. vm_compute. reflexivity. Qed.

(** The three gate evaluations of the specification, on floats. *)
Example gate_examples_on_floats :
  float_borderline 0.75 0.7 = true
  ∧ float_borderline 0.95 0.7 = false
  ∧ float_borderline 0.5 0.7 = false.
Proof. repeat split; vm_compute; reflexivity. Qed.

End FloatChecks.

(* ===================================================================== *)
(** * Further properties of the agent runner (agents/base.py) *)
(* ===================================================================== *)

Module RunnerFacts.
Import Base Spec.

Section Run.
Context `{PyRuntime} {InputT OutputT : Type}.
Implicit Types (self : BaseAgent InputT OutputT) (s : AgentSt).

#[local] Ltac run_unfold :=
  unfold run, log_reasoning, elapsed_ms, utcnow, clear_audit_log,
    Py.modify, Py.gets, mbind, M_bind, mret, M_ret, Py.bind, Py.ret,
    Py.try_except;
  cbn -[String.append].

(** [run] clears the reasoning steps buffered by an earlier invocation: the
    response and the state it leaves do not depend on the audit log that
    the agent held before. *)
Theorem run_forgets_previous_log self (input : InputT)
    (log1 log2 : list string) (t : nat) :
  run self input {| _audit_log := log1; ticks := t |}
  = run self input {| _audit_log := log2; ticks := t |}.
Proof. run_unfold. reflexivity. Qed.

(** X1: On a normal return of the domain logic the response carries the
    identity of the agent and the output, and its audit trail is the log
    that the domain logic left, followed by the completion step; when the
    confidence is below the threshold the shortfall step comes in between
    and human review is required, otherwise it is not. *)
Theorem run_records_confidence_check self (input : InputT) s s1
    (out : OutputT) (conf : Q) (expl : string) :
  _process self input (entry_state self s) = (inl (out, conf, expl), s1) →
  ∃ r s' completed,
    run self input s = (inl r, s')
    ∧ agent_id r = self_agent_id self
    ∧ agent_type r = self_agent_type self
    ∧ data r = Some out
    ∧ ((conf < required_confidence_threshold self)%Q →
       requires_human_review r = true
       ∧ ∃ shortfall,
           audit_trail r = (_audit_log s1 ++ [shortfall; completed])%list
           ∧ reasoning_step
               ("Confidence " ++ fmt_2f conf ++ " below threshold "
                ++ fmt_2f (required_confidence_threshold self)
                ++ " - flagging for human review") shortfall)
    ∧ ((required_confidence_threshold self <= conf)%Q →
       requires_human_review r = false
       ∧ audit_trail r = (_audit_log s1 ++ [completed])%list)
    ∧ reasoning_step
        ("Completed successfully in " ++ fmt_2f (duration_ms r) ++ "ms")
        completed.
Proof.
  intros Hp. unfold entry_state in Hp. run_unfold. rewrite Hp.
  cbn -[String.append].
  destruct (Qltb conf (required_confidence_threshold self)) eqn:Hlt;
    cbn -[String.append].
  - apply BaseProps.Qltb_lt in Hlt.
    eexists _, _, _. split; [reflexivity|]. cbn -[String.append].
    split; [reflexivity|]. split; [reflexivity|]. split; [reflexivity|].
    split; [|split].
    + intros _. split; [reflexivity|]. eexists.
      split; [rewrite <- app_assoc; reflexivity|]. eexists; reflexivity.
    + intros Hle. exfalso. apply (Qlt_not_le _ _ Hlt Hle).
    + eexists; reflexivity.
  - assert (Hge : ¬ (conf < required_confidence_threshold self)%Q).
    { intros Habs%BaseProps.Qltb_lt. congruence. }
    eexists _, _, _. split; [reflexivity|]. cbn -[String.append].
    split; [reflexivity|]. split; [reflexivity|]. split; [reflexivity|].
    split; [|split].
    + intros Habs. contradiction.
    + intros _. split; reflexivity.
    + eexists; reflexivity.
Qed.
End Run.

End RunnerFacts.

Module RunnerExamples.
Import Base Spec RunnerFacts Sample.

(** An agent that reports the confidence 0.5, below the threshold 0.7. *)
Lemma run_records_confidence_check_witness :
  _process (reporting_agent 0.5) tt (entry_state (reporting_agent 0.5) fresh_agent)
  = (inl (tt, 0.5%Q, "done"), entry_state (reporting_agent 0.5) fresh_agent)
  ∧ ∃ r s' completed,
      run (reporting_agent 0.5) tt fresh_agent = (inl r, s')
      ∧ agent_id r = self_agent_id (reporting_agent 0.5)
      ∧ agent_type r = self_agent_type (reporting_agent 0.5)
      ∧ data r = Some tt
      ∧ ((0.5 < required_confidence_threshold (reporting_agent 0.5))%Q →
         requires_human_review r = true
         ∧ ∃ shortfall,
             audit_trail r
             = (_audit_log (entry_state (reporting_agent 0.5) fresh_agent)
                ++ [shortfall; completed])%list
             ∧ reasoning_step
                 ("Confidence " ++ fmt_2f 0.5 ++ " below threshold "
                  ++ fmt_2f (required_confidence_threshold (reporting_agent 0.5))
                  ++ " - flagging for human review") shortfall)
      ∧ ((required_confidence_threshold (reporting_agent 0.5) <= 0.5)%Q →
         requires_human_review r = false
         ∧ audit_trail r
           = (_audit_log (entry_state (reporting_agent 0.5) fresh_agent)
              ++ [completed])%list)
      ∧ reasoning_step
          ("Completed successfully in " ++ fmt_2f (duration_ms r) ++ "ms")
          completed.
Proof.
  split; [reflexivity|].
  exact (run_records_confidence_check (reporting_agent 0.5) tt fresh_agent
           (entry_state (reporting_agent 0.5) fresh_agent) tt 0.5 "done"
           eq_refl).
Defined.

End RunnerExamples.

(* ===================================================================== *)
(** * Properties of the resume parser and of the JD analyzer *)
(* ===================================================================== *)

Module StringFacts.
Import Spec.

Lemma length_omap_le {A B} (f : A → option B) (l : list A) :
  (length (omap f l) ≤ length l)%nat.
Proof.
  induction l as [|x l IH]; cbn; [lia|]. destruct (f x); cbn; lia.
Qed.

Lemma prefix_app (term text : string) :
  String.prefix term text = true ↔ ∃ after, text = term ++ after.
Proof.
  revert text. induction term as [|c term IH]; intros text.
  - split; [cbn; eauto|]. intros _. destruct text; reflexivity.
  - destruct text as [|c' text]; cbn.
    + split; [discriminate|]. intros [after Habs]. discriminate.
    + destruct (Ascii.ascii_dec c c') as [->|Hne].
      * rewrite IH. split; intros [after Heq]; exists after.
        -- now rewrite Heq.
        -- now injection Heq.
      * split; [discriminate|]. intros [after Heq]. injection Heq as Hc _.
        congruence.
Qed.

(** [str_contains] decides Python's [term in text]. *)
Lemma str_contains_occurs (term text : string) :
  str_contains term text = true ↔ occurs term text.
Proof.
  unfold occurs. induction text as [|c text IH]; cbn [str_contains].
  - rewrite orb_false_r, prefix_app. split.
    + intros [after Heq]. exists "", after. exact Heq.
    + intros (before & after & Heq). destruct before; [eauto|discriminate].
  - rewrite orb_true_iff, prefix_app, IH. split.
    + intros [[after Heq]|(before & after & Heq)].
      * exists "", after. exact Heq.
      * exists (String c before), after. cbn. now rewrite Heq.
    + intros (before & after & Heq). destruct before as [|c' before].
      * left. eauto.
      * right. cbn in Heq. injection Heq as _ Heq. eauto.
Qed.

End StringFacts.

Module ParserFacts.
Import Base Candidates Spec ResumeParser.

Section Parser.
Context `{PyRuntime}.

#[local] Ltac process_unfold :=
  unfold Base._process, ResumeParserAgent, _process, log_reasoning, utcnow,
    slice_to, Py.modify, Py.raise, mbind, M_bind, mret, M_ret, Py.bind,
    Py.ret;
  cbn -[String.append truthy dict_get].

(** [validate_input] and [_process] agree on when the resume text is
    missing, although they read it with different defaults. *)
Lemma resume_text_defaults (input : gmap string Value) :
  truthy (dict_get input "resume_text" VNone)
  = truthy (dict_get input "resume_text" (VStr "")).
Proof. unfold dict_get. destruct (input !! "resume_text"); reflexivity. Qed.

Lemma _process_without_text (input : gmap string Value) (s : AgentSt) :
  truthy (dict_get input "resume_text" (VStr "")) = false →
  ∃ s1, _process input s = (inr (ValueError "No resume text provided"), s1).
Proof.
  intros Hfalse. process_unfold. rewrite Hfalse. cbn. eauto.
Qed.

(** With a resume text, the domain logic returns for an identifier that
    can be sliced and raises a [TypeError] for any other. *)
Lemma _process_with_text (input : gmap string Value) (s : AgentSt) :
  truthy (dict_get input "resume_text" (VStr "")) = true →
  (∃ pr expl s1,
     _process input s = (inl (pr, 0.85%Q, expl), s1)
     ∧ pr_candidate_id pr = dict_get input "candidate_id" (VStr ""))
  ∨ (∃ msg s1, _process input s = (inr (TypeError msg), s1)
               ∧ msg ≠ "No resume text provided").
Proof.
  intros Htrue. process_unfold. rewrite Htrue. cbn -[String.append dict_get].
  destruct (dict_get input "candidate_id" (VStr "")) eqn:Hid;
    cbn -[String.append];
    first [ left; eexists _, _, _; split; reflexivity
          | right; eexists _, _; split; [reflexivity|discriminate] ].
Qed.

(** X2: An input with a resume text and a string as candidate identifier (or
    none) is parsed: the run succeeds with confidence 0.85, which is above
    the parser's threshold 0.6, so no review is asked for, and the parsed
    resume carries the identifier of the input. *)
Theorem resume_parser_run_succeeds (agent_id cid : string)
    (input : gmap string Value) (s : AgentSt) :
  dict_get input "candidate_id" (VStr "") = VStr cid →
  truthy (dict_get input "resume_text" (VStr "")) = true →
  ∃ r s' pr,
    run (ResumeParserAgent agent_id) input s = (inl r, s')
    ∧ status r = SUCCESS
    ∧ data r = Some pr
    ∧ pr_candidate_id pr = VStr cid
    ∧ confidence r = 0.85%Q
    ∧ requires_human_review r = false
    ∧ errors r = [].
Proof.
  intros Hid Htext.
  destruct (_process_with_text input
              (entry_state (ResumeParserAgent agent_id) s) Htext)
    as [(pr & expl & s1 & Hp & Hpr)|(msg & s1 & Hp & _)].
  - destruct (BaseProps.run_returns (ResumeParserAgent agent_id) input s
                pr 0.85%Q expl s1 Hp)
      as (r & s' & Hrun & Hst & Hd & Hc & _ & He & _ & Hrev).
    exists r, s', pr. repeat split; try assumption. now rewrite Hpr.
  - exfalso. revert Hp. process_unfold. rewrite Htext, Hid.
    cbn -[String.append]. discriminate.
Qed.

(** X3: The run of the parser fails with "No resume text provided" exactly when
    [validate_input] reports that the resume text is required. *)
Theorem resume_text_required (agent_id : string) (input : gmap string Value)
    (s : AgentSt) :
  "resume_text is required" ∈ validate_input input
  ↔ ∃ r s',
      run (ResumeParserAgent agent_id) input s = (inl r, s')
      ∧ status r = FAILED
      ∧ errors r = ["No resume text provided"].
Proof.
  assert (Hval : "resume_text is required" ∈ validate_input input
                 ↔ truthy (dict_get input "resume_text" (VStr "")) = false).
  { unfold validate_input. rewrite resume_text_defaults.
    destruct (truthy (dict_get input "candidate_id" VNone));
      destruct (truthy (dict_get input "resume_text" (VStr "")));
      cbn; split; intros Hin; try reflexivity; try discriminate;
      try (repeat first [apply list_elem_of_here | apply list_elem_of_further]);
      exfalso; repeat (apply elem_of_cons in Hin as [Hin|Hin];
                       [discriminate|]);
      now apply not_elem_of_nil in Hin. }
  rewrite Hval. split.
  - intros Hfalse.
    destruct (_process_without_text input
                (entry_state (ResumeParserAgent agent_id) s) Hfalse)
      as [s1 Hp].
    destruct (BaseProps.run_raises (ResumeParserAgent agent_id) input s _ s1 Hp)
      as (r & s' & Hrun & Hst & _ & _ & _ & He & _).
    exists r, s'. repeat split; assumption.
  - intros (r & s' & Hrun & Hst & He).
    destruct (truthy (dict_get input "resume_text" (VStr ""))) eqn:Htext;
      [|reflexivity].
    exfalso.
    destruct (_process_with_text input
                (entry_state (ResumeParserAgent agent_id) s) Htext)
      as [(pr & expl & s1 & Hp & _)|(msg & s1 & Hp & Hmsg)].
    + destruct (BaseProps.run_returns (ResumeParserAgent agent_id) input s
                  pr 0.85%Q expl s1 Hp) as (r1 & s1' & Hrun1 & Hst1 & _).
      rewrite Hrun in Hrun1. injection Hrun1 as <- _. congruence.
    + destruct (BaseProps.run_raises (ResumeParserAgent agent_id) input s _ s1 Hp)
        as (r1 & s1' & Hrun1 & _ & _ & _ & _ & He1 & _).
      rewrite Hrun in Hrun1. injection Hrun1 as <- _.
      rewrite He in He1. injection He1 as He1. apply Hmsg. now symmetry.
Qed.
End Parser.

End ParserFacts.

Module ParserExamples.
Import Base Candidates Spec ResumeParser ParserFacts Sample.

Lemma resume_parser_run_succeeds_witness :
  dict_get resume_input "candidate_id" (VStr "") = VStr "cand-0001-abcdef"
  ∧ truthy (dict_get resume_input "resume_text" (VStr "")) = true
  ∧ ∃ r s' pr,
      run (ResumeParserAgent "ResumeParserAgent_1") resume_input fresh_agent
      = (inl r, s')
      ∧ status r = SUCCESS
      ∧ data r = Some pr
      ∧ pr_candidate_id pr = VStr "cand-0001-abcdef"
      ∧ confidence r = 0.85%Q
      ∧ requires_human_review r = false
      ∧ errors r = [].
Proof.
  assert (Hid : dict_get resume_input "candidate_id" (VStr "")
                = VStr "cand-0001-abcdef") by (vm_compute; reflexivity).
  assert (Htext : truthy (dict_get resume_input "resume_text" (VStr "")) = true)
    by (vm_compute; reflexivity).
  split; [exact Hid|]. split; [exact Htext|].
  exact (resume_parser_run_succeeds "ResumeParserAgent_1" "cand-0001-abcdef"
           resume_input fresh_agent Hid Htext).
Defined.

(** An input that passes [validate_input] and still fails: the identifier
    is a number, which cannot be sliced. *)
Example validated_input_can_fail :
  validate_input {[ "candidate_id" := VInt 7; "resume_text" := VStr "text" ]}
  = []
  ∧ (fun r => (status r.1, errors r.1))
      <$> (match run (ResumeParserAgent "ResumeParserAgent_1")
                   {[ "candidate_id" := VInt 7; "resume_text" := VStr "text" ]}
                   fresh_agent with
           | (inl r, s') => Some (r, s')
           | (inr _, _) => None
           end)
    = Some (FAILED, ["'int' object is not subscriptable"]).
Proof. split; vm_compute; reflexivity. Qed.

End ParserExamples.

Module JDFacts.
Import Base Spec JDAnalyzer StringFacts.

Section Analyzer.
Context `{PyRuntime} `{Schemas}.

(** X4: A flag is raised exactly for the terms of the two lists that occur in
    the lower-cased text, with the label of the list; there are at most
    nine flags. *)
Theorem _check_for_bias_flags (text flag : string) :
  (flag ∈ _check_for_bias text
   ↔ ∃ term,
       occurs term (str_lower text)
       ∧ ((term ∈ gendered_terms
           ∧ flag = "Potentially gendered term: '" ++ term ++ "'")
          ∨ (term ∈ age_terms
             ∧ flag = "Potentially age-biased term: '" ++ term ++ "'")))
  ∧ (length (_check_for_bias text) ≤ 9)%nat.
Proof.
  unfold _check_for_bias. cbv zeta. split.
  - rewrite elem_of_app, !list_elem_of_omap. split.
    + intros [(term & Hin & Hflag)|(term & Hin & Hflag)];
        destruct (str_contains term (str_lower text)) eqn:Hc;
        try discriminate; injection Hflag as <-;
        apply str_contains_occurs in Hc; exists term; split; auto.
    + intros (term & Hocc%str_contains_occurs & [[Hin ->]|[Hin ->]]);
        [left|right]; exists term; (split; [exact Hin|]); now rewrite Hocc.
  - rewrite length_app.
    etransitivity; [apply Nat.add_le_mono; apply length_omap_le|].
    cbn. lia.
Qed.

(** X5: The analysis of a job description always succeeds, with confidence 0.9
    and without a request for review; the parsed description carries the
    identifier and the title of the job and the flags of
    [_check_for_bias]. *)
Theorem jd_analyzer_run_succeeds (agent_id : string) (job : JobDescription)
    (s : AgentSt) :
  ∃ r s' pj,
    run (JDAnalyzerAgent agent_id) job s = (inl r, s')
    ∧ status r = SUCCESS
    ∧ data r = Some pj
    ∧ pj_job_id pj = jd_job_id job
    ∧ job_title_normalized pj = title job
    ∧ potential_bias_flags pj = _check_for_bias (raw_description job)
    ∧ confidence r = 0.9%Q
    ∧ requires_human_review r = false
    ∧ errors r = [].
Proof.
  assert (Hp : ∃ pj expl s1,
             Base._process (JDAnalyzerAgent agent_id) job
               (entry_state (JDAnalyzerAgent agent_id) s)
             = (inl (pj, 0.9%Q, expl), s1)
             ∧ pj_job_id pj = jd_job_id job
             ∧ job_title_normalized pj = title job
             ∧ potential_bias_flags pj = _check_for_bias (raw_description job)).
  { unfold Base._process, JDAnalyzerAgent, _process, log_reasoning, utcnow,
      Py.modify, mbind, M_bind, mret, M_ret, Py.bind, Py.ret.
    cbn -[String.append _check_for_bias].
    destruct (negb (length (_check_for_bias (raw_description job)) =? 0)%nat);
      cbn -[String.append _check_for_bias];
      eexists _, _, _; (split; [reflexivity|]); repeat split; reflexivity. }
  destruct Hp as (pj & expl & s1 & Hp & Hid & Htitle & Hflags).
  destruct (BaseProps.run_returns (JDAnalyzerAgent agent_id) job s
              pj 0.9%Q expl s1 Hp)
    as (r & s' & Hrun & Hst & Hd & Hc & _ & He & _ & Hrev).
  exists r, s', pj. repeat split; assumption.
Qed.
End Analyzer.

End JDFacts.

(* ===================================================================== *)
(** * Further properties of the bias auditor (agents/bias_auditor.py) *)
(* ===================================================================== *)

Module AuditorFacts.
Import Base Candidates BiasAuditor Spec AuditorSpec.

(** ** Maximum and minimum of the scores *)





Section Audit.
Context `{PyRuntime} `{Schemas}.

(** The result of the audit in terms of its four checks. *)
Lemma _process_checks (input : BiasAuditInput) (s : AgentSt) :
  ∃ r expl s',
    _process input s = (inl (r, 0.9%Q, expl), s')
    ∧ f_category <$> findings r
      = ((if jd_flagged input then ["jd_language_bias"] else [])
         ++ (if high_borderline_rate input then ["threshold_calibration"] else [])
         ++ (if scores_clustered input then ["score_clustering"] else [])
         ++ (if unexplained input then ["explanation_quality"] else []))%list
    ∧ (overall_fairness_score r
       == 1 - ((if jd_flagged input then 0.15 else 0)
               + (if high_borderline_rate input then 0.3 else 0)
               + (if scores_clustered input then 0.05 else 0)
               + (if unexplained input then 0.15 else 0)))%Q
    ∧ audit_passed r
      = negb (high_borderline_rate input)
        && negb (jd_flagged input && scores_clustered input
                 && unexplained input)
    ∧ (∀ f, f ∈ findings r → f_category f = "explanation_quality" →
            severity f = "medium"
            ∧ affected_candidates f
              = VStrs (fr_candidate_id <$> rankings_without_explanation input))
    ∧ (∀ f, f ∈ findings r → f_category f = "score_clustering" →
            severity f = "low")
    ∧ length (recommendations r)
      = (Nat.b2n (jd_flagged input) + Nat.b2n (high_borderline_rate input)
         + Nat.b2n (unexplained input))%nat.
Proof.
  unfold _process, log_reasoning, utcnow, Py.modify, mbind, M_bind, mret,
    M_ret, Py.bind, Py.ret, jd_flagged, unexplained.
  cbn -[String.append py_sum py_max Qgeb severity_weight].
  destruct (truthy (jd_bias_flags input));
    destruct (high_borderline_rate input);
    destruct (scores_clustered input);
    destruct (negb (length (rankings_without_explanation input) =? 0)%nat);
    cbn -[String.append py_sum py_max Qgeb severity_weight];
    eexists _, _, _; (split; [reflexivity|]);
    cbn -[String.append];
    (split; [reflexivity|]); (split; [reflexivity|]);
    (split; [reflexivity|]);
    (split;
     [ intros f Hin Hcat;
       repeat (apply elem_of_cons in Hin as [->|Hin];
               [first [discriminate Hcat | split; reflexivity]|]);
       now apply not_elem_of_nil in Hin|]);
    (split; [|reflexivity]);
    intros f Hin Hcat;
    repeat (apply elem_of_cons in Hin as [->|Hin];
            [first [discriminate Hcat | reflexivity]|]);
    now apply not_elem_of_nil in Hin.
Qed.
End Audit.

Section Claims.
Context `{PyRuntime} `{Schemas}.



(** X6: The fairness score lies between 0.35 and 1.0: the four checks can take
    away at most 0.65, so that the clamp at 0 never applies. *)
Theorem fairness_score_bounds (input : BiasAuditInput) (s : AgentSt) :
  ∃ r conf expl s',
    _process input s = (inl (r, conf, expl), s')
    ∧ (0.35 <= overall_fairness_score r)%Q
    ∧ (overall_fairness_score r <= 1)%Q.
Proof.
  destruct (_process_checks input s)
    as (r & expl & s' & Hp & _ & Hscore & _).
  exists r, 0.9%Q, expl, s'. split; [exact Hp|]. rewrite Hscore.
  destruct (jd_flagged input), (high_borderline_rate input),
    (scores_clustered input), (unexplained input);
    split; unfold Qle; cbn; lia.
Qed.

(** X7: The audit fails exactly when the borderline rate of the gates is high,
    or when the three other checks fire together: biased language in the
    job description, clustered scores and a ranking without adequate
    explanation. *)
Theorem audit_fails_iff (input : BiasAuditInput) (s : AgentSt) :
  ∃ r conf expl s',
    _process input s = (inl (r, conf, expl), s')
    ∧ (audit_passed r = false
       ↔ high_borderline_rate input = true
         ∨ (jd_flagged input = true ∧ scores_clustered input = true
            ∧ unexplained input = true)).
Proof.
  destruct (_process_checks input s)
    as (r & expl & s' & Hp & _ & _ & Hpass & _).
  exists r, 0.9%Q, expl, s'. split; [exact Hp|]. rewrite Hpass.
  destruct (jd_flagged input), (high_borderline_rate input),
    (scores_clustered input), (unexplained input); cbn;
    split; first [ reflexivity | discriminate | tauto | idtac ];
    intros; try tauto;
    match goal with
    | Hor : _ ∨ _ |- _ =>
        destruct Hor as [Hr|(Hj & Hc & Hu)]; discriminate
    end.
Qed.

(** X8: Through the runner the audit is always a success with confidence 0.9,
    which is not below the auditor's threshold 0.9: the response never asks
    for human review, whatever the audit found; only the audit result
    carries the request, exactly when the audit failed. *)
Theorem bias_auditor_run_never_flags (agent_id : string)
    (input : BiasAuditInput) (s : AgentSt) :
  ∃ r s' result,
    run (BiasAuditorAgent agent_id) input s = (inl r, s')
    ∧ status r = SUCCESS
    ∧ data r = Some result
    ∧ confidence r = 0.9%Q
    ∧ requires_human_review r = false
    ∧ result_requires_human_review result = negb (audit_passed result).
Proof.
  destruct (BiasAuditorProps._process_result input
              (entry_state (BiasAuditorAgent agent_id) s))
    as (result & expl & s1 & Hp & _ & Hpass & Hrev & _ & _).
  destruct (BaseProps.run_returns (BiasAuditorAgent agent_id) input s
              result 0.9%Q expl s1 Hp)
    as (r & s' & Hrun & Hst & Hd & Hc & _ & _ & _ & Hflag).
  exists r, s', result. repeat split; try assumption.
  rewrite Hrev. destruct (has_high (findings result)).
  - rewrite Hpass, andb_false_r. reflexivity.
  - apply orb_false_r.
Qed.


End Claims.

End AuditorFacts.

(* ===================================================================== *)
(** * Further properties of the audit logger (core/logger.py) *)
(* ===================================================================== *)

Module LoggerFacts.
Import Logger LoggerSpec.

Section Ledger.
Context `{PyRuntime}.




(** X12: [get_entries] returns, in their order, exactly the entries that pass
    the filters; a filter given as the empty string does not filter. *)
Theorem get_entries_filters (for_pipeline_id for_event_type : option string)
    (for_requires_review : option bool) (s : AuditLogger) :
  sublist (get_entries for_pipeline_id for_event_type for_requires_review s)
    (_entries s)
  ∧ (∀ e, e ∈ get_entries for_pipeline_id for_event_type
                 for_requires_review s
          ↔ e ∈ _entries s
            ∧ passes for_pipeline_id for_event_type for_requires_review e)
  ∧ get_entries (Some "") for_event_type for_requires_review s
    = get_entries None for_event_type for_requires_review s
  ∧ get_entries for_pipeline_id (Some "") for_requires_review s
    = get_entries for_pipeline_id None for_requires_review s.
Proof.
  assert (Hsub : ∀ (P : AuditEntry → bool) l, sublist (List.filter P l) l).
  { intros P l. induction l as [|x l IH]; cbn; [constructor|].
    destruct (P x); now constructor. }
  assert (Hin : ∀ (P : AuditEntry → bool) l e,
             e ∈ List.filter P l ↔ e ∈ l ∧ P e = true).
  { intros P l e. now rewrite !list_elem_of_In, filter_In. }
  split; [|split; [|split; reflexivity]].
  - unfold get_entries. cbv zeta.
    destruct for_pipeline_id as [p|], for_event_type as [t|],
      for_requires_review as [r|];
      try destruct (String.eqb p ""); try destruct (String.eqb t "");
      repeat (etransitivity; [apply Hsub|]); reflexivity.
  - intros e. unfold get_entries, passes. cbv zeta.
    destruct for_pipeline_id as [p|], for_event_type as [t|],
      for_requires_review as [r|];
      try destruct (String.eqb_spec p ""); try destruct (String.eqb_spec t "");
      rewrite ?Hin, ?bool_decide_eq_true, ?String.eqb_eq, ?Bool.eqb_true_iff;
      split;
      try (intros Hall; repeat split; try tauto;
           intros x Hx; injection Hx as <-; tauto);
      try (intros (He & Hp & Ht & Hr);
           repeat split; first [ exact He | now apply Hp | now apply Ht
                               | now apply Hr ]);
      try (intros Hall; repeat split; try tauto; intros x Hx;
           first [discriminate Hx | injection Hx as <-; tauto]).
Qed.


(** The five predicates of the summary exclude each other. *)
Lemma summary_kinds_exclusive (e : AuditEntry) :
  (Nat.b2n (String.eqb (event_type e) "decision")
   + Nat.b2n (is_gate_with "passed" e) + Nat.b2n (is_gate_with "failed" e)
   + Nat.b2n (String.eqb (event_type e) "review_request")
   + Nat.b2n (String.eqb (event_type e) "bias_finding") ≤ 1)%nat.
Proof.
  unfold is_gate_with.
  destruct (String.eqb_spec (event_type e) "decision") as [E1|_];
    destruct (String.eqb_spec (event_type e) "decision_gate") as [E2|_];
    destruct (String.eqb_spec (event_type e) "review_request") as [E3|_];
    destruct (String.eqb_spec (event_type e) "bias_finding") as [E4|_];
    try congruence;
    repeat case_bool_decide; try congruence;
    cbn; lia.
Qed.

Lemma summary_counts_le (entries : list AuditEntry) :
  (length (List.filter (fun e => String.eqb (event_type e) "decision") entries)
   + length (List.filter (is_gate_with "passed") entries)
   + length (List.filter (is_gate_with "failed") entries)
   + length (List.filter
               (fun e => String.eqb (event_type e) "review_request") entries)
   + length (List.filter
               (fun e => String.eqb (event_type e) "bias_finding") entries)
   ≤ length entries)%nat.
Proof.
  induction entries as [|e entries IH]; [cbn; lia|].
  pose proof (summary_kinds_exclusive e) as He.
  cbn [List.filter].
  destruct (String.eqb (event_type e) "decision"),
    (is_gate_with "passed" e), (is_gate_with "failed" e),
    (String.eqb (event_type e) "review_request"),
    (String.eqb (event_type e) "bias_finding");
    cbn [length Nat.b2n] in *; lia.
Qed.

(** X14: The compliance export of a pipeline holds the entries of that pipeline
    (of every pipeline when the identifier is empty), as many dictionaries
    as [total_entries] says; the five counts of its summary never exceed
    [total_entries] together, and fall short of it by the entries of other
    kinds; the export changes neither the entries nor the file. *)
Theorem export_for_compliance_counts (for_pipeline_id : string)
    (s : AuditLogger) :
  ∃ export s',
    export_for_compliance for_pipeline_id s = (inl export, s')
    ∧ _entries s' = _entries s ∧ log_file s' = log_file s
    ∧ exported_entries export
      = to_dict <$> get_entries (Some for_pipeline_id) None None s
    ∧ total_entries export = length (exported_entries export)
    ∧ (decisions export + gates_passed export + gates_failed export
       + review_requests export + bias_findings export
       ≤ total_entries export)%nat
    ∧ (total_entries export ≤ length (_entries s))%nat
    ∧ (for_pipeline_id = "" → total_entries export = length (_entries s))
    ∧ (∀ e, e ∈ get_entries (Some for_pipeline_id) None None s →
            event_type e = "error" →
            (decisions export + gates_passed export + gates_failed export
             + review_requests export + bias_findings export
             < total_entries export)%nat).
Proof.
  unfold export_for_compliance, Py.get, Py.modify, mbind, M_bind, mret, M_ret,
    Py.bind, Py.ret.
  cbn -[get_entries List.filter]. eexists _, _. split; [reflexivity|].
  cbn -[get_entries List.filter].
  split; [reflexivity|]. split; [reflexivity|]. split; [reflexivity|].
  split; [now rewrite length_fmap|]. split; [apply summary_counts_le|].
  split.
  { unfold get_entries. cbv zeta.
    destruct (String.eqb for_pipeline_id ""); [lia|].
    apply List.filter_length_le. }
  split.
  { intros ->. reflexivity. }
  generalize (get_entries (Some for_pipeline_id) None None s).
  intros entries e He Herror.
  induction entries as [|x entries IH]; [now apply elem_of_nil in He|].
  apply elem_of_cons in He. destruct He as [<-|He].
  - pose proof (summary_counts_le entries) as Hle.
    assert (Hnone : String.eqb (event_type e) "decision" = false
                    ∧ is_gate_with "passed" e = false
                    ∧ is_gate_with "failed" e = false
                    ∧ String.eqb (event_type e) "review_request" = false
                    ∧ String.eqb (event_type e) "bias_finding" = false).
    { unfold is_gate_with. rewrite Herror. repeat split; reflexivity. }
    cbn [List.filter]. destruct Hnone as (-> & -> & -> & -> & ->).
    cbn [length]. lia.
  - specialize (IH He). pose proof (summary_kinds_exclusive x) as Hx.
    cbn [List.filter].
    destruct (String.eqb (event_type x) "decision"),
      (is_gate_with "passed" x), (is_gate_with "failed" x),
      (String.eqb (event_type x) "review_request"),
      (String.eqb (event_type x) "bias_finding");
      cbn [length Nat.b2n] in *; lia.
Qed.
End Ledger.

End LoggerFacts.

(* ===================================================================== *)
(** * Properties of the matcher (agents/matcher.py) *)
(* ===================================================================== *)

Module MatcherFacts.
Import Base Candidates Matcher.

Lemma inject_Z_div_bounds (c r : Z) :
  (0 < r)%Z →
  ((0 <= c)%Z → (0 <= inject_Z c / inject_Z r)%Q)
  ∧ ((c < r)%Z → (inject_Z c / inject_Z r < 1)%Q)
  ∧ ((c < 0)%Z → (inject_Z c / inject_Z r < 0)%Q)
  ∧ ((0.7 <= inject_Z c / inject_Z r)%Q ↔ (7 * r <= 10 * c)%Z).
Proof.
  intros Hr. destruct r as [|r|r]; try lia.
  unfold Qle, Qlt, Qdiv, Qmult, Qinv, inject_Z. cbn.
  repeat split; intros; lia.
Qed.

(** X15: The experience score of a candidate with a non-negative number of
    months lies between 0 and 1 and is 1 exactly when the months reach the
    required ones; the fallback 0.5 is returned only for a candidate with
    a negative number of months, and such a candidate gets a negative score
    against a positive requirement. *)
Theorem experience_match_range (resume : ParsedResume) (jd : ParsedJD) :
  let required := (minimum_years (experience_requirements jd) * 12)%Z in
  let candidate := total_experience_months resume in
  let score := _calculate_experience_match resume jd in
  ((0 <= candidate)%Z →
     (0 <= score <= 1)%Q ∧ ((score == 1)%Q ↔ (required <= candidate)%Z))
  ∧ ((candidate < 0)%Z → (0 < required)%Z → (score < 0)%Q)
  ∧ ((candidate < required)%Z → (required <= 0)%Z →
       score = 0.5%Q ∧ (candidate < 0)%Z).
Proof.
  cbv zeta. unfold _calculate_experience_match.
  set (required := (minimum_years (experience_requirements jd) * 12)%Z).
  set (candidate := total_experience_months resume).
  destruct (Z.leb_spec required candidate) as [Hle|Hlt].
  - repeat split; try lia; intros; try lra; lia.
  - destruct (Z.ltb_spec 0 required) as [Hpos|Hneg].
    + destruct (inject_Z_div_bounds candidate required Hpos)
        as (H0 & H1 & Hn & _).
      split; [|split].
      * intros Hc. split; [split; [now apply H0|apply Qlt_le_weak; now apply H1]|].
        split; [|lia]. intros Heq. specialize (H1 Hlt). lra.
      * intros Hc _. now apply Hn.
      * lia.
    + split; [|split]; try lia. intros _ _. split; [reflexivity|lia].
Qed.

Section Agent.
Context `{PyRuntime} `{MatcherSchemas}.

#[local] Ltac process_unfold :=
  unfold Base._process, MatcherAgent, _process, log_reasoning, utcnow,
    slice_to, Py.modify, Py.get, Py.gets, Py.raise, mbind, M_bind, mret,
    M_ret, Py.bind, Py.ret;
  cbn -[String.append _calculate_experience_match weight Qgeb Qmult Qplus].

(** X16: A resume whose candidate identifier is a string is matched: the run
    succeeds with confidence 0.85 and asks for no review; the overall score
    weighs the fixed skills score 0.75, the experience score and the fixed
    education score 0.8 by the weights of the job (0.4, 0.35 and 0.25 where
    the job names none), and for a job that asks for a non-negative number
    of years the experience requirement is met exactly when the candidate
    has seven tenths of the required months. *)
Theorem matcher_run_succeeds (agent_id cid : string) (input : MatcherInput)
    (s : AgentSt) :
  pr_candidate_id (parsed_resume input) = VStr cid →
  (0 <= minimum_years (experience_requirements (parsed_jd input)))%Z →
  ∃ r s' result,
    run (MatcherAgent agent_id) input s = (inl r, s')
    ∧ status r = SUCCESS
    ∧ data r = Some result
    ∧ confidence r = 0.85%Q
    ∧ requires_human_review r = false
    ∧ mr_candidate_id result = VStr cid
    ∧ experience_match_score result
      = _calculate_experience_match (parsed_resume input) (parsed_jd input)
    ∧ overall_match_score result
      = (0.75 * weight (scoring_weights (parsed_jd input)) "skills" 0.4
         + experience_match_score result
           * weight (scoring_weights (parsed_jd input)) "experience" 0.35
         + 0.8 * weight (scoring_weights (parsed_jd input)) "education" 0.25)%Q
    ∧ (meets_experience_requirement result = true
       ↔ (84 * minimum_years (experience_requirements (parsed_jd input))
          <= 10 * total_experience_months (parsed_resume input))%Z)
    ∧ required_skills_total result
      = Z.of_nat (length (get_required_skills (parsed_jd input))).
Proof.
  intros Hid Hyears.
  assert (Hp : ∃ result expl s1,
             Base._process (MatcherAgent agent_id) input
               (Spec.entry_state (MatcherAgent agent_id) s)
             = (inl (result, 0.85%Q, expl), s1)
             ∧ mr_candidate_id result = VStr cid
             ∧ experience_match_score result
               = _calculate_experience_match (parsed_resume input)
                   (parsed_jd input)
             ∧ overall_match_score result
               = (0.75 * weight (scoring_weights (parsed_jd input)) "skills" 0.4
                  + experience_match_score result
                    * weight (scoring_weights (parsed_jd input))
                        "experience" 0.35
                  + 0.8 * weight (scoring_weights (parsed_jd input))
                            "education" 0.25)%Q
             ∧ meets_experience_requirement result
               = Qgeb (_calculate_experience_match (parsed_resume input)
                         (parsed_jd input)) 0.7
             ∧ required_skills_total result
               = Z.of_nat (length (get_required_skills (parsed_jd input)))).
  { process_unfold. rewrite Hid.
    cbn -[String.append _calculate_experience_match weight Qgeb Qmult Qplus].
    eexists _, _, _. split; [reflexivity|].
    cbn -[String.append _calculate_experience_match weight Qgeb Qmult Qplus].
    repeat split; reflexivity. }
  destruct Hp as (result & expl & s1 & Hp & Hcid & Hexp & Hover & Hmeets & Hreq).
  destruct (BaseProps.run_returns (MatcherAgent agent_id) input s
              result 0.85%Q expl s1 Hp)
    as (r & s' & Hrun & Hst & Hd & Hc & _ & _ & _ & Hrev).
  exists r, s', result. repeat split; try assumption.
  - rewrite Hmeets. unfold Qgeb. rewrite Qle_bool_iff.
    unfold _calculate_experience_match.
    destruct (Z.leb_spec
                (minimum_years (experience_requirements (parsed_jd input)) * 12)
                (total_experience_months (parsed_resume input))).
    + intros _. lia.
    + destruct (Z.ltb_spec 0
                  (minimum_years (experience_requirements (parsed_jd input))
                   * 12)) as [Hpos|Hneg]; [|intros Hq; exfalso; lra].
      intros Hq. apply (inject_Z_div_bounds _ _ Hpos) in Hq. lia.
  - rewrite Hmeets. unfold Qgeb. rewrite Qle_bool_iff.
    unfold _calculate_experience_match.
    destruct (Z.leb_spec
                (minimum_years (experience_requirements (parsed_jd input)) * 12)
                (total_experience_months (parsed_resume input))).
    + intros _. lra.
    + destruct (Z.ltb_spec 0
                  (minimum_years (experience_requirements (parsed_jd input))
                   * 12)) as [Hpos|Hneg]; [|lia].
      intros Hz. apply (inject_Z_div_bounds _ _ Hpos). lia.
Qed.
End Agent.

End MatcherFacts.

Module MatcherExamples.
Import Base Candidates Matcher MatcherFacts Sample.

Lemma matcher_run_succeeds_witness :
  pr_candidate_id (parsed_resume (matcher_input 30 3)) = VStr "cand-0001-abcdef"
  ∧ (0 <= minimum_years
            (experience_requirements (parsed_jd (matcher_input 30 3))))%Z
  ∧ ∃ r s' result,
      run (MatcherAgent "MatcherAgent_1") (matcher_input 30 3) fresh_agent
      = (inl r, s')
      ∧ status r = SUCCESS
      ∧ data r = Some result
      ∧ confidence r = 0.85%Q
      ∧ requires_human_review r = false
      ∧ mr_candidate_id result = VStr "cand-0001-abcdef"
      ∧ experience_match_score result
        = _calculate_experience_match (parsed_resume (matcher_input 30 3))
            (parsed_jd (matcher_input 30 3))
      ∧ overall_match_score result
        = (0.75 * weight (scoring_weights (parsed_jd (matcher_input 30 3)))
                    "skills" 0.4
           + experience_match_score result
             * weight (scoring_weights (parsed_jd (matcher_input 30 3)))
                 "experience" 0.35
           + 0.8 * weight (scoring_weights (parsed_jd (matcher_input 30 3)))
                     "education" 0.25)%Q
      ∧ (meets_experience_requirement result = true
         ↔ (84 * minimum_years
                   (experience_requirements (parsed_jd (matcher_input 30 3)))
            <= 10 * total_experience_months
                      (parsed_resume (matcher_input 30 3)))%Z)
      ∧ required_skills_total result
        = Z.of_nat
            (length (get_required_skills (parsed_jd (matcher_input 30 3)))).
Proof.
  split; [reflexivity|]. split; [cbn; lia|].
  apply (matcher_run_succeeds "MatcherAgent_1" "cand-0001-abcdef"
           (matcher_input 30 3) fresh_agent); [reflexivity|cbn; lia].
Defined.

(** Thirty months against three required years: the experience score is
    5/6, the requirement counts as met and the overall score is
    0.5 + 0.35 * 5/6. *)
Example matcher_scores_thirty_months :
  (fun r => (meets_experience_requirement <$> data r.1,
             Qred <$> (overall_match_score <$> data r.1)))
    <$> (match run (MatcherAgent "MatcherAgent_1") (matcher_input 30 3)
                 fresh_agent with
         | (inl r, s') => Some (r, s')
         | (inr _, _) => None
         end)
  = Some (Some true, Some (19 # 24)).
Proof. vm_compute. reflexivity. Qed.

End MatcherExamples.

(* ===================================================================== *)
(** * Properties of the agent registry (core/registry.py) *)
(* ===================================================================== *)

Module PyDictFacts.
Import PyDict.

Section Dict.
Context {V : Type}.
Implicit Types (d : list (string * V)) (k : string) (v : V).

Lemma get_set k' k v d :
  get k' (set k v d) = if String.eqb k k' then Some v else get k' d.
Proof.
  induction d as [|[k0 v0] d IH]; cbn.
  - destruct (String.eqb k k'); reflexivity.
  - destruct (String.eqb_spec k0 k) as [->|Hne]; cbn.
    + destruct (String.eqb k k'); reflexivity.
    + rewrite IH. destruct (String.eqb_spec k0 k') as [->|Hne'];
        [|reflexivity].
      destruct (String.eqb_spec k k'); [congruence|reflexivity].
Qed.

Lemma get_None k d : get k d = None ↔ k ∉ keys d.
Proof.
  unfold keys. induction d as [|[k0 v0] d IH]; cbn.
  - split; [intros _; apply not_elem_of_nil|reflexivity].
  - rewrite not_elem_of_cons, <- IH.
    destruct (String.eqb_spec k0 k) as [->|Hne]; split;
      try discriminate; try tauto.
    intros Hget. split; [congruence|exact Hget].
Qed.

Lemma set_fresh k v d : k ∉ keys d → set k v d = (d ++ [(k, v)])%list.
Proof.
  unfold keys. induction d as [|[k0 v0] d IH]; cbn; [reflexivity|].
  rewrite not_elem_of_cons. intros [Hne Hnot].
  destruct (String.eqb_spec k0 k); [congruence|]. now rewrite IH.
Qed.

Lemma keys_set_present k v d : k ∈ keys d → keys (set k v d) = keys d.
Proof.
  unfold keys. induction d as [|[k0 v0] d IH]; cbn.
  - intros Hin. now apply elem_of_nil in Hin.
  - intros Hin. destruct (String.eqb_spec k0 k) as [->|Hne]; [reflexivity|].
    cbn. f_equal. apply IH. apply elem_of_cons in Hin as [Heq|Hin];
      [congruence|exact Hin].
Qed.

Lemma keys_set k v d :
  keys (set k v d)
  = if bool_decide (k ∈ keys d) then keys d else (keys d ++ [k])%list.
Proof.
  case_bool_decide as Hin.
  - now apply keys_set_present.
  - rewrite set_fresh by exact Hin. unfold keys. now rewrite fmap_app.
Qed.

Lemma NoDup_keys_set k v d : NoDup (keys d) → NoDup (keys (set k v d)).
Proof.
  intros Hnd. rewrite keys_set. case_bool_decide as Hin; [exact Hnd|].
  apply NoDup_app. split; [exact Hnd|]. split.
  - intros x Hx Hk. apply list_elem_of_singleton in Hk as ->. tauto.
  - apply NoDup_singleton.
Qed.
End Dict.

End PyDictFacts.

Module RegistryFacts.
Import Registry RegistrySpec PyDictFacts.

Section Registry.
Context `{PyRuntime}.

(** X17: Registering a class makes it the class of its name and leaves the
    other names alone; a new name goes to the end of the listing, a name
    registered before keeps its place, and no instance is made or dropped. *)
Theorem register_then_lookup (agent_class : AgentClass) (r : AgentRegistry) :
  get_agent_class (__name__ agent_class) (register agent_class r)
  = Some agent_class
  ∧ (∀ name, name ≠ __name__ agent_class →
       get_agent_class name (register agent_class r) = get_agent_class name r)
  ∧ list_agents (register agent_class r)
    = (if bool_decide (__name__ agent_class ∈ list_agents r)
       then list_agents r
       else (list_agents r ++ [__name__ agent_class])%list)
  ∧ _instances (register agent_class r) = _instances r
  ∧ uuids (register agent_class r) = uuids r.
Proof.
  unfold get_agent_class, list_agents, register. cbn.
  split; [|split; [|split; [|split; reflexivity]]].
  - rewrite get_set. now rewrite String.eqb_refl.
  - intros name Hne. rewrite get_set.
    destruct (String.eqb_spec (__name__ agent_class) name); congruence.
  - apply keys_set.
Qed.

Lemma capabilities_fold (agents : list (string * AgentClass)) :
  ∀ (done : list (string * string)) (k : nat),
    NoDup (PyDict.keys done ++ PyDict.keys agents) →
    fold_left
      (fun '(capabilities, k) '(name, agent_class) =>
         let instance := instantiate agent_class k in
         (PyDict.set name (class_description (object_class instance))
            capabilities, S k))
      agents (done, k)
    = ((done ++ (capability <$> agents))%list, (k + length agents)%nat).
Proof.
  induction agents as [|[name c] agents IH]; intros done k Hnd.
  - cbn. now rewrite app_nil_r, Nat.add_0_r.
  - cbn [fold_left]. cbn beta iota zeta.
    cbn [object_class instantiate class_description].
    assert (Hfresh : name ∉ PyDict.keys done).
    { apply NoDup_app in Hnd as (_ & Hdisj & _). intros Hin.
      apply (Hdisj name Hin). apply list_elem_of_here. }
    rewrite set_fresh by exact Hfresh. rewrite IH.
    + cbn [fmap list_fmap length]. rewrite <- app_assoc. cbn.
      f_equal. lia.
    + unfold PyDict.keys in *. rewrite fmap_app. cbn in *.
      rewrite <- app_assoc. exact Hnd.
Qed.

Lemma capabilities_state (r : AgentRegistry) :
  _agents (get_agent_capabilities r).2 = _agents r
  ∧ _instances (get_agent_capabilities r).2 = _instances r.
Proof.
  unfold get_agent_capabilities.
  destruct (fold_left _ (_agents r) ([], uuids r)) as [capabilities k].
  split; reflexivity.
Qed.

Lemma reachable_well_formed (r : AgentRegistry) :
  reachable r → well_formed r.
Proof.
  unfold well_formed, list_agents, get_agent_class.
  induction 1 as [k|c r Hr (Hnd & Hcls & Hinst)|name r Hr (Hnd & Hcls & Hinst)
                 |r Hr (Hnd & Hcls & Hinst)|r Hr _].
  - cbn. split; [apply NoDup_nil_2|]. split; intros; discriminate.
  - cbn -[PyDict.keys PyDict.set PyDict.get].
    split; [now apply NoDup_keys_set|]. split.
    + intros name agent_class. rewrite get_set.
      destruct (String.eqb_spec (__name__ c) name) as [<-|Hne].
      * now intros [= <-].
      * apply Hcls.
    + intros name instance Hget. destruct (Hinst name instance Hget) as [Hin Hn].
      split; [|exact Hn]. rewrite keys_set. case_bool_decide; [exact Hin|].
      apply elem_of_app. now left.
  - unfold get_agent_instance. cbn -[PyDict.keys PyDict.set PyDict.get].
    destruct (PyDict.get name (_instances r)) as [cached|] eqn:Hcached;
      [exact (conj Hnd (conj Hcls Hinst))|].
    destruct (PyDict.get name (_agents r)) as [c|] eqn:Hclass;
      [|exact (conj Hnd (conj Hcls Hinst))].
    cbn -[PyDict.keys PyDict.set PyDict.get].
    split; [exact Hnd|]. split; [exact Hcls|].
    intros name' instance. rewrite get_set.
    destruct (String.eqb_spec name name') as [<-|Hne]; [|apply Hinst].
    intros [= <-]. cbn. split; [|now apply Hcls].
    destruct (decide (name ∈ PyDict.keys (_agents r))) as [Hin|Hout];
      [exact Hin|].
    apply get_None in Hout. congruence.
  - destruct (capabilities_state r) as [-> ->].
    exact (conj Hnd (conj Hcls Hinst)).
  - cbn. split; [apply NoDup_nil_2|]. split; intros; discriminate.
Qed.

(** X18: In every registry that the methods produce from a new one, no name is
    listed twice, a class is registered under its own name, and a cached
    instance belongs to a listed name; asking for the instance of a name
    that is not registered returns [None] and changes nothing. *)
Theorem registry_invariant (r : AgentRegistry) :
  reachable r →
  NoDup (list_agents r)
  ∧ (∀ name agent_class,
       get_agent_class name r = Some agent_class →
       __name__ agent_class = name)
  ∧ (∀ name instance,
       PyDict.get name (_instances r) = Some instance →
       name ∈ list_agents r ∧ __name__ (object_class instance) = name)
  ∧ (∀ name, name ∉ list_agents r →
       get_agent_class name r = None
       ∧ get_agent_instance name r = (None, r)).
Proof.
  intros Hr. destruct (reachable_well_formed r Hr) as (Hnd & Hcls & Hinst).
  split; [exact Hnd|]. split; [exact Hcls|]. split; [exact Hinst|].
  intros name Hout.
  assert (Hclass : PyDict.get name (_agents r) = None)
    by now apply get_None.
  split; [exact Hclass|].
  unfold get_agent_instance.
  destruct (PyDict.get name (_instances r)) as [cached|] eqn:Hcached.
  - exfalso. apply Hout. now apply (Hinst name cached).
  - rewrite Hclass. cbn. now rewrite Hcached.
Qed.

(** X19: The first request for the instance of a registered name makes one, with
    a fresh identifier, and keeps it: the next request returns the same
    instance and draws no identifier, even after another class has been
    registered under any name, this one included. *)
Theorem get_agent_instance_caches (name : string) (agent_class : AgentClass)
    (r : AgentRegistry) :
  get_agent_class name r = Some agent_class →
  PyDict.get name (_instances r) = None →
  let made := instantiate agent_class (uuids r) in
  let r1 := (get_agent_instance name r).2 in
  get_agent_instance name r = (Some made, r1)
  ∧ _agents r1 = _agents r
  ∧ uuids r1 = S (uuids r)
  ∧ get_agent_instance name r1 = (Some made, r1)
  ∧ ∀ other, get_agent_instance name (register other r1)
             = (Some made, register other r1).
Proof.
  unfold get_agent_class. intros Hclass Hnone. cbv zeta.
  assert (Hfirst : get_agent_instance name r
            = (Some (instantiate agent_class (uuids r)),
               {| _agents := _agents r;
                  _instances :=
                    PyDict.set name (instantiate agent_class (uuids r))
                      (_instances r);
                  uuids := S (uuids r) |})).
  { unfold get_agent_instance. rewrite Hnone, Hclass. cbn.
    now rewrite get_set, String.eqb_refl. }
  rewrite Hfirst. cbn [snd].
  split; [reflexivity|]. split; [reflexivity|]. split; [reflexivity|].
  assert (Hcached : ∀ agents,
            get_agent_instance name
              {| _agents := agents;
                 _instances :=
                   PyDict.set name (instantiate agent_class (uuids r))
                     (_instances r);
                 uuids := S (uuids r) |}
            = (Some (instantiate agent_class (uuids r)),
               {| _agents := agents;
                  _instances :=
                    PyDict.set name (instantiate agent_class (uuids r))
                      (_instances r);
                  uuids := S (uuids r) |})).
  { intros agents. unfold get_agent_instance. cbn.
    rewrite get_set, String.eqb_refl. cbn.
    now rewrite get_set, String.eqb_refl. }
  split; [apply Hcached|]. intros other. apply Hcached.
Qed.

(** X20: In a registry that the methods produce from a new one,
    [get_agent_capabilities] reports the description of every registered
    class, once and in the order of the listing; it makes one instance per
    class, so it draws as many identifiers as there are classes, and it
    neither uses nor fills the cache of instances. *)
Theorem get_agent_capabilities_lists_all (r : AgentRegistry) :
  reachable r →
  (get_agent_capabilities r).1 = capability <$> _agents r
  ∧ PyDict.keys (get_agent_capabilities r).1 = list_agents r
  ∧ uuids (get_agent_capabilities r).2
    = (uuids r + length (list_agents r))%nat
  ∧ _instances (get_agent_capabilities r).2 = _instances r
  ∧ _agents (get_agent_capabilities r).2 = _agents r.
Proof.
  intros Hr. destruct (reachable_well_formed r Hr) as (Hnd & _ & _).
  unfold get_agent_capabilities, list_agents in *.
  rewrite capabilities_fold by exact Hnd. cbn.
  split; [reflexivity|]. split.
  - unfold PyDict.keys. rewrite <- list_fmap_compose.
    apply list_fmap_ext. now intros i [n c] _.
  - unfold PyDict.keys. rewrite length_fmap. repeat split; reflexivity.
Qed.
End Registry.

End RegistryFacts.

Module RegistryExamples.
Import Registry RegistrySpec RegistryFacts Sample.

Lemma two_agents_reachable : reachable two_agents.
Proof. apply reach_register, reach_register, reach_new. Qed.

Lemma registry_invariant_witness :
  reachable two_agents
  ∧ NoDup (list_agents two_agents)
  ∧ (∀ name agent_class,
       get_agent_class name two_agents = Some agent_class →
       __name__ agent_class = name)
  ∧ (∀ name instance,
       PyDict.get name (_instances two_agents) = Some instance →
       name ∈ list_agents two_agents
       ∧ __name__ (object_class instance) = name)
  ∧ (∀ name, name ∉ list_agents two_agents →
       get_agent_class name two_agents = None
       ∧ get_agent_instance name two_agents = (None, two_agents)).
Proof.
  split; [exact two_agents_reachable|].
  exact (registry_invariant two_agents two_agents_reachable).
Defined.

Lemma get_agent_instance_caches_witness :
  get_agent_class "MatcherAgent" two_agents = Some matcher_class
  ∧ PyDict.get "MatcherAgent" (_instances two_agents) = None
  ∧ let made := instantiate matcher_class (uuids two_agents) in
    let r1 := (get_agent_instance "MatcherAgent" two_agents).2 in
    get_agent_instance "MatcherAgent" two_agents = (Some made, r1)
    ∧ _agents r1 = _agents two_agents
    ∧ uuids r1 = S (uuids two_agents)
    ∧ get_agent_instance "MatcherAgent" r1 = (Some made, r1)
    ∧ ∀ other, get_agent_instance "MatcherAgent" (register other r1)
               = (Some made, register other r1).
Proof.
  split; [reflexivity|]. split; [reflexivity|].
  apply (get_agent_instance_caches "MatcherAgent" matcher_class two_agents);
    reflexivity.
Defined.

Lemma get_agent_capabilities_lists_all_witness :
  reachable two_agents
  ∧ (get_agent_capabilities two_agents).1 = capability <$> _agents two_agents
  ∧ PyDict.keys (get_agent_capabilities two_agents).1 = list_agents two_agents
  ∧ uuids (get_agent_capabilities two_agents).2
    = (uuids two_agents + length (list_agents two_agents))%nat
  ∧ _instances (get_agent_capabilities two_agents).2 = _instances two_agents
  ∧ _agents (get_agent_capabilities two_agents).2 = _agents two_agents.
Proof.
  split; [exact two_agents_reachable|].
  exact (get_agent_capabilities_lists_all two_agents two_agents_reachable).
Defined.

End RegistryExamples.

(* ===================================================================== *)
(** * Properties of the scoring weights (core/config.py) *)
(* ===================================================================== *)

Module ConfigFacts.
Import Config.

Section Weights.
Context `{PyRuntime}.

End Weights.

End ConfigFacts.

(* ===================================================================== *)
(** * Further properties of the orchestrator (agents/orchestrator.py) *)
(* ===================================================================== *)

Module PipelineFacts.
Import Base Candidates Orchestrator OrchSpec PipelineSpec OrchestratorProps.

Section Kit.
Context `{PyRuntime} `{Schemas}.

#[local] Ltac monad_unfold :=
  unfold mbind, M_bind, mret, M_ret, Py.bind, Py.ret, Py.get, Py.gets,
    Py.modify, Py.raise in *.

(** ** What every method keeps *)

Section Relation.
Variable R : PipelineState → PipelineState → Prop.
Hypothesis R_refl : ∀ st, R st st.
Hypothesis R_trans : ∀ st1 st2 st3, R st1 st2 → R st2 st3 → R st1 st3.

Lemma related_refl self : is_Some (state self) → related R self self.
Proof. intros [st Hst]. repeat split; [reflexivity|]. eauto. Qed.

Lemma related_trans self1 self2 self3 :
  related R self1 self2 → related R self2 self3 → related R self1 self3.
Proof.
  intros (Hh1 & Hj1 & Hp1 & Ha1 & st1 & st2 & Hs1 & Hs2 & Hr1)
         (Hh2 & Hj2 & Hp2 & Ha2 & st2' & st3 & Hs2' & Hs3 & Hr2).
  rewrite Hs2 in Hs2'. injection Hs2' as <-.
  split; [congruence|]. split; [congruence|]. split; [congruence|].
  split; [now transitivity (_audit_log self2)|].
  exists st1, st3. repeat split; [exact Hs1|exact Hs3|].
  exact (R_trans _ _ _ Hr1 Hr2).
Qed.

Lemma related_is_Some self self' : related R self self' → is_Some (state self').
Proof. intros (_ & _ & _ & _ & st & st' & _ & Hs & _). eauto. Qed.

Lemma keeps_ret {A} (a : A) : keeps R (mret a).
Proof using R_refl R_trans.
  intros self r self' Hs Hc. monad_unfold. injection Hc as <- <-.
  now apply related_refl.
Qed.

Lemma keeps_raise {A} (e : PyExc) : keeps R (Py.raise (A := A) e).
Proof using R_refl R_trans.
  intros self r self' Hs Hc. monad_unfold. injection Hc as <- <-.
  now apply related_refl.
Qed.

Lemma keeps_bind {A B} (c : M OrchestratorAgent A)
    (k : A → M OrchestratorAgent B) :
  keeps R c → (∀ a, keeps R (k a)) → keeps R (c ≫= k).
Proof using R_refl R_trans.
  intros Hc Hk self r self' Hs Hrun.
  destruct (bind_inv _ _ _ _ _ Hrun)
    as [(a & self1 & Hc1 & Hk1)|(e & Hc1 & _)].
  - pose proof (Hc _ _ _ Hs Hc1) as Hf.
    eapply related_trans; [exact Hf|].
    eapply Hk; [|exact Hk1]. exact (related_is_Some _ _ Hf).
  - exact (Hc _ _ _ Hs Hc1).
Qed.

Lemma keeps_try_except {A} (c : M OrchestratorAgent A)
    (handler : PyExc → M OrchestratorAgent A) :
  keeps R c → (∀ e, keeps R (handler e)) → keeps R (try_except c handler).
Proof using R_refl R_trans.
  intros Hc Hh self r self' Hs Hrun. unfold try_except in Hrun.
  destruct (c self) as [[a|e] self1] eqn:Hc1.
  - injection Hrun as <- <-. exact (Hc _ _ _ Hs Hc1).
  - pose proof (Hc _ _ _ Hs Hc1) as Hf.
    eapply related_trans; [exact Hf|].
    eapply Hh; [|exact Hrun]. exact (related_is_Some _ _ Hf).
Qed.

Lemma keeps_the_state : keeps R the_state.
Proof using R_refl R_trans.
  intros self r self' Hs Hc. pose proof Hs as [st Hst].
  rewrite (the_state_Some _ _ Hst) in Hc. injection Hc as <- <-.
  now apply related_refl.
Qed.

Lemma keeps_update_state (f : PipelineState → PipelineState) :
  (∀ st, R st (f st)) → keeps R (update_state f).
Proof using R_refl R_trans.
  intros Hf self r self' [st Hst] Hc.
  rewrite (update_state_Some _ _ _ Hst) in Hc. injection Hc as <- <-.
  repeat split; [reflexivity|]. exists st, (f st).
  repeat split; [exact Hst|apply Hf].
Qed.

Lemma keeps__log_event (event_type : string) (data : gmap string Value) :
  keeps R (_log_event event_type data).
Proof using R_refl R_trans.
  intros self r self' [st Hst] Hc.
  destruct (_log_event_state event_type data self) as (r' & Hr & _).
  rewrite Hr in Hc. injection Hc as <- <-.
  repeat split; [now apply prefix_app_r|]. exists st, st.
  repeat split; [exact Hst|exact Hst|apply R_refl].
Qed.

Lemma keeps_for_loop {A B} (xs : list A) (acc : B)
    (body : A → B → M OrchestratorAgent B) :
  (∀ x b, keeps R (body x b)) → keeps R (for_loop xs acc body).
Proof using R_refl R_trans.
  intros Hbody. revert acc.
  induction xs as [|x xs IH]; intros acc; cbn.
  - apply (keeps_ret acc).
  - apply (keeps_bind (body x acc)); [apply Hbody|apply IH].
Qed.

Lemma keeps_jd_analyzer_run (job : JobDescription) :
  keeps R (jd_analyzer_run job).
Proof using R_refl R_trans.
  intros self r self' [st Hst] Hc. unfold jd_analyzer_run, zoom in Hc.
  monad_unfold. cbn in Hc.
  destruct (Base.run (jd_analyzer self) job (jd_analyzer_st self)) as [r1 a].
  injection Hc as <- <-. repeat split; [reflexivity|]. exists st, st.
  repeat split; [exact Hst|exact Hst|apply R_refl].
Qed.

Lemma keeps_resume_parser_run (input_data : gmap string Value) :
  keeps R (resume_parser_run input_data).
Proof using R_refl R_trans.
  intros self r self' [st Hst] Hc. unfold resume_parser_run, zoom in Hc.
  monad_unfold. cbn in Hc.
  destruct (Base.run (resume_parser self) input_data (resume_parser_st self))
    as [r1 a].
  injection Hc as <- <-. repeat split; [reflexivity|]. exists st, st.
  repeat split; [exact Hst|exact Hst|apply R_refl].
Qed.
End Relation.


Lemma stage_keeps_refl st : stage_keeps st st.
Proof. repeat split; reflexivity. Qed.

Lemma stage_keeps_trans st1 st2 st3 :
  stage_keeps st1 st2 → stage_keeps st2 st3 → stage_keeps st1 st3.
Proof.
  intros (Hp1 & Hj1 & Hd1 & Hc1 & He1 & Hr1 & Hg1 & Hw1)
         (Hp2 & Hj2 & Hd2 & Hc2 & He2 & Hr2 & Hg2 & Hw2).
  repeat split; try congruence; etransitivity; eassumption.
Qed.




#[local] Ltac keeps_update :=
  intros; repeat split; cbn;
  first [ reflexivity | apply prefix_app_r; reflexivity ].

#[local] Ltac keeps_step refl trans :=
  first
    [ apply (keeps_the_state _ refl trans)
    | apply (keeps__log_event _ refl trans)
    | apply (keeps_jd_analyzer_run _ refl trans)
    | apply (keeps_resume_parser_run _ refl trans)
    | apply (keeps_update_state _ refl trans); keeps_update
    | apply (keeps_for_loop _ refl trans); intros
    | apply (keeps_bind _ refl trans); [|intros]
    | apply (keeps_try_except _ refl trans); [|intros]
    | apply (keeps_ret _ refl trans)
    | apply (keeps_raise _ refl trans)
    | match goal with
      | |- keeps _ (if ?b then _ else _) => destruct b
      | |- keeps _ (match ?x with _ => _ end) => destruct x
      end ].

Lemma keeps__execute_current_stage :
  keeps stage_keeps _execute_current_stage.
Proof.
  unfold _execute_current_stage, _run_jd_analysis, _run_resume_parsing,
    _run_matching, _run_shortlisting, _run_test_generation,
    _run_test_evaluation, _run_ranking, _run_bias_audit,
    _record_agent_response.
  repeat keeps_step stage_keeps_refl stage_keeps_trans.
Qed.



(** ** [run_pipeline] *)


(** [run_pipeline] around a loop that ended without an exception. *)
Lemma run_pipeline_wrap (fuel : nat) self st self2 st2 :
  state self = Some st →
  quiet self "pipeline_started" →
  pipeline_loop fuel (audit_log_append (started_event self st) self)
  = Some (inl tt, self2) →
  state self2 = Some st2 →
  quiet self2 "pipeline_finished" →
  run_pipeline fuel self
  = Some (inl st2, audit_log_append (finished_event self2 st2) self2).
Proof.
  intros Hst Hstart Hloop Hst2 Hfin. unfold run_pipeline. rewrite Hst.
  rewrite (_log_event_quiet _ _ _ Hstart).
  unfold started_event in Hloop. rewrite Hloop.
  rewrite (bind_inl _ _ _ _ _ (the_state_Some _ _ Hst2)).
  rewrite (bind_inl _ _ _ _ _ (_log_event_quiet _ _ _ Hfin)).
  set (self3 := audit_log_append _ self2).
  assert (Hst3 : state self3 = Some st2) by exact Hst2.
  now rewrite (the_state_Some _ _ Hst3).
Qed.

(** X23: A pipeline that is already finished, failed or waiting for a review is
    not run again: [run_pipeline] returns its state as it is and only logs
    that it started and finished. *)
Theorem run_pipeline_on_finished_pipeline (fuel : nat) self st :
  state self = Some st →
  is_terminal (current_stage st) = true →
  quiet self "pipeline_started" →
  quiet self "pipeline_finished" →
  (1 ≤ fuel)%nat →
  ∃ self',
    run_pipeline fuel self = Some (inl st, self')
    ∧ state self' = Some st
    ∧ _event_handlers self' = _event_handlers self
    ∧ _audit_log self'
      = (_audit_log self
         ++ [started_event self st;
             finished_event (audit_log_append (started_event self st) self)
               st])%list.
Proof.
  intros Hst Hterm Hstart Hfin Hfuel.
  destruct fuel as [|fuel]; [lia|].
  set (self1 := audit_log_append (started_event self st) self).
  assert (Hst1 : state self1 = Some st) by exact Hst.
  assert (Hloop : pipeline_loop (S fuel) self1 = Some (inl tt, self1)).
  { cbn [pipeline_loop]. now rewrite (the_state_Some _ _ Hst1), Hterm. }
  rewrite (run_pipeline_wrap (S fuel) self st self1 st Hst Hstart Hloop Hst1)
    by exact Hfin.
  eexists. split; [reflexivity|]. split; [exact Hst|].
  split; [reflexivity|]. cbn. now rewrite <- app_assoc.
Qed.

(** ** One iteration *)

Lemma loop_body_continue self d self1 st1 next :
  _execute_current_stage self = (inl d, self1) →
  state self1 = Some st1 →
  action d = CONTINUE → next_stage d = Some next →
  loop_body self
  = (inl Next, set_state (Some (set_current_stage next st1)) self1).
Proof.
  intros Hexec Hst1 Hact Hnext. unfold loop_body, try_except.
  rewrite (bind_inl _ _ _ _ _ Hexec), Hact, Hnext.
  now rewrite (bind_inl _ _ _ _ _ (update_state_Some _ _ _ Hst1)).
Qed.


Lemma loop_body_complete self d self1 st1 :
  _execute_current_stage self = (inl d, self1) →
  state self1 = Some st1 →
  action d = COMPLETE →
  loop_body self
  = (inl Break, set_state (Some (set_current_stage COMPLETED st1)) self1).
Proof.
  intros Hexec Hst1 Hact. unfold loop_body, try_except.
  rewrite (bind_inl _ _ _ _ _ Hexec), Hact.
  now rewrite (bind_inl _ _ _ _ _ (update_state_Some _ _ _ Hst1)).
Qed.




(** ** After the JD analysis *)

Lemma _run_resume_parsing_returns self st :
  state self = Some st →
  quiet self "agent_response" →
  ∃ d self', _run_resume_parsing self = (inl d, self') ∧ action d = CONTINUE.
Proof.
  intros Hst Hq.
  destruct (resume_parsing_loop_spec (candidates st) self [] st Hst Hq)
    as (rs & self1 & st1 & Hloop & _ & Hst1 & _).
  cbn [app] in Hloop. unfold _run_resume_parsing.
  rewrite (bind_inl _ _ _ _ _ (the_state_Some _ _ Hst)).
  change (for_loop (candidates st) [] _)
    with (for_loop (candidates st) [] resume_parsing_body).
  rewrite (bind_inl _ _ _ _ _ Hloop).
  rewrite (bind_inl _ _ _ _ _ (the_state_Some _ _ Hst1)).
  rewrite (bind_inl _ _ _ _ _ (update_state_Some _ _ _ Hst1)).
  eexists _, _. split; reflexivity.
Qed.

(** No stage after the JD analysis raises or aborts. *)
Lemma stage_succeeds self st :
  state self = Some st →
  (1 ≤ stage_rank (current_stage st))%nat →
  is_terminal (current_stage st) = false →
  quiet self "stage_started" →
  quiet self "agent_response" →
  ∃ d self1,
    _execute_current_stage self = (inl d, self1) ∧ action d ≠ ABORT.
Proof.
  intros Hst Hrank Hterm Hstarted Hresp. unfold _execute_current_stage.
  rewrite (bind_inl _ _ _ _ _ (the_state_Some _ _ Hst)).
  rewrite (bind_inl _ _ _ _ _ (_log_event_quiet _ _ _ Hstarted)).
  set (self1 := audit_log_append _ self).
  assert (Hst1 : state self1 = Some st) by exact Hst.
  destruct (current_stage st) eqn:Hstage; cbn in Hrank, Hterm;
    try lia; try discriminate.
  - destruct (_run_resume_parsing_returns self1 st Hst1 Hresp)
      as (d & self' & Hrun & Hact).
    exists d, self'. split; [exact Hrun|congruence].
  - unfold _run_matching.
    rewrite (bind_inl _ _ _ _ _ (update_state_Some _ _ _ Hst1)).
    eexists _, _. split; [reflexivity|discriminate].
  - unfold _run_shortlisting.
    rewrite (bind_inl _ _ _ _ _ (the_state_Some _ _ Hst1)).
    rewrite (bind_inl _ _ _ _ _ (update_state_Some _ _ _ Hst1)).
    eexists _, _. split; [reflexivity|discriminate].
  - unfold _run_test_generation.
    rewrite (bind_inl _ _ _ _ _ (update_state_Some _ _ _ Hst1)).
    eexists _, _. split; [reflexivity|discriminate].
  - unfold _run_test_evaluation.
    rewrite (bind_inl _ _ _ _ _ (update_state_Some _ _ _ Hst1)).
    eexists _, _. split; [reflexivity|discriminate].
  - unfold _run_ranking.
    rewrite (bind_inl _ _ _ _ _ (update_state_Some _ _ _ Hst1)).
    eexists _, _. split; [reflexivity|discriminate].
  - unfold _run_bias_audit.
    rewrite (bind_inl _ _ _ _ _ (update_state_Some _ _ _ Hst1)).
    eexists _, _. split; [reflexivity|discriminate].
  - eexists _, _. split; [reflexivity|discriminate].
Qed.

Lemma loop_body_advances self st :
  state self = Some st →
  (1 ≤ stage_rank (current_stage st))%nat →
  is_terminal (current_stage st) = false →
  quiet self "stage_started" →
  quiet self "agent_response" →
  ∃ flow self' st',
    loop_body self = (inl flow, self')
    ∧ _event_handlers self' = _event_handlers self
    ∧ state self' = Some st'
    ∧ Messages.errors st' = Messages.errors st
    ∧ match flow with
      | Next =>
          stage_rank (current_stage st') = S (stage_rank (current_stage st))
          ∧ is_terminal (current_stage st') = false
      | Break => current_stage st' = COMPLETED
      | Escape _ => False
      end.
Proof.
  intros Hst Hrank Hterm Hstarted Hresp.
  destruct (stage_succeeds self st Hst Hrank Hterm Hstarted Hresp)
    as (d & self1 & Hexec & Hact).
  pose proof (keeps__execute_current_stage _ _ _ (ex_intro _ st Hst) Hexec)
    as (Hh & _ & _ & _ & st0 & st1 & Hst0 & Hst1 & Hkeeps).
  rewrite Hst in Hst0. injection Hst0 as <-.
  destruct Hkeeps as (_ & _ & _ & Hstage & Herrs & _).
  pose proof (_execute_current_stage_decision _ _ _ _ Hst Hexec) as Hd.
  unfold stage_decision in Hd.
  destruct (action d) eqn:Hact'; try contradiction.
  - destruct Hd as (next & Hn & Hr & Hnt).
    rewrite (loop_body_continue _ _ _ _ _ Hexec Hst1 Hact' Hn).
    exists Next. eexists _, _. split; [reflexivity|].
    split; [exact Hh|]. split; [reflexivity|]. cbn.
    split; [exact Herrs|]. split; [exact Hr|exact Hnt].
  - rewrite (loop_body_complete _ _ _ _ Hexec Hst1 Hact').
    exists Break. eexists _, _. split; [reflexivity|].
    split; [exact Hh|]. split; [reflexivity|]. cbn.
    split; [exact Herrs|reflexivity].
Qed.

Lemma pipeline_loop_completes (fuel : nat) : ∀ self st,
  state self = Some st →
  (1 ≤ stage_rank (current_stage st))%nat →
  is_terminal (current_stage st) = false →
  quiet self "stage_started" →
  quiet self "agent_response" →
  (10 ≤ fuel + stage_rank (current_stage st))%nat →
  ∃ self' st',
    pipeline_loop fuel self = Some (inl tt, self')
    ∧ state self' = Some st'
    ∧ _event_handlers self' = _event_handlers self
    ∧ current_stage st' = COMPLETED
    ∧ Messages.errors st' = Messages.errors st.
Proof.
  induction fuel as [|fuel IH];
    intros self st Hst Hrank Hterm Hstarted Hresp Hfuel.
  - pose proof (is_terminal_rank _ Hterm). lia.
  - cbn [pipeline_loop]. rewrite (the_state_Some _ _ Hst), Hterm.
    destruct (loop_body_advances self st Hst Hrank Hterm Hstarted Hresp)
      as (flow & self1 & st1 & Hbody & Hh & Hst1 & Herrs & Hflow).
    rewrite Hbody. destruct flow as [| |e]; [| |contradiction].
    + destruct Hflow as (Hr & Hnt).
      assert (Hq1 : quiet self1 "stage_started").
      { intros h ev. rewrite Hh. apply Hstarted. }
      assert (Hq2 : quiet self1 "agent_response").
      { intros h ev. rewrite Hh. apply Hresp. }
      destruct (IH self1 st1 Hst1) as (self' & st' & Hl & Hs' & Hh' & Hc & He);
        [rewrite Hr; lia|exact Hnt|exact Hq1|exact Hq2|rewrite Hr; lia|].
      exists self', st'. repeat split; [exact Hl|exact Hs'| |exact Hc|];
        congruence.
    + exists self1, st1. repeat split; assumption.
Qed.

(** X25: Once the JD analysis is done, the pipeline cannot fail: from any later
    stage, and provided that no handler of the events that are logged
    raises, [run_pipeline] returns in [COMPLETED] and adds no error,
    whatever the resume parser does with the candidates. *)
Theorem run_pipeline_completes_after_jd_analysis (fuel : nat) self st :
  state self = Some st →
  (1 ≤ stage_rank (current_stage st))%nat →
  is_terminal (current_stage st) = false →
  quiet self "pipeline_started" →
  quiet self "stage_started" →
  quiet self "agent_response" →
  quiet self "pipeline_finished" →
  (9 ≤ fuel)%nat →
  ∃ st' self',
    run_pipeline fuel self = Some (inl st', self')
    ∧ state self' = Some st'
    ∧ current_stage st' = COMPLETED
    ∧ Messages.errors st' = Messages.errors st.
Proof.
  intros Hst Hrank Hterm Hstart Hstarted Hresp Hfin Hfuel.
  set (self1 := audit_log_append (started_event self st) self).
  assert (Hst1 : state self1 = Some st) by exact Hst.
  destruct (pipeline_loop_completes fuel self1 st Hst1 Hrank Hterm)
    as (self2 & st2 & Hloop & Hst2 & Hh & Hc & He);
    [exact Hstarted|exact Hresp|lia|].
  assert (Hfin2 : quiet self2 "pipeline_finished").
  { intros h ev. rewrite Hh. apply Hfin. }
  rewrite (run_pipeline_wrap fuel self st self2 st2 Hst Hstart Hloop Hst2 Hfin2).
  eexists _, _. split; [reflexivity|]. repeat split; assumption.
Qed.

(** ** A failing JD analysis *)


(** ** Event handlers *)

Lemma emit_snoc (event : Event) (handlers : list Handler) (handler : Handler)
    self :
  (∀ h, h ∈ handlers → h event = None) →
  for_loop (handlers ++ [handler])%list tt
    (fun (h : Handler) (_ : unit) =>
       match h event return M OrchestratorAgent unit with
       | None => mret tt
       | Some e => Py.raise e
       end) self
  = (outcome_of (handler event), self).
Proof.
  induction handlers as [|h hs IH]; intros Hq; cbn.
  - destruct (handler event); reflexivity.
  - rewrite (Hq h) by apply list_elem_of_here. monad_unfold. cbn.
    apply IH. intros h' Hin. apply Hq. now apply list_elem_of_further.
Qed.

(** X27: A handler registered with [on_event] is called for the events of its
    type, after the handlers registered before and after the event has been
    appended to the audit log: when those are quiet, [_log_event] raises
    exactly what the new handler raises; the events of the other types are
    logged as before. *)
Theorem on_event_dispatch (event_type : string) (handler : Handler)
    (data : gmap string Value) self :
  ∃ self1,
    on_event event_type handler self = (inl tt, self1)
    ∧ state self1 = state self
    ∧ _audit_log self1 = _audit_log self
    ∧ (quiet self event_type →
       _log_event event_type data self1
       = (outcome_of (handler (event_of event_type data self1)),
          audit_log_append (event_of event_type data self1) self1))
    ∧ (∀ other, other ≠ event_type → quiet self other →
         _log_event other data self1
         = (inl tt, audit_log_append (event_of other data self1) self1)).
Proof.
  eexists. split; [reflexivity|]. cbn. split; [reflexivity|].
  split; [reflexivity|]. split.
  - intros Hq. unfold _log_event. monad_unfold. cbn.
    rewrite lookup_insert_eq. cbn.
    apply (emit_snoc _ _ handler). intros h Hin. now apply Hq.
  - intros other Hne Hq. apply _log_event_quiet.
    intros h ev. cbn. rewrite lookup_insert_ne by congruence. apply Hq.
Qed.
End Kit.

End PipelineFacts.

Module PipelineExamples.
Import Base Candidates Orchestrator OrchSpec PipelineSpec OrchestratorProps.
Import PipelineFacts Sample.

Lemma parsing_quiet (cands : list (gmap string Value)) (event_type : string) :
  quiet (parsing cands) event_type.
Proof. apply quiet_unregistered. apply lookup_empty. Qed.

Lemma completed_quiet (event_type : string) : quiet completed event_type.
Proof. apply quiet_unregistered. apply lookup_empty. Qed.



Lemma run_pipeline_on_finished_pipeline_witness :
  state completed = Some completed_state
  ∧ is_terminal (current_stage completed_state) = true
  ∧ quiet completed "pipeline_started"
  ∧ quiet completed "pipeline_finished"
  ∧ (1 ≤ 1)%nat
  ∧ ∃ self',
      run_pipeline 1 completed = Some (inl completed_state, self')
      ∧ state self' = Some completed_state
      ∧ _event_handlers self' = _event_handlers completed
      ∧ _audit_log self'
        = (_audit_log completed
           ++ [started_event completed completed_state;
               finished_event
                 (audit_log_append (started_event completed completed_state)
                    completed)
                 completed_state])%list.
Proof.
  split; [reflexivity|]. split; [reflexivity|].
  split; [apply completed_quiet|]. split; [apply completed_quiet|].
  split; [lia|].
  apply (run_pipeline_on_finished_pipeline 1 completed completed_state);
    first [reflexivity | apply completed_quiet | lia].
Defined.


Lemma run_pipeline_completes_after_jd_analysis_witness :
  state (parsing [numbered; named]) = Some (parsing_state [numbered; named])
  ∧ (1 ≤ stage_rank (current_stage (parsing_state [numbered; named])))%nat
  ∧ is_terminal (current_stage (parsing_state [numbered; named])) = false
  ∧ quiet (parsing [numbered; named]) "pipeline_started"
  ∧ quiet (parsing [numbered; named]) "stage_started"
  ∧ quiet (parsing [numbered; named]) "agent_response"
  ∧ quiet (parsing [numbered; named]) "pipeline_finished"
  ∧ (9 ≤ 9)%nat
  ∧ ∃ st' self',
      run_pipeline 9 (parsing [numbered; named]) = Some (inl st', self')
      ∧ state self' = Some st'
      ∧ current_stage st' = COMPLETED
      ∧ Messages.errors st'
        = Messages.errors (parsing_state [numbered; named]).
Proof.
  split; [reflexivity|]. split; [cbn; lia|]. split; [reflexivity|].
  split; [apply parsing_quiet|]. split; [apply parsing_quiet|].
  split; [apply parsing_quiet|]. split; [apply parsing_quiet|].
  split; [lia|].
  apply (run_pipeline_completes_after_jd_analysis 9 (parsing [numbered; named])
           (parsing_state [numbered; named]));
    first [reflexivity | apply parsing_quiet | cbn; lia].
Defined.


(** The sample run with the failing analyzer. *)
Example failing_analyzer_run :
  (fun st => (current_stage st, Messages.errors st,
              length (agent_responses st)))
    <$> returned_state (run_pipeline 10 created_with_failing_analyzer)
  = Some (Messages.FAILED, ["JD analysis failed: ['LLM unavailable']"], 1%nat).
Proof. vm_compute. reflexivity. Qed.

End PipelineExamples.
